(** * Get-Converted-Exams: classification and formatting pipelines

    A shallow embedding of
      - the Python [DocumentAnalyzer] hosted by [src/workers/pyodideWorker.ts]
        (pattern table, [analyze_document_type], [generate_new_filename]) and
        the worker's [analyze] loop,
      - [DocumentAnalyzerService] ([src/services/documentAnalyzer.ts]), as a
        transition system over the handlers, timers and promises it creates,
      - [RustFormatterService] ([formatDocuments], [getOutputMimeType]),
        with JavaScript numbers as IEEE-754 binary64 values ([spec_float]).

    Definitions come first, the theorems about them follow. *)

From Stdlib Require Import List ZArith NArith Bool Lia String Ascii Decimal.
From Stdlib Require Import DecimalPos.
From Stdlib Require Import SpecFloat Reals Lra.
Import ListNotations.

(* ================================================================== *)
(** * Text *)
(* ================================================================== *)

(** Python [str] and JavaScript strings are sequences of code points. *)
Module Text.

Definition char := N.
Definition str := list char.

(** Reads an ASCII literal of this file as a [str]. *)
Definition py (s : string) : str :=
  map N_of_ascii (list_ascii_of_string s).
Arguments py s%_string.

Fixpoint str_eqb (a b : str) : bool :=
  match a, b with
  | [], [] => true
  | x :: a', y :: b' => N.eqb x y && str_eqb a' b'
  | _, _ => false
  end.

(** [s.startswith(w)] *)
Fixpoint starts_with (w s : str) : bool :=
  match w, s with
  | [], _ => true
  | x :: w', y :: s' => N.eqb x y && starts_with w' s'
  | _ :: _, [] => false
  end.

(** Python's [w in s] on strings: [w] occurs as a contiguous slice. *)
Fixpoint contains (w s : str) : bool :=
  starts_with w s ||
  match s with
  | [] => false
  | _ :: s' => contains w s'
  end.

(** JavaScript [s.split(sep)] for a one-character separator: never empty. *)
Fixpoint split (sep : char) (s : str) : list str :=
  match s with
  | [] => [[]]
  | c :: t =>
      if N.eqb c sep then [] :: split sep t
      else match split sep t with
           | h :: r => (c :: h) :: r
           | [] => [[c]]
           end
  end.

(** [Array.prototype.pop] on the split result: the last segment. *)
Definition pop (l : list str) : str := last l [].

Definition digit (d : N) : char := (48 + d)%N.

(** The characters [0] to [9]. *)
Definition is_digit (c : char) : bool := ((48 <=? c) && (c <=? 57))%N.

Fixpoint uint_to_str (u : Decimal.uint) : str :=
  match u with
  | Nil => []
  | D0 u => digit 0 :: uint_to_str u
  | D1 u => digit 1 :: uint_to_str u
  | D2 u => digit 2 :: uint_to_str u
  | D3 u => digit 3 :: uint_to_str u
  | D4 u => digit 4 :: uint_to_str u
  | D5 u => digit 5 :: uint_to_str u
  | D6 u => digit 6 :: uint_to_str u
  | D7 u => digit 7 :: uint_to_str u
  | D8 u => digit 8 :: uint_to_str u
  | D9 u => digit 9 :: uint_to_str u
  end.

(** Python's [f'{n}'] for an [int]. *)
Definition int_to_str (z : Z) : str :=
  match z with
  | Z0 => [digit 0]
  | Zpos p => uint_to_str (Pos.to_uint p)
  | Zneg p => 45%N :: uint_to_str (Pos.to_uint p)
  end.

End Text.

Import Text.

(* ================================================================== *)
(** * Regular expressions *)
(* ================================================================== *)

(** The fragment of Python's [re] syntax the pattern table uses: literals,
    [.], concatenation, [|], [*] and bounded repetition (unfolded).  Every
    pattern is searched with [re.IGNORECASE]; a literal [p] then accepts
    [c] when [c] is [p] itself or when the interpreter's case tables relate
    them, which is the parameter [ci]. *)
Module Regex.

Inductive regex : Type :=
| Void
| Eps
| Chr (p : char)
| Dot
| Cat (r1 r2 : regex)
| Alt (r1 r2 : regex)
| Star (r : regex).

Fixpoint lit (w : str) : regex :=
  match w with
  | [] => Eps
  | c :: w' => Cat (Chr c) (lit w')
  end.

Fixpoint rep (n : nat) (r : regex) : regex :=
  match n with
  | O => Eps
  | S n' => Cat r (rep n' r)
  end.

Section Matching.

Variable ci : char -> char -> bool.

Definition chr_match (p c : char) : bool := N.eqb c p || ci p c.

(** [.] without [re.DOTALL]: anything but a line feed. *)
Definition dot_match (c : char) : bool := negb (N.eqb c 10).

(** The words a pattern matches in full. *)
Inductive lang : regex -> str -> Prop :=
| L_eps : lang Eps []
| L_chr p c : chr_match p c = true -> lang (Chr p) [c]
| L_dot c : dot_match c = true -> lang Dot [c]
| L_cat r1 r2 u v : lang r1 u -> lang r2 v -> lang (Cat r1 r2) (u ++ v)
| L_alt_l r1 r2 u : lang r1 u -> lang (Alt r1 r2) u
| L_alt_r r1 r2 u : lang r2 u -> lang (Alt r1 r2) u
| L_star_nil r : lang (Star r) []
| L_star_app r u v : lang r u -> lang (Star r) v -> lang (Star r) (u ++ v).

Fixpoint nullable (r : regex) : bool :=
  match r with
  | Void => false
  | Eps => true
  | Chr _ => false
  | Dot => false
  | Cat r1 r2 => nullable r1 && nullable r2
  | Alt r1 r2 => nullable r1 || nullable r2
  | Star _ => true
  end.

Fixpoint deriv (c : char) (r : regex) : regex :=
  match r with
  | Void => Void
  | Eps => Void
  | Chr p => if chr_match p c then Eps else Void
  | Dot => if dot_match c then Eps else Void
  | Cat r1 r2 =>
      if nullable r1
      then Alt (Cat (deriv c r1) r2) (deriv c r2)
      else Cat (deriv c r1) r2
  | Alt r1 r2 => Alt (deriv c r1) (deriv c r2)
  | Star r1 => Cat (deriv c r1) (Star r1)
  end.

(** [re.fullmatch] *)
Fixpoint matches (r : regex) (s : str) : bool :=
  match s with
  | [] => nullable r
  | c :: s' => matches (deriv c r) s'
  end.

(** [re.match]: some prefix of [s] is matched. *)
Fixpoint match_prefix (r : regex) (s : str) : bool :=
  nullable r ||
  match s with
  | [] => false
  | c :: s' => match_prefix (deriv c r) s'
  end.

(** [re.search], as a truth value: some slice of [s] is matched. *)
Fixpoint search (r : regex) (s : str) : bool :=
  match_prefix r s ||
  match s with
  | [] => false
  | _ :: s' => search r s'
  end.

(** The declarative reading of a successful search. *)
Definition found (r : regex) (s : str) : Prop :=
  exists pre mid post, s = pre ++ mid ++ post /\ lang r mid.

End Matching.

End Regex.

Import Regex.

(* ================================================================== *)
(** * The Python document analyzer (pyodideWorker.ts, lines 28-121) *)
(* ================================================================== *)

Module Analyzer.

(** Document-type tags are plain Python strings. *)
Definition t_aadhaar : str := py "aadhaar".
Definition t_photo : str := py "photo".
Definition t_signature : str := py "signature".
Definition t_marksheet : str := py "marksheet".
Definition t_certificate : str := py "certificate".
Definition t_caste_certificate : str := py "caste_certificate".
Definition t_income_certificate : str := py "income_certificate".
Definition t_document : str := py "document".

(** [a.*b] *)
Definition gap (a b : str) : regex :=
  Cat (lit a) (Cat (Star Dot) (lit b)).

(** [self.document_patterns]: a dict literal, iterated in insertion
    order.  The analyzer's source text sits in an untagged template
    literal of the worker, where a backslash before [d] or [s] is an
    identity escape: the second aadhaar pattern reaches [re] as
    [d{4}s*d{4}s*d{4}]. *)
Definition document_patterns : list (str * list regex) :=
  [ (t_aadhaar,
      [ Alt (lit (py "aadhaar")) (lit [2310; 2343; 2366; 2352]%N);
        Cat (rep 4 (Chr 100%N))
          (Cat (Star (Chr 115%N))
             (Cat (rep 4 (Chr 100%N))
                (Cat (Star (Chr 115%N)) (rep 4 (Chr 100%N)))));
        lit (py "government of india");
        lit (py "unique identification authority") ]);
    (t_photo,
      [ Alt (lit (py "photograph")) (lit (py "photo"));
        gap (py "passport") (py "size");
        gap (py "recent") (py "photo") ]);
    (t_signature,
      [ Alt (lit (py "signature")) (lit (py "sign"));
        gap (py "specimen") (py "signature");
        gap (py "thumb") (py "impression") ]);
    (t_marksheet,
      [ Alt (gap (py "mark") (py "sheet")) (lit (py "marksheet"));
        Alt (gap (py "grade") (py "sheet")) (lit (py "gradesheet"));
        lit (py "transcript");
        gap (py "examination") (py "result");
        gap (py "board") (py "examination") ]);
    (t_certificate,
      [ lit (py "certificate");
        lit (py "diploma");
        lit (py "degree");
        lit (py "graduation");
        gap (py "post") (py "graduation") ]);
    (t_caste_certificate,
      [ gap (py "caste") (py "certificate");
        gap (py "community") (py "certificate");
        Alt (gap (py "sc") (py "certificate"))
          (Alt (gap (py "st") (py "certificate")) (gap (py "obc") (py "certificate")));
        gap (py "backward") (py "class") ]);
    (t_income_certificate,
      [ gap (py "income") (py "certificate");
        gap (py "annual") (py "income");
        gap (py "salary") (py "certificate") ]) ].

(** The fifth entry of the table. *)
Definition certificate_rule : str * list regex :=
  (t_certificate,
    [ lit (py "certificate"); lit (py "diploma"); lit (py "degree");
      lit (py "graduation"); gap (py "post") (py "graduation") ]).

Section Analyze.

(** The interpreter's Unicode tables: [str.lower] and the pairs of
    distinct characters that [re.IGNORECASE] identifies. *)
Variable lower : str -> str.
Variable ci : char -> char -> bool.

(** [for pattern in patterns: if re.search(...): return doc_type] *)
Fixpoint scan_patterns (patterns : list regex) (s : str) : bool :=
  match patterns with
  | [] => false
  | pattern :: rest =>
      if search ci pattern s then true else scan_patterns rest s
  end.

(** [for doc_type, patterns in self.document_patterns.items(): ...] *)
Fixpoint scan_rules (rules : list (str * list regex)) (s : str)
  : option str :=
  match rules with
  | [] => None
  | (doc_type, patterns) :: rest =>
      if scan_patterns patterns s then Some doc_type
      else scan_rules rest s
  end.

(** [any(word in filename_lower for word in words)] *)
Definition any_word (words : list str) (s : str) : bool :=
  existsb (fun word => contains word s) words.

Definition analyze_document_type (filename : str) : str :=
  let filename_lower := lower filename in
  match scan_rules document_patterns filename_lower with
  | Some doc_type => doc_type
  | None =>
      if any_word [py "photo"; py "pic"; py "image"; py "passport"] filename_lower
      then t_photo
      else if any_word [py "sign"; py "signature"] filename_lower
      then t_signature
      else if any_word [py "mark"; py "grade"; py "result"] filename_lower
      then t_marksheet
      else if any_word [py "cert"; py "certificate"] filename_lower
      then t_certificate
      else if any_word [py "aadhaar"; py "aadhar"; py "uid"] filename_lower
      then t_aadhaar
      else t_document
  end.

(** A rule fires on [s] when one of its patterns is found in [s]. *)
Definition rule_fires (rule : str * list regex) (s : str) : Prop :=
  exists pattern, In pattern (snd rule) /\ found ci pattern s.

End Analyze.

(** The fallback heuristic as the specification words it: keyword groups
    in a fixed order, the first group with a keyword occurring in the
    name decides, and [document] is the default. *)
Definition spec_fallback_keywords : list (list str * str) :=
  [ ([py "photo"; py "pic"; py "image"; py "passport"], t_photo);
    ([py "sign"; py "signature"], t_signature);
    ([py "mark"; py "grade"; py "result"], t_marksheet);
    ([py "cert"; py "certificate"], t_certificate);
    ([py "aadhaar"; py "aadhar"; py "uid"], t_aadhaar) ].

Definition spec_keyword_fallback (s : str) : str :=
  match find (fun group => existsb (fun w => contains w s) (fst group))
          spec_fallback_keywords with
  | Some group => snd group
  | None => t_document
  end.

(** The keyword chain of [analyze_document_type] without the words that a
    pattern of the table already finds ([photo], [sign], [signature],
    [certificate], [aadhaar]); the [signature] branch has none left. *)
Definition uncaught_keyword_fallback (s : str) : str :=
  if any_word [py "pic"; py "image"; py "passport"] s then t_photo
  else if any_word [py "mark"; py "grade"; py "result"] s then t_marksheet
  else if any_word [py "cert"] s then t_certificate
  else if any_word [py "aadhar"; py "uid"] s then t_aadhaar
  else t_document.

(** The enumeration of the glossary. *)
Definition document_types : list str :=
  [ t_aadhaar; t_photo; t_signature; t_marksheet; t_certificate;
    t_caste_certificate; t_income_certificate; t_document ].

(** [type_mapping], with the f-strings expanded. *)
Definition type_mapping (exam_code : str) : list (str * str) :=
  [ (t_photo, exam_code ++ py "_photograph");
    (t_signature, exam_code ++ py "_signature");
    (t_aadhaar, exam_code ++ py "_aadhaar_card");
    (t_marksheet, exam_code ++ py "_marksheet");
    (t_certificate, exam_code ++ py "_certificate");
    (t_caste_certificate, exam_code ++ py "_caste_certificate");
    (t_income_certificate, exam_code ++ py "_income_certificate");
    (t_document, exam_code ++ py "_document") ].

(** [dict.get(key, default)] *)
Fixpoint dict_get (d : list (str * str)) (key default : str) : str :=
  match d with
  | [] => default
  | (k, v) :: rest => if str_eqb k key then v else dict_get rest key default
  end.

Definition generate_new_filename (detected_type exam_code : str) (index : Z)
  : str :=
  let base_name :=
    dict_get (type_mapping exam_code) detected_type
      (exam_code ++ py "_document") in
  if (index >? 0)%Z
  then base_name ++ py "_" ++ int_to_str (index + 1)
  else base_name.

(** The type nouns of the naming convention, as the specification lists
    the stems [{examCode}_{typeNoun}]; any other type reads [document]. *)
Definition spec_type_nouns : list (str * str) :=
  [ (t_photo, py "photograph");
    (t_signature, py "signature");
    (t_aadhaar, py "aadhaar_card");
    (t_marksheet, py "marksheet");
    (t_certificate, py "certificate");
    (t_caste_certificate, py "caste_certificate");
    (t_income_certificate, py "income_certificate");
    (t_document, py "document") ].

Definition spec_type_noun (detected_type : str) : str :=
  dict_get spec_type_nouns detected_type (py "document").

Definition spec_suffix (index : Z) : str :=
  if (index >? 0)%Z then py "_" ++ int_to_str (index + 1) else [].

(** ** Tables for plain ASCII text

    On code points below 128 [str.lower] shifts [A]-[Z] and
    [re.IGNORECASE] relates a letter to its other case only; these two
    functions are the interpreter's tables cut down to that range. *)
Definition ascii_lower_char (c : char) : char :=
  if ((65 <=? c) && (c <=? 90))%N then (c + 32)%N else c.

Definition ascii_lower (s : str) : str := map ascii_lower_char s.

Definition ascii_ci (p c : char) : bool :=
  N.eqb (ascii_lower_char c) (ascii_lower_char p).

End Analyzer.

Import Analyzer.

(* ================================================================== *)
(** * JavaScript numbers *)
(* ================================================================== *)

(** A JavaScript [number] is an IEEE-754 binary64 value; array lengths and
    loop counters are the integers among them. *)
Module JsNumber.

Definition number := spec_float.

Definition prec : Z := 53.
Definition emax : Z := 1024.

Definition of_Z (z : Z) : number := binary_normalize prec emax z 0 false.
Definition of_nat (n : nat) : number := of_Z (Z.of_nat n).

Definition div : number -> number -> number := SFdiv prec emax.
Definition mul : number -> number -> number := SFmul prec emax.

Definition eq_dec (a b : number) : {a = b} + {a <> b}.
Proof.
  decide equality;
    try apply Bool.bool_dec; try apply Z.eq_dec; apply Pos.eq_dec.
Defined.

(** Neither an infinity nor NaN. *)
Definition is_finite (x : number) : bool :=
  match x with
  | S754_zero _ | S754_finite _ _ _ => true
  | S754_infinity _ | S754_nan => false
  end.

(** The real number a finite value stands for. *)
Definition value (x : number) : R :=
  match x with
  | S754_finite s m e =>
      (if s then - IZR (Zpos m) else IZR (Zpos m)) * powerRZ 2 e
  | _ => 0
  end.

(** [Number.isInteger] *)
Definition is_integer (x : number) : bool :=
  match x with
  | S754_zero _ => true
  | S754_finite _ m e =>
      (0 <=? e)%Z || (Zpos m mod 2 ^ (- e) =? 0)%Z
  | S754_infinity _ | S754_nan => false
  end.

(** Array lengths are below [2^32]. *)
Definition max_length : Z := 2 ^ 32.

(** The exponent a binary64 value with [e] significant exponent bits is
    rounded at, and the real number [m * 2^e]. *)
Definition fexp64 (e : Z) : Z := fexp prec emax e.

Definition scaled (m e : Z) : R := (IZR m * powerRZ 2 e)%R.

End JsNumber.

Import JsNumber.

(* ================================================================== *)
(** * Records shared by the two services *)
(* ================================================================== *)

Module Types.

Inductive Status := pending | processing | completed | error.

(** A [File] object, known by its identity; its bytes are only reached
    through [arrayBuffer()]. *)
Definition File := N.

Definition bytes := list N.

Record Blob := { blob_data : bytes; blob_type : str }.

(** Modelled from the spec: the [ProcessedFile] interface of [src/types],
    which is not part of the sources; the fields are those the two
    services read or write, optional ones as [option]. *)
Record ProcessedFile := {
  pf_id : str;
  pf_file : File;
  pf_originalName : str;
  pf_detectedType : option str;
  pf_newName : option str;
  pf_status : Status;
  pf_progress : number;
  pf_error : option str;
  pf_formattedFile : option Blob
}.

(** Modelled from the spec: the [ExamConfig] interface of [src/types];
    [format] is kept as a string since [getOutputMimeType] has a default
    branch. *)
Record FormatSpec := { format : str }.
Record Formats := {
  fmt_photo : FormatSpec;
  fmt_signature : FormatSpec;
  fmt_documents : FormatSpec
}.
Record ExamConfig := { examCode : str; formats : Formats }.

(** What a [catch] clause receives: an [Error] with its message, or any
    other value. *)
Inductive Thrown :=
| ErrorObject (message : str)
| OtherValue (tag : N).

End Types.

Import Types.

(* ================================================================== *)
(** * The worker's message handler (pyodideWorker.ts, lines 5-163) *)
(* ================================================================== *)

Module Worker.

(** [{ id, name }] of the request. *)
Record FileRef := { ref_id : str; ref_name : str }.

(** One element of [results]. *)
Record Entry := {
  e_id : str;
  e_originalName : str;
  e_detectedType : str;
  e_newName : str
}.

Inductive Request :=
| Analyze (files : list FileRef) (examCode : str)
| OtherRequest.

(** [{ type, data, error }] as the service destructures it. *)
Inductive Message :=
| MsgResult (data : list Entry)
| MsgError (error : str)
| MsgOther.

(** Text spliced between double quotes into Python source denotes itself
    when it has no quote, backslash, line break, NUL or surrogate. *)
Definition literal_safe_char (c : char) : bool :=
  negb (N.eqb c 0 || N.eqb c 10 || N.eqb c 13 || N.eqb c 34 || N.eqb c 92
        || ((55296 <=? c) && (c <=? 57343)))%N.

Definition literal_safe (s : str) : bool := forallb literal_safe_char s.

Section Handler.

Variable lower : str -> str.
Variable ci : char -> char -> bool.

(** [py_literal body]: what the interpreter makes of the source text
    ["body"] in argument position when it reads it as one string literal:
    the [str] it denotes ([inl]), or the message of the exception
    [runPython] throws ([inr]).  Text that is not [literal_safe] can end
    the literal early and splice other Python into the call; the value of
    such a call is not described here, and what is stated about the value
    of a splice is stated for [literal_safe] text. *)
Variable py_literal : str -> str + str.

(** [pyodide.runPython(`analyzer.analyze_document_type("${file.name}")`)] *)
Definition run_analyze_document_type (name : str) : str + str :=
  match py_literal name with
  | inl filename => inl (analyze_document_type lower ci filename)
  | inr msg => inr msg
  end.

(** [pyodide.runPython(`analyzer.generate_new_filename("${detectedType}",
    "${examCode}", ${i})`)] *)
Definition run_generate_new_filename (detectedType examCode : str)
  (i : nat) : str + str :=
  match py_literal detectedType with
  | inr msg => inr msg
  | inl detected_type =>
      match py_literal examCode with
      | inr msg => inr msg
      | inl exam_code =>
          inl (generate_new_filename detected_type exam_code (Z.of_nat i))
      end
  end.

(** The [for] loop from index [i] on, [results] holding the entries
    pushed so far; an exception leaves the loop for the [catch]. *)
Fixpoint analyze_loop (files : list FileRef) (examCode : str) (i : nat)
  (results : list Entry) : list Entry + str :=
  match files with
  | [] => inl results
  | file :: rest =>
      match run_analyze_document_type (ref_name file) with
      | inr msg => inr msg
      | inl detectedType =>
          match run_generate_new_filename detectedType examCode i with
          | inr msg => inr msg
          | inl newName =>
              analyze_loop rest examCode (S i)
                (results ++
                 [ {| e_id := ref_id file;
                      e_originalName := ref_name file;
                      e_detectedType := detectedType;
                      e_newName :=
                        newName ++ py "." ++
                        pop (split 46%N (ref_name file)) |} ])
          end
      end
  end.

(** [self.onmessage]; [boot] is the outcome of loading Pyodide when it
    is not loaded yet ([Some msg]: the load throws).  A request of
    another type is answered by nothing. *)
Definition onmessage (boot : option str) (req : Request)
  : option Message :=
  match boot with
  | Some msg => Some (MsgError msg)
  | None =>
      match req with
      | Analyze files examCode =>
          match analyze_loop files examCode 0 [] with
          | inl results => Some (MsgResult results)
          | inr msg => Some (MsgError msg)
          end
      | OtherRequest => None
      end
  end.

End Handler.

(** The entry expected for the file at position [i] of the batch. *)
Definition entry_at (lower : str -> str) (ci : char -> char -> bool)
  (examCode : str) (i : nat) (file : FileRef) : Entry :=
  let detectedType := analyze_document_type lower ci (ref_name file) in
  {| e_id := ref_id file;
     e_originalName := ref_name file;
     e_detectedType := detectedType;
     e_newName :=
       generate_new_filename detectedType examCode (Z.of_nat i)
       ++ py "." ++ pop (split 46%N (ref_name file)) |}.

(** The reading of spliced text used to run the handler on plain names. *)
Definition plain_literal (s : str) : str + str :=
  if literal_safe s then inl s else inr (py "SyntaxError").

End Worker.

Import Worker.

(* ================================================================== *)
(** * DocumentAnalyzerService (documentAnalyzer.ts) *)
(* ================================================================== *)

(** The service runs on one event loop.  Its state is the worker it holds
    (with the two handler slots and the messages posted to it), the calls
    of [analyzeDocuments] suspended at [await this.initialize()], and, for
    every call made so far, what its closures captured: the [files] and
    [examCode], its timer and the promise it returned.  A handler slot
    holds the number of the call whose closure it is.  Creating the worker
    is taken to succeed. *)
Module Channel.

(** Why a promise was rejected: [new Error(message)], or the [ErrorEvent]
    handed to [worker.onerror]. *)
Inductive Reason :=
| JsError (message : str)
| ErrorEvent (ev : N).

Inductive Promise :=
| Pending
| Resolved (files : list ProcessedFile)
| Rejected (reason : Reason).

Record WorkerObj := {
  w_onmessage : option nat;
  w_onerror : option nat;
  w_posted : list Request
}.

Record Call := {
  c_files : list ProcessedFile;
  c_examCode : str;
  c_timer : option Z;          (* armed timer: the time it is due *)
  c_promise : Promise
}.

Record Service := {
  worker : option WorkerObj;
  calls : list Call;
  awaiting : list nat;         (* calls suspended at the [await], oldest first *)
  clock : Z                    (* milliseconds *)
}.

Definition fresh : Service :=
  {| worker := None; calls := []; awaiting := []; clock := 0 |}.

(** [initialize()] *)
Definition initialize (s : Service) : Service :=
  match worker s with
  | None =>
      {| worker := Some {| w_onmessage := None; w_onerror := None;
                           w_posted := [] |};
         calls := calls s; awaiting := awaiting s; clock := clock s |}
  | Some _ => s
  end.

(** [data.find((r: any) => r.id === file.id)] *)
Definition find_result (data : list Entry) (file : ProcessedFile)
  : option Entry :=
  find (fun r => str_eqb (e_id r) (pf_id file)) data.

(** The callback of [files.map] (lines 37-48). *)
Definition update_file (data : list Entry) (file : ProcessedFile)
  : ProcessedFile :=
  match find_result data file with
  | Some result =>
      {| pf_id := pf_id file;
         pf_file := pf_file file;
         pf_originalName := pf_originalName file;
         pf_detectedType := Some (e_detectedType result);
         pf_newName := Some (e_newName result);
         pf_status := completed;
         pf_progress := pf_progress file;
         pf_error := pf_error file;
         pf_formattedFile := pf_formattedFile file |}
  | None => file
  end.

Definition updatedFiles (files : list ProcessedFile) (data : list Entry)
  : list ProcessedFile :=
  map (update_file data) files.

Fixpoint update_nth (k : nat) (f : Call -> Call) (l : list Call)
  : list Call :=
  match l, k with
  | [], _ => []
  | c :: rest, O => f c :: rest
  | c :: rest, S k' => c :: update_nth k' f rest
  end.

(** The closure of call [k] acts on that call's timer and promise. *)
Definition update_call (k : nat) (f : Call -> Call) (s : Service)
  : Service :=
  {| worker := worker s;
     calls := update_nth k f (calls s);
     awaiting := awaiting s;
     clock := clock s |}.

(** [resolve] and [reject] act on a pending promise only. *)
Definition settle (p : Promise) (c : Call) : Call :=
  match c_promise c with
  | Pending =>
      {| c_files := c_files c; c_examCode := c_examCode c;
         c_timer := c_timer c; c_promise := p |}
  | _ => c
  end.

(** [clearTimeout(timeout)] *)
Definition clear_timer (c : Call) : Call :=
  {| c_files := c_files c; c_examCode := c_examCode c;
     c_timer := None; c_promise := c_promise c |}.

(** [setTimeout(..., 30000)] at time [now] *)
Definition timeout_ms : Z := 30000.

Definition arm_timer (now : Z) (c : Call) : Call :=
  {| c_files := c_files c; c_examCode := c_examCode c;
     c_timer := Some (now + timeout_ms)%Z; c_promise := c_promise c |}.

(** The request [postMessage] sends for a batch. *)
Definition request_of (files : list ProcessedFile) (examCode : str) : Request :=
  Analyze (map (fun f => {| ref_id := pf_id f; ref_name := pf_originalName f |})
             files) examCode.

(** The executor of [new Promise] (lines 20-65), run for call [k]. *)
Definition executor (k : nat) (s : Service) : Service :=
  match worker s with
  | None =>
      update_call k (settle (Rejected (JsError (py "Worker not initialized"))))
        s
  | Some w =>
      match nth_error (calls s) k with
      | Some c =>
          {| worker :=
               Some {| w_onmessage := Some k;
                       w_onerror := Some k;
                       w_posted := w_posted w ++
                         [request_of (c_files c) (c_examCode c)] |};
             calls := update_nth k (arm_timer (clock s)) (calls s);
             awaiting := awaiting s;
             clock := clock s |}
      | None => s
      end
  end.

(** A call enters: its arguments are bound and its promise exists. *)
Definition enter (files : list ProcessedFile) (examCode : str) (s : Service)
  : Service :=
  {| worker := worker s;
     calls := calls s ++
       [ {| c_files := files; c_examCode := examCode;
            c_timer := None; c_promise := Pending |} ];
     awaiting := awaiting s;
     clock := clock s |}.

(** [analyzeDocuments(files, examCode)] up to the point where it returns
    its promise: with a worker at hand the executor runs at once; without
    one the worker is created and the call is suspended at the [await].
    The result is the new state and the number of the call. *)
Definition analyzeDocuments (files : list ProcessedFile) (examCode : str)
  (s : Service) : Service * nat :=
  let k := List.length (calls s) in
  match worker s with
  | Some _ => (executor k (enter files examCode s), k)
  | None =>
      let s' := initialize (enter files examCode s) in
      ({| worker := worker s'; calls := calls s';
          awaiting := awaiting s' ++ [k]; clock := clock s' |}, k)
  end.

(** The continuation of the oldest suspended call: its executor. *)
Definition resume (s : Service) : option Service :=
  match awaiting s with
  | [] => None
  | k :: rest =>
      Some (executor k {| worker := worker s; calls := calls s;
                          awaiting := rest; clock := clock s |})
  end.

(** The body of the [onmessage] closure of call [k] (lines 30-51). *)
Definition handle_message (k : nat) (msg : Message) (s : Service)
  : Service :=
  let s := update_call k clear_timer s in
  match msg with
  | MsgError err =>
      update_call k (settle (Rejected (JsError err))) s
  | MsgResult data =>
      update_call k
        (fun c => settle (Resolved (updatedFiles (c_files c) data)) c) s
  | MsgOther => s
  end.

(** The body of the [onerror] closure of call [k] (lines 53-56). *)
Definition handle_error (k : nat) (ev : N) (s : Service) : Service :=
  let s := update_call k clear_timer s in
  update_call k (settle (Rejected (ErrorEvent ev))) s.

Definition timeout_error : Reason :=
  JsError (py "Document analysis timeout").

(** The timer callback of call [k] (lines 26-28). *)
Definition handle_timeout (k : nat) (s : Service) : Service :=
  update_call k (fun c => settle (Rejected timeout_error) (clear_timer c)) s.

(** [terminate()] *)
Definition terminate (s : Service) : Service :=
  match worker s with
  | Some _ =>
      {| worker := None; calls := calls s; awaiting := awaiting s;
         clock := clock s |}
  | None => s
  end.

(** What runs next on the event loop.  Calls of the service's methods come
    from the caller's code at any point; a suspended call resumes as a
    microtask; events of the worker and timers are tasks, taken only when
    no microtask is waiting. *)
Inductive Event :=
| EvCall (files : list ProcessedFile) (examCode : str)
| EvResume
| EvMessage (msg : Message)      (* a message event from the worker *)
| EvError (ev : N)               (* an error event from the worker *)
| EvTimer (k : nat)              (* the timer of call [k] is due *)
| EvTerminate
| EvWait (dt : Z).               (* time passes *)

(** One turn; [None] when the event cannot occur in this state (a task
    while a continuation waits, no worker, no handler installed, timer
    cleared or not due yet, nothing to resume, negative delay). *)
Definition step (s : Service) (ev : Event) : option Service :=
  match ev with
  | EvCall files examCode => Some (fst (analyzeDocuments files examCode s))
  | EvResume => resume s
  | EvMessage msg =>
      match awaiting s, worker s with
      | [], Some w =>
          match w_onmessage w with
          | Some k => Some (handle_message k msg s)
          | None => None
          end
      | _, _ => None
      end
  | EvError e =>
      match awaiting s, worker s with
      | [], Some w =>
          match w_onerror w with
          | Some k => Some (handle_error k e s)
          | None => None
          end
      | _, _ => None
      end
  | EvTimer k =>
      match awaiting s, nth_error (calls s) k with
      | [], Some c =>
          match c_timer c with
          | Some due =>
              if (due <=? clock s)%Z then Some (handle_timeout k s)
              else None
          | None => None
          end
      | _, _ => None
      end
  | EvTerminate => Some (terminate s)
  | EvWait dt =>
      if (0 <=? dt)%Z
      then Some {| worker := worker s; calls := calls s;
                   awaiting := awaiting s; clock := (clock s + dt)%Z |}
      else None
  end.

Fixpoint run (s : Service) (evs : list Event) : option Service :=
  match evs with
  | [] => Some s
  | ev :: rest =>
      match step s ev with
      | Some s' => run s' rest
      | None => None
      end
  end.

(** The promise returned by call [k], the array its closures captured and
    its timer. *)
Definition promise_of (s : Service) (k : nat) : option Promise :=
  option_map c_promise (nth_error (calls s) k).

Definition captured_files (s : Service) (k : nat)
  : option (list ProcessedFile) :=
  option_map c_files (nth_error (calls s) k).

Definition timer_of (s : Service) (k : nat) : option (option Z) :=
  option_map c_timer (nth_error (calls s) k).

(** The executor of call [k] is about to run in [s] with a worker at hand:
    the call is recorded as [c], its promise is pending and it is not (or
    no longer) suspended.  This is the state [enter] leaves when the worker
    exists, and the state in which a suspended call is resumed. *)
Definition launches (s : Service) (k : nat) (c : Call) : Prop :=
  worker s <> None
  /\ nth_error (calls s) k = Some c
  /\ c_promise c = Pending
  /\ ~ In k (awaiting s).

(** [c'] is a later record of the call recorded as [c]: the same captured
    files, and the same promise once it was settled. *)
Definition same_or_settled (c c' : Call) : Prop :=
  c_files c' = c_files c
  /\ (c_promise c <> Pending -> c_promise c' = c_promise c).

(** An event that runs a handler of call [k] with a reply of the worker:
    a message or error event while the slot holds [k]. *)
Definition delivers_to (k : nat) (s : Service) (ev : Event) : bool :=
  match ev, awaiting s, worker s with
  | EvMessage _, [], Some w =>
      match w_onmessage w with Some j => Nat.eqb j k | None => false end
  | EvError _, [], Some w =>
      match w_onerror w with Some j => Nat.eqb j k | None => false end
  | _, _, _ => false
  end.

(** No event of [evs], run from [s], hands call [k] a reply. *)
Fixpoint silent_for (k : nat) (s : Service) (evs : list Event) : bool :=
  match evs with
  | [] => true
  | ev :: rest =>
      negb (delivers_to k s ev) &&
      match step s ev with
      | Some s' => silent_for k s' rest
      | None => true
      end
  end.

(** Call [k] exists, is not suspended, and neither handler slot holds it. *)
Definition superseded (k : nat) (s : Service) : Prop :=
  k < List.length (calls s)
  /\ ~ In k (awaiting s)
  /\ match worker s with
     | Some w => w_onmessage w <> Some k /\ w_onerror w <> Some k
     | None => True
     end.

(** The timer of call [k] does not run among [evs]. *)
Definition timer_free (k : nat) (evs : list Event) : bool :=
  forallb (fun ev => match ev with
                     | EvTimer j => negb (Nat.eqb j k)
                     | _ => true
                     end) evs.

(** Only time passes and timers run among [evs]: no call, no resumption,
    no reply of the worker and no [terminate()]. *)
Definition only_timers (evs : list Event) : bool :=
  forallb (fun ev => match ev with
                     | EvWait _ | EvTimer _ => true
                     | _ => false
                     end) evs.

(** No event of [evs] is a call of [analyzeDocuments]. *)
Definition call_free (evs : list Event) : bool :=
  forallb (fun ev => match ev with
                     | EvCall _ _ => false
                     | _ => true
                     end) evs.

End Channel.

Import Channel.

(* ================================================================== *)
(** * RustFormatterService (formatDocuments, getOutputMimeType) *)
(* ================================================================== *)

Module Formatter.

(** The collaborators of one [formatDocuments] call.  Each may throw;
    those called in the loop may answer differently at each index [i]. *)
Record Engine := {
  (** [initialize()]: importing and instantiating the WASM module *)
  load : option Thrown;
  (** [this.formatter.set_config(examConfig)] *)
  set_config : ExamConfig -> option Thrown;
  (** [file.file.arrayBuffer()] in iteration [i] *)
  arrayBuffer : nat -> File -> bytes + Thrown;
  (** [this.formatter.format_document(bytes, detectedType, originalName)]
      in iteration [i] *)
  format_document : nat -> bytes -> option str -> str -> bytes + Thrown
}.

(** [onProgress]: its [n]-th call, with the number it is given. *)
Definition Callback := nat -> number -> option Thrown.

(** What a run does, in order. *)
Inductive Action :=
| Progress (v : number)         (* [onProgress(v)] *)
| Read (i : nat)                (* [arrayBuffer()] of record [i] *)
| Convert (i : nat).            (* [format_document] on record [i] *)

Definition str_is (s : option str) (lit : str) : bool :=
  match s with
  | Some x => str_eqb x lit
  | None => false
  end.

Definition getOutputMimeType (documentType : option str)
  (examConfig : ExamConfig) : str :=
  let format :=
    if str_is documentType (py "photo")
    then format (fmt_photo (formats examConfig))
    else if str_is documentType (py "signature")
    then format (fmt_signature (formats examConfig))
    else format (fmt_documents (formats examConfig)) in
  if str_eqb format (py "JPEG") then py "image/jpeg"
  else if str_eqb format (py "PNG") then py "image/png"
  else if str_eqb format (py "PDF") then py "application/pdf"
  else py "image/jpeg".

(** [(i / total) * 100] *)
Definition progress_value (i total : nat) : number :=
  mul (div (of_nat i) (of_nat total)) (of_Z 100).

(** [error instanceof Error ? error.message : 'Unknown error'] *)
Definition error_message (e : Thrown) : str :=
  match e with
  | ErrorObject message => message
  | OtherValue _ => py "Unknown error"
  end.

(** [{ ...file, status: 'completed', progress: 100, formattedFile }] *)
Definition completed_record (file : ProcessedFile) (blob : Blob)
  : ProcessedFile :=
  {| pf_id := pf_id file;
     pf_file := pf_file file;
     pf_originalName := pf_originalName file;
     pf_detectedType := pf_detectedType file;
     pf_newName := pf_newName file;
     pf_status := completed;
     pf_progress := of_Z 100;
     pf_error := pf_error file;
     pf_formattedFile := Some blob |}.

(** [{ ...file, status: 'error', error: ... }] *)
Definition error_record (file : ProcessedFile) (e : Thrown)
  : ProcessedFile :=
  {| pf_id := pf_id file;
     pf_file := pf_file file;
     pf_originalName := pf_originalName file;
     pf_detectedType := pf_detectedType file;
     pf_newName := pf_newName file;
     pf_status := error;
     pf_progress := pf_progress file;
     pf_error := Some (error_message e);
     pf_formattedFile := pf_formattedFile file |}.

Section Run.

Variable engine : Engine.
Variable examConfig : ExamConfig.
Variable onProgress : option Callback.
Variable total : nat.

(** The [try] block of iteration [i]: the actions it performs and the
    record it pushes, or what it throws. *)
Definition try_block (i : nat) (file : ProcessedFile)
  : list Action * (ProcessedFile + Thrown) :=
  let v := progress_value i total in
  let '(a1, thrown) :=
    match onProgress with
    | Some cb => ([Progress v], cb i v)
    | None => ([], None)
    end in
  match thrown with
  | Some e => (a1, inr e)
  | None =>
      match arrayBuffer engine i (pf_file file) with
      | inr e => (a1 ++ [Read i], inr e)
      | inl uint8Array =>
          match format_document engine i uint8Array
                  (pf_detectedType file) (pf_originalName file) with
          | inr e => (a1 ++ [Read i; Convert i], inr e)
          | inl formattedData =>
              (a1 ++ [Read i; Convert i],
               inl (completed_record file
                      {| blob_data := formattedData;
                         blob_type :=
                           getOutputMimeType (pf_detectedType file)
                             examConfig |}))
          end
      end
  end.

(** One iteration: [try] and [catch]. *)
Definition iteration (i : nat) (file : ProcessedFile)
  : list Action * ProcessedFile :=
  match try_block i file with
  | (acts, inl done) => (acts, done)
  | (acts, inr e) => (acts, error_record file e)
  end.

(** The [for] loop from index [i] on. *)
Fixpoint format_loop (i : nat) (files : list ProcessedFile)
  : list Action * list ProcessedFile :=
  match files with
  | [] => ([], [])
  | file :: rest =>
      let '(acts, rec) := iteration i file in
      let '(acts', recs) := format_loop (S i) rest in
      (acts ++ acts', rec :: recs)
  end.

End Run.

Record Outcome := {
  actions : list Action;
  settled : list ProcessedFile + Thrown   (* resolved or rejected *)
}.

(** [formatDocuments(files, examConfig, onProgress)]; [ready] tells
    whether [this.formatter] is already set. *)
Definition formatDocuments (engine : Engine) (ready : bool)
  (files : list ProcessedFile) (examConfig : ExamConfig)
  (onProgress : option Callback) : Outcome :=
  match (if ready then None else load engine) with
  | Some e => {| actions := []; settled := inr e |}
  | None =>
      match set_config engine examConfig with
      | Some e => {| actions := []; settled := inr e |}
      | None =>
          let total := List.length files in
          let '(acts, formattedFiles) :=
            format_loop engine examConfig onProgress total 0 files in
          match onProgress with
          | Some cb =>
              match cb total (of_Z 100) with
              | Some e =>
                  {| actions := acts ++ [Progress (of_Z 100)];
                     settled := inr e |}
              | None =>
                  {| actions := acts ++ [Progress (of_Z 100)];
                     settled := inl formattedFiles |}
              end
          | None => {| actions := acts; settled := inl formattedFiles |}
          end
      end
  end.

(** The output-type table and the category selection as the specification
    gives them. *)
Definition spec_mime_table : list (str * str) :=
  [ (py "JPEG", py "image/jpeg");
    (py "PNG", py "image/png");
    (py "PDF", py "application/pdf") ].

Definition spec_mime (fmt : str) : str :=
  dict_get spec_mime_table fmt (py "image/jpeg").

Definition spec_category (documentType : option str) (examConfig : ExamConfig)
  : FormatSpec :=
  if str_is documentType (py "photo") then fmt_photo (formats examConfig)
  else if str_is documentType (py "signature")
       then fmt_signature (formats examConfig)
       else fmt_documents (formats examConfig).

(** What the engine answers for record [i] once its bytes are read;
    [None] when reading the bytes throws. *)
Definition conversion_of (engine : Engine) (i : nat) (file : ProcessedFile)
  : option (bytes + Thrown) :=
  match arrayBuffer engine i (pf_file file) with
  | inl uint8Array =>
      Some (format_document engine i uint8Array
              (pf_detectedType file) (pf_originalName file))
  | inr _ => None
  end.

(** The engine is ready, the callback (if any) never throws, every read
    succeeds, and conversion fails for the record at index [k] only. *)
Definition fails_only_at (engine : Engine) (ready : bool)
  (files : list ProcessedFile) (examConfig : ExamConfig)
  (onProgress : option Callback) (k : nat) : Prop :=
  (if ready then None else load engine) = None
  /\ set_config engine examConfig = None
  /\ (forall (cb : Callback) n v, onProgress = Some cb -> cb n v = None)
  /\ k < List.length files
  /\ forall i file,
       nth_error files i = Some file ->
       if Nat.eqb i k
       then exists e, conversion_of engine i file = Some (inr e)
       else exists data, conversion_of engine i file = Some (inl data).

(** The progress value as the specification words it:
    [floor(i / total * 100)]. *)
Definition spec_progress (i total : nat) : number :=
  of_Z (Z.of_nat i * 100 / Z.of_nat total).

(** What the [try] block may still do after reporting progress for
    record [i]. *)
Definition processing_steps (i : nat) (acts : list Action) : Prop :=
  acts = [] \/ acts = [Read i] \/ acts = [Read i; Convert i].

(** The arguments [onProgress] received, in order. *)
Fixpoint reported (acts : list Action) : list number :=
  match acts with
  | [] => []
  | Progress v :: rest => v :: reported rest
  | _ :: rest => reported rest
  end.

End Formatter.

Import Formatter.

(* ================================================================== *)
(** * Sample batches *)
(* ================================================================== *)

(** Concrete records and runs on which the statements below are tried. *)
Module Samples.

Definition new_file (id name : str) (handle : File) : ProcessedFile :=
  {| pf_id := id;
     pf_file := handle;
     pf_originalName := name;
     pf_detectedType := None;
     pf_newName := None;
     pf_status := pending;
     pf_progress := of_Z 0;
     pf_error := None;
     pf_formattedFile := None |}.

Definition photo_file : ProcessedFile := new_file (py "a1") (py "photo.jpg") 1%N.
Definition sign_file : ProcessedFile := new_file (py "b2") (py "sign.png") 2%N.
Definition marks_file : ProcessedFile :=
  new_file (py "c3") (py "marksheet.pdf") 3%N.

Definition exam : str := py "EX01".

(** The worker's answer to a request, on plain names. *)
Definition reply_to (req : Request) : option Message :=
  onmessage ascii_lower ascii_ci plain_literal None req.

Definition photo_reply : list Entry :=
  match reply_to (request_of [photo_file] exam) with
  | Some (MsgResult data) => data
  | _ => []
  end.

(** A service whose worker exists and is idle. *)
Definition idle : Service := initialize fresh.

(** One call on the idle service, then a second one before any reply. *)
Definition after_first : Service :=
  fst (analyzeDocuments [photo_file] exam idle).

Definition after_second : Service :=
  fst (analyzeDocuments [sign_file] exam after_first).

(** One call with two records on the idle service. *)
Definition after_pair : Service :=
  fst (analyzeDocuments [photo_file; sign_file] exam idle).

(** A first call on a fresh service, which waits for the worker, and a
    second one made before the first resumes. *)
Definition overtaken : Service :=
  fst (analyzeDocuments [sign_file] exam
         (fst (analyzeDocuments [photo_file] exam fresh))).

Definition config : ExamConfig :=
  {| examCode := exam;
     formats := {| fmt_photo := {| format := py "JPEG" |};
                   fmt_signature := {| format := py "PNG" |};
                   fmt_documents := {| format := py "PDF" |} |} |}.

(** A record as classification leaves it. *)
Definition classified (file : ProcessedFile) (type name : str)
  : ProcessedFile :=
  {| pf_id := pf_id file;
     pf_file := pf_file file;
     pf_originalName := pf_originalName file;
     pf_detectedType := Some type;
     pf_newName := Some name;
     pf_status := completed;
     pf_progress := pf_progress file;
     pf_error := pf_error file;
     pf_formattedFile := pf_formattedFile file |}.

Definition three_files : list ProcessedFile :=
  [ classified photo_file (py "photo") (py "EX01_photograph.jpg");
    classified sign_file (py "signature") (py "EX01_signature_2.png");
    classified marks_file (py "marksheet") (py "EX01_marksheet_3.pdf") ].

(** An engine for files that all hold [content]: it returns the bytes it
    is given for every record but the one at index [k], where
    [format_document] throws [e]. *)
Definition engine_failing_at (k : nat) (e : Thrown) (content : bytes)
  : Engine :=
  {| load := None;
     set_config := fun _ => None;
     arrayBuffer := fun _ _ => inl content;
     format_document :=
       fun i data _ _ => if Nat.eqb i k then inr e else inl data |}.

(** A callback that only listens. *)
Definition listener : Callback := fun _ _ => None.

End Samples.

Import Samples.

(* ================================================================== *)
(** * Properties of the matcher *)
(* ================================================================== *)

Section RegexFacts.

Variable ci : char -> char -> bool.


Lemma nullable_lang r : nullable r = true <-> lang ci r [].
Proof.
  split.
  - induction r; simpl; intro H; try discriminate.
    + constructor.
    + apply andb_prop in H as [H1 H2].
      change (@nil char) with (@nil char ++ []). constructor; auto.
    + apply orb_prop in H as [H | H]; [apply L_alt_l | apply L_alt_r]; auto.
    + constructor.
  - intro H. remember [] as w eqn:E.
    induction H; simpl; try discriminate; auto.
    + apply app_eq_nil in E as [-> ->]. rewrite IHlang1, IHlang2; auto.
    + rewrite IHlang; auto.
    + rewrite IHlang; auto using orb_true_r.
Qed.

Lemma lang_star_cons r c s :
  lang ci (Star r) (c :: s) ->
  exists u v, s = u ++ v /\ lang ci r (c :: u) /\ lang ci (Star r) v.
Proof.
  intro H. remember (Star r) as r' eqn:Er. remember (c :: s) as w eqn:Ew.
  revert s Ew. induction H; intros s0 Ew; try discriminate.
  inversion Er; subst r0. destruct u as [|x u]; simpl in Ew.
  - apply IHlang2; auto.
  - inversion Ew; subst. exists u, v. auto.
Qed.

Lemma lang_cat_inv r1 r2 w :
  lang ci (Cat r1 r2) w -> exists u v, w = u ++ v /\ lang ci r1 u /\ lang ci r2 v.
Proof. intro H. inversion H; subst. eauto. Qed.

Lemma lang_alt_inv r1 r2 w : lang ci (Alt r1 r2) w -> lang ci r1 w \/ lang ci r2 w.
Proof. intro H. inversion H; subst; auto. Qed.

Lemma lang_cons_app r1 r2 c u v :
  lang ci r1 (c :: u) -> lang ci r2 v -> lang ci (Cat r1 r2) (c :: u ++ v).
Proof. intros. change (c :: u ++ v) with ((c :: u) ++ v). now constructor. Qed.

Lemma deriv_lang r : forall c s, lang ci (deriv ci c r) s <-> lang ci r (c :: s).
Proof.
  induction r; intros c s; simpl.
  - split; intro H; inversion H.
  - split; intro H; inversion H.
  - destruct (chr_match ci p c) eqn:E; split; intro H; inversion H; subst.
    + now constructor.
    + constructor.
    + congruence.
  - destruct (dot_match c) eqn:E; split; intro H; inversion H; subst.
    + now constructor.
    + constructor.
    + congruence.
  - destruct (nullable r1) eqn:N.
    + split; intro H.
      * apply lang_alt_inv in H as [H | H].
        -- apply lang_cat_inv in H as (u & v & -> & Hu & Hv).
           apply lang_cons_app; auto. now apply IHr1.
        -- change (c :: s) with ([] ++ c :: s). constructor.
           ++ now apply nullable_lang.
           ++ now apply IHr2.
      * apply lang_cat_inv in H as (u & v & E & Hu & Hv).
        destruct u as [|x u]; simpl in E.
        -- subst v. apply L_alt_r. now apply IHr2.
        -- inversion E; subst. apply L_alt_l. constructor; auto.
           now apply IHr1.
    + split; intro H.
      * apply lang_cat_inv in H as (u & v & -> & Hu & Hv).
        apply lang_cons_app; auto. now apply IHr1.
      * apply lang_cat_inv in H as (u & v & E & Hu & Hv).
        destruct u as [|x u]; simpl in E.
        -- apply nullable_lang in Hu. congruence.
        -- inversion E; subst. constructor; auto. now apply IHr1.
  - split; intro H.
    + apply lang_alt_inv in H as [H | H];
        [apply L_alt_l; now apply IHr1 | apply L_alt_r; now apply IHr2].
    + apply lang_alt_inv in H as [H | H];
        [apply L_alt_l; now apply IHr1 | apply L_alt_r; now apply IHr2].
  - split; intro H.
    + apply lang_cat_inv in H as (u & v & -> & Hu & Hv).
      change (c :: u ++ v) with ((c :: u) ++ v).
      constructor; auto. now apply IHr.
    + apply lang_star_cons in H as (u & v & -> & Hu & Hv).
      constructor; auto. now apply IHr.
Qed.

Lemma matches_lang : forall s r, matches ci r s = true <-> lang ci r s.
Proof.
  induction s as [|c s IH]; intro r; simpl.
  - apply nullable_lang.
  - rewrite IH. apply deriv_lang.
Qed.

Lemma match_prefix_lang : forall s r,
  match_prefix ci r s = true <-> exists u v, s = u ++ v /\ lang ci r u.
Proof.
  induction s as [|c s IH]; intro r; simpl.
  - rewrite orb_false_r, nullable_lang. split.
    + intro H. now exists [], [].
    + intros (u & v & E & H). symmetry in E.
      apply app_eq_nil in E as [-> _]. exact H.
  - split.
    + intro H. apply orb_prop in H as [H | H].
      * exists [], (c :: s). split; auto. now apply nullable_lang.
      * apply IH in H as (u & v & -> & H). exists (c :: u), v.
        split; auto. now apply deriv_lang.
    + intros (u & v & E & H). destruct u as [|x u]; simpl in E.
      * apply nullable_lang in H. now rewrite H.
      * inversion E; subst. apply orb_true_iff. right. apply IH.
        exists u, v. split; auto. now apply deriv_lang.
Qed.

Lemma search_found : forall s r, search ci r s = true <-> found ci r s.
Proof.
  unfold found. induction s as [|c s IH]; intro r; cbn [search].
  - rewrite orb_false_r, match_prefix_lang. split.
    + intros (u & v & E & H). now exists [], u, v.
    + intros (pre & mid & post & E & H). symmetry in E.
      apply app_eq_nil in E as [-> E]. now exists mid, post.
  - rewrite orb_true_iff, match_prefix_lang, IH. split.
    + intros [(u & v & E & H) | (pre & mid & post & E & H)].
      * now exists [], u, v.
      * exists (c :: pre), mid, post. split; auto. simpl. now rewrite E.
    + intros (pre & mid & post & E & H). destruct pre as [|x pre]; simpl in E.
      * left. now exists mid, post.
      * inversion E; subst. right. now exists pre, mid, post.
Qed.

Lemma lang_lit_refl : forall w, lang ci (lit w) w.
Proof.
  induction w as [|c w IH]; simpl.
  - constructor.
  - change (c :: w) with ([c] ++ w). constructor; auto. constructor.
    unfold chr_match. now rewrite N.eqb_refl.
Qed.

Lemma found_mono r pre s post : found ci r s -> found ci r (pre ++ s ++ post).
Proof.
  intros (a & m & b & -> & H). exists (pre ++ a), m, (b ++ post).
  split; auto. now rewrite <- !app_assoc.
Qed.

Lemma found_cat_r r1 r2 s : found ci (Cat r1 r2) s -> found ci r2 s.
Proof.
  intros (a & m & b & -> & H). inversion H; subst.
  exists (a ++ u), v, b. split; auto. now rewrite <- !app_assoc.
Qed.

Lemma found_alt r1 r2 s :
  found ci (Alt r1 r2) s -> found ci r1 s \/ found ci r2 s.
Proof.
  intros (a & m & b & -> & H).
  inversion H; subst; [left | right]; now exists a, m, b.
Qed.

End RegexFacts.

Lemma starts_with_app : forall w s, starts_with w s = true <-> exists t, s = w ++ t.
Proof.
  induction w as [|x w IH]; intros s; simpl.
  - split; eauto.
  - destruct s as [|y s]; simpl.
    + split; [discriminate | intros (t & E); discriminate].
    + rewrite andb_true_iff, N.eqb_eq, IH. split.
      * intros (-> & t & ->). eauto.
      * intros (t & E). inversion E; subst. eauto.
Qed.

Lemma contains_slice : forall s w,
  contains w s = true <-> exists pre post, s = pre ++ w ++ post.
Proof.
  induction s as [|c s IH]; intro w; simpl.
  - rewrite orb_false_r, starts_with_app. split.
    + intros (t & E). now exists [], t.
    + intros (pre & post & E). symmetry in E.
      apply app_eq_nil in E as [-> E]. now exists post.
  - rewrite orb_true_iff, starts_with_app, IH. split.
    + intros [(t & E) | (pre & post & E)].
      * now exists [], t.
      * exists (c :: pre), post. simpl. now rewrite E.
    + intros (pre & post & E). destruct pre as [|x pre]; simpl in E.
      * left. now exists post.
      * inversion E; subst. right. now exists pre, post.
Qed.

Lemma str_eqb_eq : forall a b, str_eqb a b = true <-> a = b.
Proof.
  induction a as [|x a IH]; destruct b as [|y b]; simpl;
    try (split; [discriminate | intro H; discriminate]).
  - split; auto.
  - rewrite andb_true_iff, N.eqb_eq, IH. split.
    + intros [-> ->]; auto.
    + intro H; inversion H; auto.
Qed.

(* ================================================================== *)
(** * The pattern classifier *)
(* ================================================================== *)

Section ClassifierFacts.

Variable lower : str -> str.
Variable ci : char -> char -> bool.

Lemma scan_patterns_true patterns s :
  scan_patterns ci patterns s = true <->
  exists pattern, In pattern patterns /\ found ci pattern s.
Proof.
  induction patterns as [|p ps IH]; simpl.
  - split; [discriminate | intros (q & [] & _)].
  - destruct (search ci p s) eqn:E.
    + split; auto. intros _. exists p. split; auto. now apply search_found.
    + rewrite IH. split.
      * intros (q & Hq & Hf). eauto.
      * intros (q & [<- | Hq] & Hf); eauto.
        apply search_found in Hf. congruence.
Qed.

Lemma scan_patterns_fires rule s :
  scan_patterns ci (snd rule) s = true <-> rule_fires ci rule s.
Proof. apply scan_patterns_true. Qed.

(** The loop returns the type of the first rule that fires. *)
Lemma scan_rules_first : forall rules s i rule,
  nth_error rules i = Some rule ->
  rule_fires ci rule s ->
  (forall j rule', j < i -> nth_error rules j = Some rule' ->
                   ~ rule_fires ci rule' s) ->
  scan_rules ci rules s = Some (fst rule).
Proof.
  induction rules as [|[ty pats] rules IH]; intros s i rule Hn Hf Hb.
  - destruct i; discriminate.
  - destruct i as [|i]; simpl in Hn |- *.
    + inversion Hn; subst rule.
      apply scan_patterns_fires in Hf. simpl in Hf. now rewrite Hf.
    + destruct (scan_patterns ci pats s) eqn:E.
      * exfalso. apply (Hb 0 (ty, pats)); [lia | reflexivity |].
        now apply scan_patterns_fires.
      * apply (IH s i rule Hn Hf). intros j rule' Hj Hn'.
        apply (Hb (S j) rule'); [lia | exact Hn'].
Qed.

Lemma scan_rules_none : forall rules s,
  (forall rule, In rule rules -> ~ rule_fires ci rule s) ->
  scan_rules ci rules s = None.
Proof.
  induction rules as [|[ty pats] rules IH]; intros s H; simpl; auto.
  destruct (scan_patterns ci pats s) eqn:E.
  - exfalso. apply (H (ty, pats)); [now left |].
    now apply scan_patterns_fires.
  - apply IH. intros rule Hin. apply H. now right.
Qed.

Lemma scan_rules_some : forall rules s ty,
  scan_rules ci rules s = Some ty ->
  exists i pats,
    nth_error rules i = Some (ty, pats) /\
    scan_patterns ci pats s = true /\
    forall j rule, j < i -> nth_error rules j = Some rule ->
                   scan_patterns ci (snd rule) s = false.
Proof.
  induction rules as [|[ty0 pats0] rules IH]; intros s ty H; simpl in H.
  - discriminate.
  - destruct (scan_patterns ci pats0 s) eqn:E.
    + inversion H; subst ty0. exists 0, pats0. repeat split; auto.
      intros j rule Hj. lia.
    + apply IH in H as (i & pats & Hn & Hp & Hb).
      exists (S i), pats. repeat split; auto.
      intros [|j] rule Hj Hn'; simpl in Hn'.
      * inversion Hn'; subst rule. exact E.
      * apply (Hb j); [lia | exact Hn'].
Qed.

(** The [if]/[elif] chain is the specification's keyword list. *)
Lemma fallback_chain s :
  (if any_word [py "photo"; py "pic"; py "image"; py "passport"] s
   then t_photo
   else if any_word [py "sign"; py "signature"] s then t_signature
   else if any_word [py "mark"; py "grade"; py "result"] s then t_marksheet
   else if any_word [py "cert"; py "certificate"] s then t_certificate
   else if any_word [py "aadhaar"; py "aadhar"; py "uid"] s then t_aadhaar
   else t_document) = spec_keyword_fallback s.
Proof.
  unfold spec_keyword_fallback, spec_fallback_keywords, any_word.
  cbn [find fst snd].
  repeat match goal with
         | |- context [if existsb ?f ?l then _ else _] =>
             destruct (existsb f l)
         end; reflexivity.
Qed.

Lemma fallback_range s : In (spec_keyword_fallback s) document_types.
Proof.
  unfold spec_keyword_fallback, spec_fallback_keywords.
  cbn [find fst snd].
  repeat match goal with
         | |- context [if existsb ?f ?l then _ else _] =>
             destruct (existsb f l)
         end; cbn [document_types In]; tauto.
Qed.

Lemma analyze_unfold filename :
  analyze_document_type lower ci filename =
  match scan_rules ci document_patterns (lower filename) with
  | Some doc_type => doc_type
  | None => spec_keyword_fallback (lower filename)
  end.
Proof.
  unfold analyze_document_type.
  destruct (scan_rules ci document_patterns (lower filename)); auto.
  apply fallback_chain.
Qed.

Lemma table_types i ty pats :
  nth_error document_patterns i = Some (ty, pats) ->
  In ty [t_aadhaar; t_photo; t_signature; t_marksheet; t_certificate;
         t_caste_certificate; t_income_certificate].
Proof.
  intro H.
  do 7 (destruct i as [|i];
        [inversion H; cbn [In]; tauto | ]).
  destruct i; discriminate.
Qed.

Lemma analyze_range filename :
  In (analyze_document_type lower ci filename) document_types.
Proof.
  rewrite analyze_unfold.
  destruct (scan_rules ci document_patterns (lower filename)) eqn:E.
  - apply scan_rules_some in E as (i & pats & Hn & _).
    apply table_types in Hn. cbn [In document_types] in *. tauto.
  - apply fallback_range.
Qed.

(** C1.  For every filename, [analyze_document_type] lower-cases the
    name and returns the type of the first rule of the table, in
    declaration order, one of whose patterns is found in it; when no rule
    fires it returns what the keyword list of the specification gives
    (photo, signature, marksheet, certificate, aadhaar in that order,
    else [document]).  It is a total function into the eight document
    types and maps the empty name to [document]. *)
Theorem classify_first_rule_then_keywords
  (lower_nil : lower [] = []) :
  forall filename,
    (forall i rule,
        nth_error document_patterns i = Some rule ->
        rule_fires ci rule (lower filename) ->
        (forall j rule', j < i ->
           nth_error document_patterns j = Some rule' ->
           ~ rule_fires ci rule' (lower filename)) ->
        analyze_document_type lower ci filename = fst rule)
    /\ ((forall rule, In rule document_patterns ->
                      ~ rule_fires ci rule (lower filename)) ->
        analyze_document_type lower ci filename
        = spec_keyword_fallback (lower filename))
    /\ In (analyze_document_type lower ci filename) document_types
    /\ analyze_document_type lower ci [] = t_document.
Proof.
  intro filename. repeat split.
  - intros i rule Hn Hf Hb. rewrite analyze_unfold.
    now rewrite (scan_rules_first _ _ _ _ Hn Hf Hb).
  - intro H. rewrite analyze_unfold. now rewrite scan_rules_none.
  - apply analyze_range.
  - unfold analyze_document_type. rewrite lower_nil. reflexivity.
Qed.

Lemma scan_rules_none_inv : forall rules s,
  scan_rules ci rules s = None ->
  forall rule, In rule rules -> scan_patterns ci (snd rule) s = false.
Proof.
  induction rules as [|[ty pats] rules IH]; intros s H rule Hin.
  - destruct Hin.
  - simpl in H. destruct (scan_patterns ci pats s) eqn:E; try discriminate.
    destruct Hin as [<- | Hin]; auto.
Qed.

Lemma contains_found_lit w s :
  contains w s = true -> found ci (lit w) s.
Proof.
  intro H. apply contains_slice in H as (pre & post & ->).
  exists pre, w, post. split; auto. apply lang_lit_refl.
Qed.

Lemma gap_found_right a b s : found ci (gap a b) s -> found ci (lit b) s.
Proof. intro H. unfold gap in H. now do 2 apply found_cat_r in H. Qed.

Lemma search_false_not_found r s : search ci r s = false -> ~ found ci r s.
Proof. intros H Hf. apply search_found in Hf. congruence. Qed.

Lemma certificate_rule_at_4 :
  nth_error document_patterns 4 = Some certificate_rule.
Proof. reflexivity. Qed.

Lemma certificate_rule_fires s :
  contains (py "certificate") s = true ->
  scan_patterns ci (snd certificate_rule) s = true.
Proof.
  intro H. apply scan_patterns_true. exists (lit (py "certificate")).
  split; [now left | now apply contains_found_lit].
Qed.

Lemma certificate_rule_silent s :
  scan_patterns ci (snd certificate_rule) s = false ->
  ~ found ci (lit (py "certificate")) s.
Proof.
  intros H Hf. assert (scan_patterns ci (snd certificate_rule) s = true).
  { apply scan_patterns_true. exists (lit (py "certificate")).
    split; [now left | exact Hf]. }
  congruence.
Qed.

Lemma first_four j rule :
  j < 4 -> nth_error document_patterns j = Some rule ->
  In rule (firstn 4 document_patterns).
Proof.
  intros Hj Hn.
  do 4 (destruct j as [|j];
        [inversion Hn; cbn [firstn document_patterns In]; tauto | ]).
  lia.
Qed.

Lemma first_four_inv rule :
  In rule (firstn 4 document_patterns) ->
  exists j, j < 4 /\ nth_error document_patterns j = Some rule
            /\ fst rule <> t_certificate.
Proof.
  cbn [firstn document_patterns In].
  intros [<- | [<- | [<- | [<- | []]]]];
    [exists 0 | exists 1 | exists 2 | exists 3];
    (split; [lia | split; [reflexivity | discriminate]]).
Qed.

(** The rule at position [i] decides as soon as it fires and no rule
    before it does. *)
Lemma rule_decides i rule filename :
  nth_error document_patterns i = Some rule ->
  rule_fires ci rule (lower filename) ->
  (forall j rule', j < i -> nth_error document_patterns j = Some rule' ->
                   ~ rule_fires ci rule' (lower filename)) ->
  analyze_document_type lower ci filename = fst rule.
Proof.
  intros Hn Hf Hb. rewrite analyze_unfold.
  now rewrite (scan_rules_first _ _ _ _ Hn Hf Hb).
Qed.

(** C10, as the code has it.  When the lower-cased name contains
    [certificate], the result is the type of the first of the rules
    aadhaar, photo, signature, marksheet that fires, and [certificate]
    exactly when none of these four fires; it is never
    [caste_certificate] or [income_certificate].  For any name, these two
    types are returned only through [backward.*class] and
    [annual.*income].  The four rules stand in the table in the order
    aadhaar, photo, signature, marksheet, and the result is [aadhaar] when
    the first fires, [photo] when the second is the first to fire,
    [signature] when the third is, [marksheet] when the fourth is. *)
Theorem certificate_word_shadows_later_rules :
  (forall filename,
      contains (py "certificate") (lower filename) = true ->
      In (analyze_document_type lower ci filename)
        [t_aadhaar; t_photo; t_signature; t_marksheet; t_certificate]
      /\ (analyze_document_type lower ci filename = t_certificate <->
          forall rule, In rule (firstn 4 document_patterns) ->
                       ~ rule_fires ci rule (lower filename))
      /\ analyze_document_type lower ci filename <> t_caste_certificate
      /\ analyze_document_type lower ci filename <> t_income_certificate)
  /\ (forall filename,
        analyze_document_type lower ci filename = t_caste_certificate ->
        found ci (gap (py "backward") (py "class")) (lower filename))
  /\ (forall filename,
        analyze_document_type lower ci filename = t_income_certificate ->
        found ci (gap (py "annual") (py "income")) (lower filename))
  /\ (exists r_aadhaar r_photo r_signature r_marksheet,
        firstn 4 document_patterns
        = [r_aadhaar; r_photo; r_signature; r_marksheet]
        /\ fst r_aadhaar = t_aadhaar /\ fst r_photo = t_photo
        /\ fst r_signature = t_signature /\ fst r_marksheet = t_marksheet
        /\ forall filename,
             contains (py "certificate") (lower filename) = true ->
             (rule_fires ci r_aadhaar (lower filename) ->
              analyze_document_type lower ci filename = t_aadhaar)
             /\ (~ rule_fires ci r_aadhaar (lower filename) ->
                 rule_fires ci r_photo (lower filename) ->
                 analyze_document_type lower ci filename = t_photo)
             /\ (~ rule_fires ci r_aadhaar (lower filename) ->
                 ~ rule_fires ci r_photo (lower filename) ->
                 rule_fires ci r_signature (lower filename) ->
                 analyze_document_type lower ci filename = t_signature)
             /\ (~ rule_fires ci r_aadhaar (lower filename) ->
                 ~ rule_fires ci r_photo (lower filename) ->
                 ~ rule_fires ci r_signature (lower filename) ->
                 rule_fires ci r_marksheet (lower filename) ->
                 analyze_document_type lower ci filename = t_marksheet)
             /\ (~ rule_fires ci r_aadhaar (lower filename) ->
                 ~ rule_fires ci r_photo (lower filename) ->
                 ~ rule_fires ci r_signature (lower filename) ->
                 ~ rule_fires ci r_marksheet (lower filename) ->
                 analyze_document_type lower ci filename = t_certificate)).
Proof.
  split; [| split; [| split]].
  - intros filename Hc.
    pose proof (certificate_rule_fires _ Hc) as Hfire.
    rewrite analyze_unfold.
    destruct (scan_rules ci document_patterns (lower filename)) as [ty|] eqn:E.
    2:{ apply scan_rules_none_inv with (rule := certificate_rule) in E.
        - congruence.
        - cbn [document_patterns In]. unfold certificate_rule. tauto. }
    apply scan_rules_some in E as (i & pats & Hn & Hp & Hb).
    assert (Hi : i <= 4).
    { destruct (le_lt_dec i 4) as [|Hlt]; auto.
      rewrite (Hb 4 certificate_rule Hlt certificate_rule_at_4) in Hfire.
      discriminate. }
    assert (Hty : In ty [t_aadhaar; t_photo; t_signature; t_marksheet;
                         t_certificate]).
    { do 5 (destruct i as [|i];
            [inversion Hn; cbn [In]; tauto | ]). lia. }
    split; [exact Hty | split; [split | split]].
    + intros -> rule Hin Hf.
      apply first_four_inv in Hin as (j & Hj & Hnj & _).
      apply scan_patterns_fires in Hf.
      assert (i = 4).
      { do 4 (destruct i as [|i]; [inversion Hn; discriminate | ]). lia. }
      subst i. rewrite (Hb j rule Hj Hnj) in Hf. discriminate.
    + intro Hnone. destruct (Nat.eq_dec i 4) as [-> | Hne].
      * rewrite certificate_rule_at_4 in Hn. now inversion Hn.
      * exfalso. apply (Hnone (ty, pats)).
        -- apply first_four with (j := i); [lia | exact Hn].
        -- now apply scan_patterns_fires.
    + cbn [In] in Hty. intro Heq. subst ty.
      destruct Hty as [H | [H | [H | [H | [H | []]]]]]; discriminate.
    + cbn [In] in Hty. intro Heq. subst ty.
      destruct Hty as [H | [H | [H | [H | [H | []]]]]]; discriminate.
  - intros filename H. rewrite analyze_unfold in H.
    destruct (scan_rules ci document_patterns (lower filename)) as [ty|] eqn:E.
    2:{ pose proof (fallback_range (lower filename)) as R. rewrite H in R.
        revert H. unfold spec_keyword_fallback, spec_fallback_keywords.
        cbn [find fst snd].
        repeat match goal with
               | |- context [if existsb ?f ?l then _ else _] =>
                   destruct (existsb f l)
               end; discriminate. }
    subst ty. apply scan_rules_some in E as (i & pats & Hn & Hp & Hb).
    assert (i = 5).
    { do 5 (destruct i as [|i]; [inversion Hn; discriminate | ]).
      destruct i as [|i]; auto.
      destruct i as [|i]; [inversion Hn; discriminate | ].
      destruct i; discriminate. }
    subst i. inversion Hn; subst pats. clear Hn.
    pose proof (Hb 4 certificate_rule ltac:(lia) certificate_rule_at_4) as Hs.
    apply certificate_rule_silent in Hs.
    apply scan_patterns_true in Hp as (p & Hin & Hf).
    cbn [In] in Hin.
    destruct Hin as [<- | [<- | [<- | [<- | []]]]]; auto.
    + apply gap_found_right in Hf. contradiction.
    + apply gap_found_right in Hf. contradiction.
    + apply found_alt in Hf as [Hf | Hf];
        [| apply found_alt in Hf as [Hf | Hf]];
        apply gap_found_right in Hf; contradiction.
  - intros filename H. rewrite analyze_unfold in H.
    destruct (scan_rules ci document_patterns (lower filename)) as [ty|] eqn:E.
    2:{ revert H. unfold spec_keyword_fallback, spec_fallback_keywords.
        cbn [find fst snd].
        repeat match goal with
               | |- context [if existsb ?f ?l then _ else _] =>
                   destruct (existsb f l)
               end; discriminate. }
    subst ty. apply scan_rules_some in E as (i & pats & Hn & Hp & Hb).
    assert (i = 6).
    { do 6 (destruct i as [|i]; [inversion Hn; discriminate | ]).
      destruct i as [|i]; auto. destruct i; discriminate. }
    subst i. inversion Hn; subst pats. clear Hn.
    pose proof (Hb 4 certificate_rule ltac:(lia) certificate_rule_at_4) as Hs.
    apply certificate_rule_silent in Hs.
    apply scan_patterns_true in Hp as (p & Hin & Hf).
    cbn [In] in Hin.
    destruct Hin as [<- | [<- | [<- | []]]]; auto;
      apply gap_found_right in Hf; contradiction.
  - do 4 eexists. split; [reflexivity |].
    split; [reflexivity |]. split; [reflexivity |].
    split; [reflexivity |]. split; [reflexivity |].
    intros filename Hc.
    split; [| split; [| split; [| split]]].
    + intro H0.
      apply (rule_decides 0 _ filename eq_refl H0).
      intros j rule' Hj. lia.
    + intros N0 H1.
      apply (rule_decides 1 _ filename eq_refl H1).
      intros j rule' Hj Hn.
      destruct j as [|j]; [| lia]. inversion Hn; subst rule'. exact N0.
    + intros N0 N1 H2.
      apply (rule_decides 2 _ filename eq_refl H2).
      intros j rule' Hj Hn.
      destruct j as [|[|j]]; [| | lia]; inversion Hn; subst rule'; assumption.
    + intros N0 N1 N2 H3.
      apply (rule_decides 3 _ filename eq_refl H3).
      intros j rule' Hj Hn.
      destruct j as [|[|[|j]]]; [| | | lia];
        inversion Hn; subst rule'; assumption.
    + intros N0 N1 N2 N3.
      apply (rule_decides 4 certificate_rule filename certificate_rule_at_4).
      * apply scan_patterns_fires. now apply certificate_rule_fires.
      * intros j rule' Hj Hn.
        destruct j as [|[|[|[|j]]]]; [| | | | lia];
          inversion Hn; subst rule'; assumption.
Qed.

End ClassifierFacts.

Lemma classify_first_rule_then_keywords_witness :
  ascii_lower [] = [] /\
  analyze_document_type ascii_lower ascii_ci (py "Certificate_MarkSheet.PDF")
  = t_marksheet /\
  analyze_document_type ascii_lower ascii_ci [] = t_document.
Proof.
  split; [reflexivity |].
  destruct (classify_first_rule_then_keywords ascii_lower ascii_ci eq_refl
              (py "Certificate_MarkSheet.PDF")) as (H1 & _ & _ & H4).
  split; [| exact H4].
  refine (H1 3 _ eq_refl _ _).
  - apply scan_patterns_fires. vm_compute. reflexivity.
  - intros j rule' Hj Hn Hf. apply scan_patterns_fires in Hf.
    destruct j as [|[|[|j]]]; [| | | lia];
      inversion Hn; subst rule'; vm_compute in Hf; discriminate.
Defined.

(** C10, refuted as stated: the lower-cased name contains [certificate],
    yet the photo rule comes first and decides. *)
Lemma certificate_word_not_always_certificate :
  contains (py "certificate") (ascii_lower (py "photo_certificate.jpg")) = true
  /\ analyze_document_type ascii_lower ascii_ci (py "photo_certificate.jpg")
     = t_photo
  /\ t_photo <> t_certificate.
Proof. repeat split; [vm_compute; reflexivity .. | discriminate]. Qed.

Lemma certificate_word_shadows_later_rules_witness :
  contains (py "certificate") (ascii_lower (py "Caste_Certificate.pdf")) = true
  /\ analyze_document_type ascii_lower ascii_ci (py "Caste_Certificate.pdf")
     <> t_caste_certificate
  /\ contains (py "certificate")
       (ascii_lower (py "Aadhaar_Photo_Certificate.pdf")) = true
  /\ analyze_document_type ascii_lower ascii_ci
       (py "Aadhaar_Photo_Certificate.pdf") = t_aadhaar
  /\ contains (py "certificate")
       (ascii_lower (py "Signed_Mark_Sheet_Certificate.pdf")) = true
  /\ analyze_document_type ascii_lower ascii_ci
       (py "Signed_Mark_Sheet_Certificate.pdf") = t_signature.
Proof.
  destruct (certificate_word_shadows_later_rules ascii_lower ascii_ci)
    as (Hcert & _ & _ & r0 & r1 & r2 & r3 & Hfour & _ & _ & _ & _ & Hfirst).
  inversion Hfour; subst r0 r1 r2 r3. clear Hfour.
  assert (C1 : contains (py "certificate")
                 (ascii_lower (py "Caste_Certificate.pdf")) = true)
    by (vm_compute; reflexivity).
  assert (C2 : contains (py "certificate")
                 (ascii_lower (py "Aadhaar_Photo_Certificate.pdf")) = true)
    by (vm_compute; reflexivity).
  assert (C3 : contains (py "certificate")
                 (ascii_lower (py "Signed_Mark_Sheet_Certificate.pdf")) = true)
    by (vm_compute; reflexivity).
  split; [exact C1 |].
  split; [apply (Hcert (py "Caste_Certificate.pdf") C1) |].
  split; [exact C2 |]. split.
  - apply (proj1 (Hfirst (py "Aadhaar_Photo_Certificate.pdf") C2)).
    apply scan_patterns_fires. vm_compute. reflexivity.
  - split; [exact C3 |].
    destruct (Hfirst (py "Signed_Mark_Sheet_Certificate.pdf") C3)
      as (_ & _ & Hsig & _).
    apply Hsig.
    + intro H. apply scan_patterns_fires in H. vm_compute in H. discriminate.
    + intro H. apply scan_patterns_fires in H. vm_compute in H. discriminate.
    + apply scan_patterns_fires. vm_compute. reflexivity.
Defined.

(* ================================================================== *)
(** * File names *)
(* ================================================================== *)

Lemma generate_new_filename_stem detected_type exam_code index :
  generate_new_filename detected_type exam_code index
  = exam_code ++ py "_" ++ spec_type_noun detected_type ++ spec_suffix index.
Proof.
  unfold generate_new_filename, spec_suffix, spec_type_noun, type_mapping,
    spec_type_nouns.
  cbn [dict_get].
  repeat match goal with
         | |- context [if str_eqb ?a ?b then _ else _] =>
             destruct (str_eqb a b)
         end;
    destruct (index >? 0)%Z;
    rewrite <- ?app_assoc, ?app_nil_r; reflexivity.
Qed.

Lemma document_types_safe ty :
  In ty document_types -> literal_safe ty = true.
Proof.
  cbn [document_types In].
  intros [<- | [<- | [<- | [<- | [<- | [<- | [<- | [<- | []]]]]]]]];
    reflexivity.
Qed.

Section WorkerFacts.

Variable lower : str -> str.
Variable ci : char -> char -> bool.
Variable py_literal : str -> str + str.
Hypothesis py_literal_plain :
  forall s, literal_safe s = true -> py_literal s = inl s.

Lemma analyze_loop_entries examCode :
  literal_safe examCode = true ->
  forall files i results,
    Forall (fun f => literal_safe (ref_name f) = true) files ->
    exists out,
      analyze_loop lower ci py_literal files examCode i results
      = inl (results ++ out)
      /\ List.length out = List.length files
      /\ forall j file, nth_error files j = Some file ->
           nth_error out j = Some (entry_at lower ci examCode (i + j) file).
Proof.
  intros Hexam. induction files as [|file rest IH]; intros i results Hs.
  - exists []. rewrite app_nil_r. repeat split; auto.
    intros [|j] f; discriminate.
  - inversion Hs as [|? ? Hname Hrest]; subst. cbn [analyze_loop].
    unfold run_analyze_document_type, run_generate_new_filename.
    rewrite (py_literal_plain _ Hname).
    rewrite (py_literal_plain _
               (document_types_safe _ (analyze_range lower ci _))).
    rewrite (py_literal_plain _ Hexam).
    destruct (IH (S i)
                (results ++ [entry_at lower ci examCode i file]) Hrest)
      as (out & E & Hlen & Hnth).
    exists (entry_at lower ci examCode i file :: out).
    unfold entry_at in E at 1. cbn beta zeta in E. rewrite E.
    rewrite <- app_assoc. repeat split; auto.
    + simpl. now rewrite Hlen.
    + intros [|j] f Hj; simpl in Hj |- *.
      * inversion Hj; subst. now rewrite Nat.add_0_r.
      * rewrite (Hnth j f Hj). f_equal. f_equal. lia.
Qed.

End WorkerFacts.

(** C6.  [generate_new_filename] gives [{examCode}_{typeNoun}] for each
    known type and [{examCode}_document] for any other, followed by
    [_{index+1}] exactly when [index > 0]; the three sample names come out
    as listed; and the worker passes the position of the file in the
    submitted batch as [index], whatever the types of the files before it. *)
Theorem renderName_stem_and_batch_position :
  (forall detected_type exam_code index,
      generate_new_filename detected_type exam_code index
      = exam_code ++ py "_" ++ spec_type_noun detected_type
        ++ (if (index >? 0)%Z then py "_" ++ int_to_str (index + 1) else []))
  /\ (forall detected_type,
        ~ In detected_type document_types ->
        spec_type_noun detected_type = py "document")
  /\ generate_new_filename (py "photo") (py "EX01") 0 = py "EX01_photograph"
  /\ generate_new_filename (py "photo") (py "EX01") 1 = py "EX01_photograph_2"
  /\ generate_new_filename (py "unknown_type") (py "EX01") 0
     = py "EX01_document"
  /\ (forall lower ci py_literal files examCode,
        (forall s, literal_safe s = true -> py_literal s = inl s) ->
        literal_safe examCode = true ->
        Forall (fun f => literal_safe (ref_name f) = true) files ->
        exists data,
          onmessage lower ci py_literal None (Analyze files examCode)
          = Some (MsgResult data)
          /\ List.length data = List.length files
          /\ forall i file, nth_error files i = Some file ->
               nth_error data i = Some (entry_at lower ci examCode i file)).
Proof.
  split; [| split; [| split; [| split; [| split]]]];
    try (vm_compute; reflexivity).
  - intros. apply generate_new_filename_stem.
  - intros ty Hnot. unfold spec_type_noun, spec_type_nouns. cbn [dict_get].
    repeat match goal with
           | |- context [if str_eqb ?a ?b then _ else _] =>
               destruct (str_eqb a b) eqn:?
           end; auto;
      exfalso; apply Hnot;
      match goal with
      | H : str_eqb _ _ = true |- _ => apply str_eqb_eq in H; subst ty
      end; cbn [document_types In]; tauto.
  - intros lower ci py_literal files examCode Hplain Hexam Hsafe.
    destruct (analyze_loop_entries lower ci py_literal Hplain examCode Hexam
                files 0 [] Hsafe) as (out & E & Hlen & Hnth).
    exists out. unfold onmessage. rewrite E. simpl. auto.
Qed.

Lemma renderName_stem_and_batch_position_witness :
  let files := [ {| ref_id := py "f1"; ref_name := py "photo.jpg" |};
                 {| ref_id := py "f2"; ref_name := py "sign.png" |} ] in
  literal_safe (py "EX01") = true
  /\ Forall (fun f => literal_safe (ref_name f) = true) files
  /\ exists data,
       onmessage ascii_lower ascii_ci plain_literal None
         (Analyze files (py "EX01")) = Some (MsgResult data)
       /\ nth_error data 0
          = Some {| e_id := py "f1"; e_originalName := py "photo.jpg";
                    e_detectedType := py "photo";
                    e_newName := py "EX01_photograph.jpg" |}
       /\ nth_error data 1
          = Some {| e_id := py "f2"; e_originalName := py "sign.png";
                    e_detectedType := py "signature";
                    e_newName := py "EX01_signature_2.png" |}.
Proof.
  intro files.
  assert (Hplain : forall s, literal_safe s = true -> plain_literal s = inl s).
  { intros s H. unfold plain_literal. now rewrite H. }
  assert (Hexam : literal_safe (py "EX01") = true) by reflexivity.
  assert (Hsafe : Forall (fun f => literal_safe (ref_name f) = true) files).
  { repeat constructor. }
  split; [exact Hexam | split; [exact Hsafe |]].
  destruct renderName_stem_and_batch_position as (_ & _ & _ & _ & _ & H).
  destruct (H ascii_lower ascii_ci plain_literal files (py "EX01")
              Hplain Hexam Hsafe) as (data & E & _ & Hnth).
  exists data. split; [exact E | split].
  - rewrite (Hnth 0 _ eq_refl). vm_compute. reflexivity.
  - rewrite (Hnth 1 _ eq_refl). vm_compute. reflexivity.
Defined.

(* ================================================================== *)
(** * The classification channel *)
(* ================================================================== *)

Lemma update_nth_same : forall l k f c,
  nth_error l k = Some c -> nth_error (update_nth k f l) k = Some (f c).
Proof.
  induction l as [|x l IH]; intros [|k] f c H; simpl in *; try discriminate.
  - now inversion H.
  - now apply IH.
Qed.

Lemma update_nth_other : forall l j k f,
  j <> k -> nth_error (update_nth j f l) k = nth_error l k.
Proof.
  induction l as [|x l IH]; intros [|j] [|k] f H; simpl; auto;
    try congruence.
Qed.

Lemma update_nth_length : forall l k f,
  List.length (update_nth k f l) = List.length l.
Proof.
  induction l as [|x l IH]; intros [|k] f; simpl; auto.
Qed.

(** How one closure call changes the record of call [k]. *)
Lemma update_nth_at : forall l j k f c,
  nth_error l k = Some c ->
  nth_error (update_nth j f l) k = Some (if Nat.eqb j k then f c else c).
Proof.
  intros l j k f c H. destruct (Nat.eqb_spec j k) as [-> | Hne].
  - now apply update_nth_same.
  - now rewrite update_nth_other.
Qed.

Lemma nth_error_snoc {A} (l : list A) (x : A) :
  nth_error (l ++ [x]) (List.length l) = Some x.
Proof. rewrite nth_error_app2, Nat.sub_diag; auto. Qed.

Lemma nth_error_keep {A} (l : list A) (x c : A) k :
  nth_error l k = Some c -> nth_error (l ++ [x]) k = Some c.
Proof.
  intro H. rewrite nth_error_app1; auto.
  apply nth_error_Some. congruence.
Qed.

(** The executor with a worker at hand: the handlers of the call in both
    slots, its request posted, its timer armed for [timeout_ms] from now. *)
Lemma executor_live k s w c :
  worker s = Some w -> nth_error (calls s) k = Some c ->
  executor k s
  = {| worker := Some {| w_onmessage := Some k;
                         w_onerror := Some k;
                         w_posted := w_posted w ++
                           [request_of (c_files c) (c_examCode c)] |};
       calls := update_nth k (arm_timer (clock s)) (calls s);
       awaiting := awaiting s;
       clock := clock s |}.
Proof. intros Hw Hk. unfold executor. now rewrite Hw, Hk. Qed.

Lemma executor_awaiting k s : awaiting (executor k s) = awaiting s.
Proof.
  unfold executor. destruct (worker s); [| reflexivity].
  destruct (nth_error (calls s) k); reflexivity.
Qed.

Lemma executor_length k s :
  List.length (calls (executor k s)) = List.length (calls s).
Proof.
  unfold executor. destruct (worker s).
  - destruct (nth_error (calls s) k); cbn [calls]; auto.
    apply update_nth_length.
  - apply update_nth_length.
Qed.

(** A settled promise never changes, and a call keeps the [files] it
    captured, whatever the event loop runs next. *)
Lemma settle_keeps p c :
  c_files (settle p c) = c_files c
  /\ (c_promise c <> Pending -> c_promise (settle p c) = c_promise c)
  /\ (c_promise c = Pending -> c_promise (settle p c) = p)
  /\ c_timer (settle p c) = c_timer c.
Proof. unfold settle. destruct (c_promise c) eqn:E; simpl; intuition congruence. Qed.

Lemma same_or_settled_refl c : same_or_settled c c.
Proof. split; auto. Qed.

Lemma same_or_settled_trans a b c :
  same_or_settled a b -> same_or_settled b c -> same_or_settled a c.
Proof.
  intros [F1 P1] [F2 P2]. split; [congruence |].
  intro H. rewrite P2; [now apply P1 |]. rewrite (P1 H). exact H.
Qed.

Lemma same_or_settled_settle p c : same_or_settled c (settle p c).
Proof. pose proof (settle_keeps p c) as (F & P & _). split; auto. Qed.

(** Each closure body, and the executor, leaves every call but its own
    as it was, and its own call [same_or_settled]. *)
Ltac own_or_other j k :=
  destruct (Nat.eqb_spec j k) as [-> | ?];
  [ eexists; split;
    [ reflexivity
    | split; [ | let H := fresh in intro H; now elim H ] ]
  | eexists; split;
    [ reflexivity | split; [ apply same_or_settled_refl | auto ] ] ].

Lemma handle_message_call j msg s k c :
  nth_error (calls s) k = Some c ->
  exists c', nth_error (calls (handle_message j msg s)) k = Some c'
             /\ same_or_settled c c'
             /\ (j <> k -> c' = c).
Proof.
  intro H. unfold handle_message.
  pose proof (update_nth_at (calls s) j k clear_timer c H) as H1.
  destruct msg as [data | err |]; cbn [update_call calls].
  - rewrite (update_nth_at _ j k _ _ H1). own_or_other j k.
    apply (same_or_settled_settle _ (clear_timer c)).
  - rewrite (update_nth_at _ j k _ _ H1). own_or_other j k.
    apply (same_or_settled_settle _ (clear_timer c)).
  - rewrite H1. own_or_other j k. split; simpl; auto.
Qed.

Lemma handle_error_call j ev s k c :
  nth_error (calls s) k = Some c ->
  exists c', nth_error (calls (handle_error j ev s)) k = Some c'
             /\ same_or_settled c c'
             /\ (j <> k -> c' = c).
Proof.
  intro H. unfold handle_error. cbn [update_call calls].
  pose proof (update_nth_at (calls s) j k clear_timer c H) as H1.
  rewrite (update_nth_at _ j k _ _ H1). own_or_other j k.
  apply (same_or_settled_settle _ (clear_timer c)).
Qed.

Lemma handle_timeout_call j s k c :
  nth_error (calls s) k = Some c ->
  exists c', nth_error (calls (handle_timeout j s)) k = Some c'
             /\ same_or_settled c c'
             /\ (j <> k -> c' = c).
Proof.
  intro H. unfold handle_timeout. cbn [update_call calls].
  rewrite (update_nth_at _ j k _ _ H). own_or_other j k.
  apply (same_or_settled_settle _ (clear_timer c)).
Qed.

Lemma executor_call j s k c :
  nth_error (calls s) k = Some c ->
  exists c', nth_error (calls (executor j s)) k = Some c'
             /\ same_or_settled c c'
             /\ (j <> k -> c' = c).
Proof.
  intro H. unfold executor. destruct (worker s) as [w|].
  - destruct (nth_error (calls s) j) as [cj|] eqn:Hj; cbn [calls].
    + rewrite (update_nth_at _ j k _ _ H). own_or_other j k.
      split; simpl; auto.
    + exists c. split; [exact H |]. split; [apply same_or_settled_refl | auto].
  - cbn [update_call calls]. rewrite (update_nth_at _ j k _ _ H).
    own_or_other j k. apply same_or_settled_settle.
Qed.

(** One turn of the loop, seen from call [k]. *)
Lemma step_call s ev s' k c :
  step s ev = Some s' ->
  nth_error (calls s) k = Some c ->
  exists c', nth_error (calls s') k = Some c'
             /\ same_or_settled c c'
             /\ (~ In k (awaiting s) -> ~ In k (awaiting s'))
             /\ (delivers_to k s ev = false -> timer_free k [ev] = true ->
                 ~ In k (awaiting s) -> c' = c).
Proof.
  intros Hstep Hk.
  assert (Hlt : k < List.length (calls s)) by (apply nth_error_Some; congruence).
  destruct ev as [files ex | | msg | e | j | | dt]; cbn [step] in Hstep.
  - inversion Hstep; subst s'. clear Hstep. unfold analyzeDocuments.
    assert (Hk' : nth_error (calls (enter files ex s)) k = Some c)
      by (cbn [enter calls]; now apply nth_error_keep).
    destruct (worker s) as [w|] eqn:Ew; cbn [fst].
    + destruct (executor_call (List.length (calls s)) _ k c Hk')
        as (c' & Hc' & Hs & Hne).
      exists c'. split; [exact Hc' |]. split; [exact Hs |].
      rewrite executor_awaiting. cbn [enter awaiting].
      split; [auto |]. intros _ _ _. apply Hne. lia.
    + unfold initialize. cbn [enter worker calls awaiting]. rewrite Ew.
      cbn [worker calls awaiting]. exists c. split; [exact Hk' |].
      split; [apply same_or_settled_refl |]. split; [| auto].
      intros Hn Hin. apply in_app_or in Hin as [Hin | [<- | []]]; [auto | lia].
  - unfold resume in Hstep.
    destruct (awaiting s) as [|j rest] eqn:Ea; try discriminate.
    inversion Hstep; subst s'. clear Hstep.
    match goal with
    | |- context [executor j ?st] =>
        destruct (executor_call j st k c Hk) as (c' & Hc' & Hs & Hne)
    end.
    exists c'. split; [exact Hc' |]. split; [exact Hs |].
    rewrite executor_awaiting. cbn [awaiting].
    split; [intros Hn Hin; apply Hn; now right |].
    intros _ _ Hn. apply Hne. intros ->. apply Hn. now left.
  - destruct (awaiting s) as [|? ?] eqn:Ea; try discriminate.
    destruct (worker s) as [w|] eqn:Ew; try discriminate.
    destruct (w_onmessage w) as [j|] eqn:Ej; try discriminate.
    inversion Hstep; subst s'.
    destruct (handle_message_call j msg s k c Hk) as (c' & Hc' & Hs & Hne).
    exists c'. split; [exact Hc' |]. split; [exact Hs |].
    assert (Haw : awaiting (handle_message j msg s) = awaiting s)
      by (unfold handle_message; destruct msg; reflexivity).
    rewrite Haw, Ea. split; [auto |].
    intros Hd _ _. apply Hne. cbn [delivers_to] in Hd. rewrite Ea, Ew, Ej in Hd.
    intros ->. now rewrite Nat.eqb_refl in Hd.
  - destruct (awaiting s) as [|? ?] eqn:Ea; try discriminate.
    destruct (worker s) as [w|] eqn:Ew; try discriminate.
    destruct (w_onerror w) as [j|] eqn:Ej; try discriminate.
    inversion Hstep; subst s'.
    destruct (handle_error_call j e s k c Hk) as (c' & Hc' & Hs & Hne).
    exists c'. split; [exact Hc' |]. split; [exact Hs |].
    cbn [handle_error update_call awaiting]. rewrite Ea. split; [auto |].
    intros Hd _ _. apply Hne. cbn [delivers_to] in Hd. rewrite Ea, Ew, Ej in Hd.
    intros ->. now rewrite Nat.eqb_refl in Hd.
  - destruct (awaiting s) as [|? ?] eqn:Ea; try discriminate.
    destruct (nth_error (calls s) j) as [cj|]; try discriminate.
    destruct (c_timer cj) as [due|]; try discriminate.
    destruct (due <=? clock s)%Z; try discriminate.
    inversion Hstep; subst s'.
    destruct (handle_timeout_call j s k c Hk) as (c' & Hc' & Hs & Hne).
    exists c'. split; [exact Hc' |]. split; [exact Hs |].
    cbn [handle_timeout update_call awaiting]. rewrite Ea. split; [auto |].
    intros _ Hf _. apply Hne. cbn in Hf. intros ->.
    now rewrite Nat.eqb_refl in Hf.
  - inversion Hstep; subst s'. exists c. unfold terminate.
    destruct (worker s); cbn [calls awaiting];
      (split; [exact Hk | split; [apply same_or_settled_refl | auto]]).
  - destruct (0 <=? dt)%Z; try discriminate. inversion Hstep; subst s'.
    exists c. cbn [calls awaiting].
    split; [exact Hk | split; [apply same_or_settled_refl | auto]].
Qed.

Lemma run_call : forall evs s s' k c,
  run s evs = Some s' ->
  nth_error (calls s) k = Some c ->
  exists c', nth_error (calls s') k = Some c'
             /\ same_or_settled c c'
             /\ (~ In k (awaiting s) -> ~ In k (awaiting s'))
             /\ (silent_for k s evs = true -> timer_free k evs = true ->
                 ~ In k (awaiting s) -> c' = c).
Proof.
  induction evs as [|ev evs IH]; intros s s' k c Hrun Hk; cbn [run] in Hrun.
  - inversion Hrun; subst s'. exists c.
    split; [exact Hk | split; [apply same_or_settled_refl | auto]].
  - destruct (step s ev) as [s1|] eqn:Hstep; try discriminate.
    destruct (step_call s ev s1 k c Hstep Hk) as (c1 & Hc1 & Hs1 & Ha1 & He1).
    destruct (IH s1 s' k c1 Hrun Hc1) as (c' & Hc' & Hs' & Ha' & He').
    exists c'. split; [exact Hc' |].
    split; [eapply same_or_settled_trans; eauto |].
    split; [auto |].
    intros Hsil Hfree Hn. cbn [silent_for] in Hsil. rewrite Hstep in Hsil.
    apply andb_prop in Hsil as [Hd Hsil].
    apply negb_true_iff in Hd.
    cbn [timer_free forallb] in Hfree. apply andb_prop in Hfree as [Hf1 Hf2].
    assert (c1 = c) as ->.
    { apply He1; auto. cbn. now rewrite Hf1. }
    now apply He'; auto.
Qed.

(** A rejected or resolved promise stays as it is. *)
Lemma run_settled evs s s' k p :
  run s evs = Some s' ->
  promise_of s k = Some p -> p <> Pending ->
  promise_of s' k = Some p.
Proof.
  unfold promise_of. intros Hrun Hp Hne.
  destruct (nth_error (calls s) k) as [c|] eqn:Hk; try discriminate.
  destruct (run_call evs s s' k c Hrun Hk) as (c' & Hc' & [_ Hs] & _).
  rewrite Hc'. cbn in *. inversion Hp; subst p. f_equal. now apply Hs.
Qed.

Lemma run_captured evs s s' k files :
  run s evs = Some s' ->
  captured_files s k = Some files ->
  captured_files s' k = Some files.
Proof.
  unfold captured_files. intros Hrun Hp.
  destruct (nth_error (calls s) k) as [c|] eqn:Hk; try discriminate.
  destruct (run_call evs s s' k c Hrun Hk) as (c' & Hc' & [Hf _] & _).
  rewrite Hc'. cbn in *. congruence.
Qed.

Lemma run_app : forall evs1 evs2 s,
  run s (evs1 ++ evs2)
  = match run s evs1 with Some s1 => run s1 evs2 | None => None end.
Proof.
  induction evs1 as [|ev evs1 IH]; intros evs2 s; simpl; auto.
  destruct (step s ev); [apply IH | reflexivity].
Qed.

Lemma timer_step s k c :
  nth_error (calls s) k = Some c -> awaiting s = [] ->
  step s (EvTimer k)
  = match c_timer c with
    | Some due =>
        if (due <=? clock s)%Z then Some (handle_timeout k s) else None
    | None => None
    end.
Proof. intros H Ha. cbn [step]. now rewrite Ha, H. Qed.

Lemma timeout_rejects s k c :
  nth_error (calls s) k = Some c -> c_promise c = Pending ->
  promise_of (handle_timeout k s) k = Some (Rejected timeout_error).
Proof.
  intros Hk Hp. unfold promise_of, handle_timeout. cbn [update_call calls].
  rewrite (update_nth_same _ _ _ _ Hk). cbn [option_map]. f_equal.
  unfold settle. cbn. now rewrite Hp.
Qed.

(** With no reply handed to call [k], its promise is rejected by the
    timer as soon as the timer has run. *)
Lemma run_silent_timer : forall evs s s' k c,
  run s evs = Some s' ->
  nth_error (calls s) k = Some c -> c_promise c = Pending ->
  ~ In k (awaiting s) ->
  silent_for k s evs = true -> timer_free k evs = false ->
  promise_of s' k = Some (Rejected timeout_error).
Proof.
  induction evs as [|ev evs IH]; intros s s' k c Hrun Hk Hp Hn Hsil Hfree.
  - discriminate.
  - cbn [run] in Hrun. destruct (step s ev) as [s1|] eqn:Hstep;
      try discriminate.
    cbn [silent_for] in Hsil. rewrite Hstep in Hsil.
    apply andb_prop in Hsil as [Hd Hsil]. apply negb_true_iff in Hd.
    destruct (timer_free k [ev]) eqn:Hev.
    + destruct (step_call s ev s1 k c Hstep Hk) as (c1 & Hc1 & _ & Ha1 & He1).
      rewrite (He1 Hd Hev Hn) in Hc1.
      apply (IH s1 s' k c Hrun Hc1 Hp (Ha1 Hn) Hsil).
      cbn [timer_free forallb] in Hfree, Hev. rewrite andb_true_r in Hev.
      now rewrite Hev in Hfree.
    + destruct ev as [| | | | j | |]; try discriminate.
      cbn in Hev. rewrite andb_true_r in Hev.
      apply negb_false_iff, Nat.eqb_eq in Hev. subst j.
      cbn [step] in Hstep.
      destruct (awaiting s) as [|? ?]; try discriminate.
      rewrite Hk in Hstep.
      destruct (c_timer c) as [due|]; try discriminate.
      destruct (due <=? clock s)%Z; try discriminate.
      inversion Hstep; subst s1.
      apply (run_settled evs _ s' k _ Hrun); [| discriminate].
      now apply timeout_rejects with (c := c).
Qed.

(** Right after its executor ran, and for as long as no reply and no
    timer touches it, a call reads: timer armed, promise pending. *)
Lemma launched_record s0 k c :
  launches s0 k c ->
  nth_error (calls (executor k s0)) k = Some (arm_timer (clock s0) c)
  /\ ~ In k (awaiting (executor k s0))
  /\ exists w, worker (executor k s0) = Some w
               /\ w_onmessage w = Some k /\ w_onerror w = Some k.
Proof.
  intros (Hw & Hk & Hp & Hn).
  destruct (worker s0) as [w|] eqn:Ew; [| congruence].
  rewrite (executor_live k s0 w c Ew Hk). cbn [calls awaiting worker].
  split; [now apply update_nth_same |]. split; [exact Hn |].
  eexists. repeat split.
Qed.

Lemma run_untouched evs s0 k c s2 :
  launches s0 k c ->
  run (executor k s0) evs = Some s2 ->
  silent_for k (executor k s0) evs = true -> timer_free k evs = true ->
  nth_error (calls s2) k = Some (arm_timer (clock s0) c).
Proof.
  intros Hl Hrun Hsil Hfree.
  destruct (launched_record s0 k c Hl) as (H1 & Hn & _).
  destruct (run_call evs _ s2 k _ Hrun H1) as (c' & Hc' & _ & _ & He).
  rewrite Hc'. f_equal. now apply He.
Qed.

Lemma updatedFiles_nth files data i :
  nth_error (updatedFiles files data) i
  = option_map (update_file data) (nth_error files i).
Proof. unfold updatedFiles. apply nth_error_map. Qed.

Lemma find_result_none data file :
  find_result data file = None <->
  forall r, In r data -> e_id r <> pf_id file.
Proof.
  unfold find_result. split.
  - intros H r Hin Heq.
    pose proof (find_none _ _ H r Hin) as Hf. cbn in Hf.
    apply str_eqb_eq in Heq. congruence.
  - intro H. destruct (find _ data) as [r|] eqn:E; auto.
    apply find_some in E as [Hin Heq]. apply str_eqb_eq in Heq.
    now elim (H r Hin).
Qed.

Lemma find_result_some data file :
  (exists r, In r data /\ e_id r = pf_id file) ->
  exists r, find_result data file = Some r
            /\ In r data /\ e_id r = pf_id file.
Proof.
  intros (r0 & Hin0 & Heq0).
  destruct (find_result data file) as [r|] eqn:E.
  - exists r. unfold find_result in E. apply find_some in E as [Hin Heq].
    apply str_eqb_eq in Heq. auto.
  - exfalso. exact (proj1 (find_result_none data file) E r0 Hin0 Heq0).
Qed.

(** A [result] message handed to a call that nothing has touched resolves
    its promise with [updatedFiles] of the array it captured. *)
Lemma response_resolves s0 k c evs s2 data :
  launches s0 k c ->
  run (executor k s0) evs = Some s2 ->
  silent_for k (executor k s0) evs = true -> timer_free k evs = true ->
  delivers_to k s2 (EvMessage (MsgResult data)) = true ->
  exists s3,
    step s2 (EvMessage (MsgResult data)) = Some s3
    /\ promise_of s3 k = Some (Resolved (updatedFiles (c_files c) data)).
Proof.
  intros Hl Hrun Hsil Hfree Hd.
  pose proof (run_untouched evs s0 k c s2 Hl Hrun Hsil Hfree) as Hk.
  cbn [delivers_to step] in *.
  destruct (awaiting s2) as [|? ?]; try discriminate.
  destruct (worker s2) as [w|]; try discriminate.
  destruct (w_onmessage w) as [j|]; try discriminate.
  apply Nat.eqb_eq in Hd. subst j.
  eexists. split; [reflexivity |].
  unfold promise_of, handle_message. cbn [update_call calls].
  erewrite update_nth_same;
    [| erewrite update_nth_same; [reflexivity | exact Hk]].
  destruct Hl as (_ & _ & Hp & _). cbn. unfold settle. cbn. now rewrite Hp.
Qed.

(** Both ways into the executor start from a [launches] state. *)
Lemma analyzeDocuments_launches files examCode s :
  worker s <> None ->
  ~ In (List.length (calls s)) (awaiting s) ->
  analyzeDocuments files examCode s
  = (executor (List.length (calls s)) (enter files examCode s),
     List.length (calls s))
  /\ launches (enter files examCode s) (List.length (calls s))
       {| c_files := files; c_examCode := examCode;
          c_timer := None; c_promise := Pending |}.
Proof.
  intros Hw Hn. unfold analyzeDocuments.
  destruct (worker s) as [w|] eqn:Ew; [| congruence].
  split; [reflexivity |]. unfold launches. cbn [enter worker calls awaiting].
  split; [congruence |]. split; [apply nth_error_snoc |].
  split; [reflexivity | exact Hn].
Qed.

Lemma resume_launches s k rest c :
  awaiting s = k :: rest -> ~ In k rest ->
  worker s <> None ->
  nth_error (calls s) k = Some c -> c_promise c = Pending ->
  step s EvResume
  = Some (executor k {| worker := worker s; calls := calls s;
                        awaiting := rest; clock := clock s |})
  /\ launches {| worker := worker s; calls := calls s;
                 awaiting := rest; clock := clock s |} k c.
Proof.
  intros Ha Hn Hw Hk Hp. cbn [step]. unfold resume. rewrite Ha.
  split; [reflexivity |]. unfold launches. cbn. auto.
Qed.

(** C7.  When the [result] message reaches the call before its timer
    has run, every input record whose [id] no entry of the response
    carries sits unchanged, at its position, in the array the promise
    resolves with. *)
Theorem record_absent_from_response_unmodified :
  forall s0 k c evs s2 data,
    launches s0 k c ->
    run (executor k s0) evs = Some s2 ->
    silent_for k (executor k s0) evs = true -> timer_free k evs = true ->
    delivers_to k s2 (EvMessage (MsgResult data)) = true ->
    exists s3 out,
      step s2 (EvMessage (MsgResult data)) = Some s3
      /\ promise_of s3 k = Some (Resolved out)
      /\ forall i file,
           nth_error (c_files c) i = Some file ->
           (forall r, In r data -> e_id r <> pf_id file) ->
           nth_error out i = Some file.
Proof.
  intros s0 k c evs s2 data Hl Hrun Hsil Hfree Hd.
  destruct (response_resolves s0 k c evs s2 data Hl Hrun Hsil Hfree Hd)
    as (s3 & Hstep & Hp).
  exists s3, (updatedFiles (c_files c) data). repeat split; auto.
  intros i file Hi Habs. rewrite updatedFiles_nth, Hi. cbn [option_map].
  unfold update_file. now rewrite (proj2 (find_result_none data file) Habs).
Qed.

(** C9.  When the [result] message reaches the call before its timer
    has run, the promise resolves with an array as long as the input and
    in its order; a record whose [id] occurs in the response carries the
    [detectedType] and [newName] of an entry with that [id] and status
    [completed], every other field being the input's. *)
Theorem response_updates_matching_records_in_place :
  forall s0 k c evs s2 data,
    launches s0 k c ->
    run (executor k s0) evs = Some s2 ->
    silent_for k (executor k s0) evs = true -> timer_free k evs = true ->
    delivers_to k s2 (EvMessage (MsgResult data)) = true ->
    exists s3 out,
      step s2 (EvMessage (MsgResult data)) = Some s3
      /\ promise_of s3 k = Some (Resolved out)
      /\ List.length out = List.length (c_files c)
      /\ forall i file,
           nth_error (c_files c) i = Some file ->
           exists file',
             nth_error out i = Some file'
             /\ pf_id file' = pf_id file
             /\ ((exists r, In r data /\ e_id r = pf_id file) ->
                 exists r,
                   In r data /\ e_id r = pf_id file
                   /\ file' =
                      {| pf_id := pf_id file;
                         pf_file := pf_file file;
                         pf_originalName := pf_originalName file;
                         pf_detectedType := Some (e_detectedType r);
                         pf_newName := Some (e_newName r);
                         pf_status := completed;
                         pf_progress := pf_progress file;
                         pf_error := pf_error file;
                         pf_formattedFile := pf_formattedFile file |}).
Proof.
  intros s0 k c evs s2 data Hl Hrun Hsil Hfree Hd.
  destruct (response_resolves s0 k c evs s2 data Hl Hrun Hsil Hfree Hd)
    as (s3 & Hstep & Hp).
  exists s3, (updatedFiles (c_files c) data). repeat split; auto.
  - unfold updatedFiles. apply length_map.
  - intros i file Hi. exists (update_file data file).
    rewrite updatedFiles_nth, Hi. split; [reflexivity |]. split.
    + unfold update_file. destruct (find_result data file); reflexivity.
    + intro Hex.
      destruct (find_result_some data file Hex) as (r & Hf & Hin & Heq).
      exists r. unfold update_file. rewrite Hf. auto.
Qed.

(** While only time passes and timers run, the worker and the suspended
    calls stay as they are and no reply is handed to any call. *)
Lemma only_timers_step s ev s' k :
  only_timers [ev] = true -> step s ev = Some s' ->
  worker s' = worker s /\ awaiting s' = awaiting s
  /\ delivers_to k s ev = false.
Proof.
  intros Ho Hstep.
  destruct ev as [files ex | | msg | e | j | | dt]; cbn in Ho;
    try discriminate; cbn [step] in Hstep.
  - destruct (awaiting s) as [|? ?] eqn:Ea; try discriminate.
    destruct (nth_error (calls s) j) as [cj|]; try discriminate.
    destruct (c_timer cj) as [due|]; try discriminate.
    destruct (due <=? clock s)%Z; try discriminate.
    inversion Hstep; subst s'. cbn. rewrite Ea. auto.
  - destruct (0 <=? dt)%Z; try discriminate.
    inversion Hstep; subst s'. cbn. auto.
Qed.

Lemma only_timers_run : forall evs s s' k,
  only_timers evs = true -> run s evs = Some s' ->
  worker s' = worker s /\ awaiting s' = awaiting s
  /\ silent_for k s evs = true.
Proof.
  induction evs as [|ev evs IH]; intros s s' k Ho Hrun; cbn [run] in Hrun.
  - inversion Hrun; subst s'. auto.
  - destruct (step s ev) as [s1|] eqn:Hstep; [| discriminate].
    cbn [only_timers forallb] in Ho. apply andb_prop in Ho as [Ho1 Ho2].
    destruct (only_timers_step s ev s1 k) as (Hw1 & Ha1 & Hd); auto.
    { cbn. now rewrite Ho1. }
    destruct (IH s1 s' k Ho2 Hrun) as (Hw & Ha & Hs).
    split; [congruence |]. split; [congruence |].
    cbn [silent_for]. now rewrite Hd, Hstep, Hs.
Qed.

(** What the executor leaves behind: both handler slots hold the call,
    its request is the last one posted, the clock and the suspended
    calls are as before. *)
Lemma launched_handlers s0 k c :
  launches s0 k c ->
  exists w posted,
    worker (executor k s0) = Some w
    /\ w_onmessage w = Some k /\ w_onerror w = Some k
    /\ w_posted w = posted ++ [request_of (c_files c) (c_examCode c)]
    /\ clock (executor k s0) = clock s0
    /\ awaiting (executor k s0) = awaiting s0.
Proof.
  intros (Hw & Hk & _ & _).
  destruct (worker s0) as [w0|] eqn:Ew; [| congruence].
  rewrite (executor_live k s0 w0 c Ew Hk). cbn [worker clock awaiting].
  eexists. exists (w_posted w0). repeat split.
Qed.

(** As long as only time passes, the call keeps both handler slots. *)
Lemma launched_keeps_handlers s0 k c evs s2 :
  launches s0 k c -> awaiting s0 = [] ->
  run (executor k s0) evs = Some s2 ->
  only_timers evs = true -> timer_free k evs = true ->
  nth_error (calls s2) k = Some (arm_timer (clock s0) c)
  /\ awaiting s2 = []
  /\ exists w, worker s2 = Some w
               /\ w_onmessage w = Some k /\ w_onerror w = Some k.
Proof.
  intros Hl Ha Hrun Ho Hfree.
  destruct (only_timers_run evs _ s2 k Ho Hrun) as (Hw2 & Ha2 & Hsil).
  destruct (launched_handlers s0 k c Hl)
    as (w & posted & Hw & Hm & He & _ & _ & Haw).
  split; [now apply (run_untouched evs s0 k c s2) |].
  split; [congruence |].
  exists w. rewrite Hw2. auto.
Qed.

(** C5.  The executor arms the timer of its call for exactly 30000 ms
    from then on, whatever the batch, puts the closures of the call in
    both handler slots of the worker and posts the request.  As long as
    no reply is handed to the call: before the timer has run the promise
    is pending, the timer can run only once 30000 ms have passed and then
    rejects the promise, and an error event of the worker rejects it as
    well; once the timer has run the promise is rejected.  A rejected
    promise stays rejected under every later event, so it never carries
    an array, and the records the call captured are the input records.
    While only time passes after the launch, an error event of the worker
    is handled by the call and rejects its promise with that event; the
    timer cannot run before 30000 ms have passed, and run after that it
    rejects the promise with the timeout error. *)
Theorem timeout_or_transport_failure_rejects_batch :
  forall s0 k c,
    launches s0 k c ->
    timer_of (executor k s0) k = Some (Some (clock s0 + 30000)%Z)
    /\ (forall evs s2,
         run (executor k s0) evs = Some s2 ->
         silent_for k (executor k s0) evs = true ->
         (timer_free k evs = false ->
            promise_of s2 k = Some (Rejected timeout_error))
         /\ (timer_free k evs = true ->
               promise_of s2 k = Some Pending
               /\ (awaiting s2 = [] ->
                   step s2 (EvTimer k)
                   = (if (clock s0 + 30000 <=? clock s2)%Z
                      then Some (handle_timeout k s2) else None))
               /\ promise_of (handle_timeout k s2) k
                  = Some (Rejected timeout_error)
               /\ forall ev,
                    delivers_to k s2 (EvError ev) = true ->
                    exists s3,
                      step s2 (EvError ev) = Some s3
                      /\ promise_of s3 k = Some (Rejected (ErrorEvent ev)))
         /\ (forall r evs' s3,
               promise_of s2 k = Some (Rejected r) ->
               run s2 evs' = Some s3 ->
               promise_of s3 k = Some (Rejected r)
               /\ captured_files s3 k = Some (c_files c)))
    /\ (exists w posted,
          worker (executor k s0) = Some w
          /\ w_onmessage w = Some k /\ w_onerror w = Some k
          /\ w_posted w = posted ++ [request_of (c_files c) (c_examCode c)])
    /\ (awaiting s0 = [] ->
        forall evs s2,
          run (executor k s0) evs = Some s2 ->
          only_timers evs = true -> timer_free k evs = true ->
          forall ev,
            delivers_to k s2 (EvError ev) = true
            /\ exists s3,
                 step s2 (EvError ev) = Some s3
                 /\ promise_of s3 k = Some (Rejected (ErrorEvent ev))
                 /\ captured_files s3 k = Some (c_files c)
                 /\ forall evs' s4,
                      run s3 evs' = Some s4 ->
                      promise_of s4 k = Some (Rejected (ErrorEvent ev)))
    /\ (awaiting s0 = [] ->
        forall dt, (0 <= dt)%Z ->
          ((dt < 30000)%Z ->
           run (executor k s0) [EvWait dt; EvTimer k] = None)
          /\ ((30000 <= dt)%Z ->
              exists s2,
                run (executor k s0) [EvWait dt; EvTimer k] = Some s2
                /\ promise_of s2 k = Some (Rejected timeout_error)
                /\ captured_files s2 k = Some (c_files c))).
Proof.
  intros s0 k c Hl.
  destruct (launched_record s0 k c Hl) as (H1 & Hn & _).
  pose proof Hl as (_ & _ & Hpend & _).
  split.
  { unfold timer_of. now rewrite H1. }
  split.
  { intros evs s2 Hrun Hsil. split; [| split].
    - intro Hfree.
      apply (run_silent_timer evs _ s2 k _ Hrun H1); auto.
    - intro Hfree.
      pose proof (run_untouched evs s0 k c s2 Hl Hrun Hsil Hfree) as H2.
      split; [unfold promise_of; rewrite H2; cbn; now rewrite Hpend |].
      split; [intro Ha; rewrite (timer_step s2 k _ H2 Ha); reflexivity |].
      split; [now apply timeout_rejects with (c := arm_timer (clock s0) c) |].
      intros ev Hd. cbn [delivers_to step] in *.
      destruct (awaiting s2) as [|? ?]; try discriminate.
      destruct (worker s2) as [w|]; try discriminate.
      destruct (w_onerror w) as [j|]; try discriminate.
      apply Nat.eqb_eq in Hd. subst j.
      eexists. split; [reflexivity |].
      unfold promise_of, handle_error. cbn [update_call calls].
      erewrite update_nth_same;
        [| erewrite update_nth_same; [reflexivity | exact H2]].
      cbn. unfold settle. cbn. now rewrite Hpend.
    - intros r evs' s3 Hp Hrun'. split.
      + apply (run_settled evs' s2 s3 k _ Hrun' Hp). discriminate.
      + apply (run_captured (evs ++ evs') (executor k s0) s3 k).
        * rewrite run_app, Hrun. exact Hrun'.
        * unfold captured_files. now rewrite H1. }
  split.
  { destruct (launched_handlers s0 k c Hl)
      as (w & posted & Hw & Hm & He & Hpo & _).
    exists w, posted. auto. }
  split.
  { intros Ha evs s2 Hrun Ho Hfree ev.
    destruct (launched_keeps_handlers s0 k c evs s2 Hl Ha Hrun Ho Hfree)
      as (H2 & Ha2 & w & Hw & _ & He).
    assert (Hd : delivers_to k s2 (EvError ev) = true).
    { cbn [delivers_to]. rewrite Ha2, Hw, He. apply Nat.eqb_refl. }
    split; [exact Hd |].
    assert (Hstep : step s2 (EvError ev) = Some (handle_error k ev s2)).
    { cbn [step]. now rewrite Ha2, Hw, He. }
    assert (H3 : nth_error (calls (handle_error k ev s2)) k
                 = Some (settle (Rejected (ErrorEvent ev))
                           (clear_timer (arm_timer (clock s0) c)))).
    { unfold handle_error. cbn [update_call calls].
      erewrite update_nth_same; [reflexivity |].
      now apply update_nth_same. }
    assert (Hp3 : promise_of (handle_error k ev s2) k
                  = Some (Rejected (ErrorEvent ev))).
    { unfold promise_of. rewrite H3. cbn. unfold settle. cbn.
      now rewrite Hpend. }
    exists (handle_error k ev s2). split; [exact Hstep |].
    split; [exact Hp3 |]. split.
    - unfold captured_files. rewrite H3. cbn.
      now rewrite (proj1 (settle_keeps _ _)).
    - intros evs' s4 Hrun'.
      apply (run_settled evs' _ s4 k _ Hrun' Hp3). discriminate. }
  intros Ha dt Hdt.
  destruct (launched_handlers s0 k c Hl)
    as (w & posted & Hw & _ & _ & _ & Hclock & Haw).
  set (s1 := {| worker := worker (executor k s0);
                calls := calls (executor k s0);
                awaiting := awaiting (executor k s0);
                clock := (clock (executor k s0) + dt)%Z |}).
  assert (Hwait : step (executor k s0) (EvWait dt) = Some s1).
  { cbn [step]. destruct (Z.leb_spec 0 dt); [reflexivity | lia]. }
  assert (Hk1 : nth_error (calls s1) k = Some (arm_timer (clock s0) c))
    by exact H1.
  assert (Ha1 : awaiting s1 = []) by (cbn [s1 awaiting]; congruence).
  assert (Htimer : step s1 (EvTimer k)
                   = if (clock s0 + 30000 <=? clock s0 + dt)%Z
                     then Some (handle_timeout k s1) else None).
  { rewrite (timer_step s1 k _ Hk1 Ha1). cbn [arm_timer c_timer s1 clock].
    unfold timeout_ms. now rewrite Hclock. }
  split.
  - intro Hlt. cbn [run]. rewrite Hwait, Htimer.
    destruct (Z.leb_spec (clock s0 + 30000) (clock s0 + dt)); [lia |].
    reflexivity.
  - intro Hge. exists (handle_timeout k s1).
    split.
    { cbn [run]. rewrite Hwait, Htimer.
      destruct (Z.leb_spec (clock s0 + 30000) (clock s0 + dt)); [| lia].
      reflexivity. }
    split; [now apply timeout_rejects with (c := arm_timer (clock s0) c) |].
    unfold captured_files, handle_timeout. cbn [update_call calls].
    rewrite (update_nth_same _ _ _ _ Hk1). cbn.
    now rewrite (proj1 (settle_keeps _ _)).
Qed.

Lemma superseded_step k s ev s' :
  superseded k s -> step s ev = Some s' ->
  superseded k s' /\ delivers_to k s ev = false.
Proof.
  intros (Hlen & Hn & Hw) Hstep.
  destruct ev as [files ex | | msg | e | j | | dt]; cbn [step] in Hstep.
  - inversion Hstep; subst s'. split; [| reflexivity].
    unfold analyzeDocuments.
    destruct (worker s) as [w|] eqn:Ew; cbn [fst].
    + assert (Hsnoc := nth_error_snoc (calls s)
                         {| c_files := files; c_examCode := ex;
                            c_timer := None; c_promise := Pending |}).
      assert (Hw' : worker (enter files ex s) = Some w) by exact Ew.
      rewrite (executor_live _ _ w _ Hw' Hsnoc).
      unfold superseded. cbn [calls awaiting worker enter].
      rewrite update_nth_length, length_app. cbn [List.length].
      split; [lia |]. split; [exact Hn |].
      cbn. split; intro H; inversion H; lia.
    + unfold superseded, initialize. cbn [enter worker calls awaiting].
      rewrite Ew. cbn [worker calls awaiting]. rewrite length_app.
      cbn [List.length]. split; [lia |]. split.
      * intro Hin. apply in_app_or in Hin as [Hin | [<- | []]]; [auto | lia].
      * cbn. split; discriminate.
  - unfold resume in Hstep.
    destruct (awaiting s) as [|j rest] eqn:Ea; try discriminate.
    inversion Hstep; subst s'. split; [| reflexivity].
    assert (Hjk : j <> k) by (intros ->; apply Hn; now left).
    unfold superseded. rewrite executor_length, executor_awaiting.
    cbn [calls awaiting]. split; [exact Hlen |].
    split; [intro Hin; apply Hn; now right |].
    unfold executor. cbn [worker calls].
    destruct (worker s) as [w|] eqn:Ew.
    + destruct (nth_error (calls s) j); cbn [worker].
      * cbn. split; intro H; inversion H; congruence.
      * exact Hw.
    + cbn [update_call worker]. exact I.
  - destruct (awaiting s) as [|? ?] eqn:Ea; try discriminate.
    destruct (worker s) as [w|] eqn:Ew; try discriminate.
    destruct (w_onmessage w) as [j|] eqn:Ej; try discriminate.
    inversion Hstep; subst s'. split.
    + unfold superseded.
      assert (Hsame : worker (handle_message j msg s) = worker s
                      /\ awaiting (handle_message j msg s) = awaiting s
                      /\ List.length (calls (handle_message j msg s))
                         = List.length (calls s)).
      { unfold handle_message. destruct msg; cbn [update_call worker awaiting calls];
          rewrite ?update_nth_length; auto. }
      destruct Hsame as (-> & -> & ->). rewrite Ew, Ea.
      split; [exact Hlen |]. split; [auto |]. rewrite Ej. exact Hw.
    + cbn [delivers_to]. rewrite Ea, Ew, Ej.
      apply Nat.eqb_neq. intros ->. now apply (proj1 Hw).
  - destruct (awaiting s) as [|? ?] eqn:Ea; try discriminate.
    destruct (worker s) as [w|] eqn:Ew; try discriminate.
    destruct (w_onerror w) as [j|] eqn:Ej; try discriminate.
    inversion Hstep; subst s'. split.
    + unfold superseded, handle_error. cbn [update_call worker awaiting calls].
      rewrite !update_nth_length, Ew, Ea.
      split; [exact Hlen |]. split; [auto |]. rewrite Ej. exact Hw.
    + cbn [delivers_to]. rewrite Ea, Ew, Ej.
      apply Nat.eqb_neq. intros ->. now apply (proj2 Hw).
  - destruct (awaiting s) as [|? ?] eqn:Ea; try discriminate.
    destruct (nth_error (calls s) j) as [cj|]; try discriminate.
    destruct (c_timer cj) as [due|]; try discriminate.
    destruct (due <=? clock s)%Z; try discriminate.
    inversion Hstep; subst s'. split; [| reflexivity].
    unfold superseded, handle_timeout. cbn [update_call worker awaiting calls].
    rewrite update_nth_length, Ea. auto.
  - inversion Hstep; subst s'. split; [| reflexivity].
    unfold superseded, terminate.
    destruct (worker s) eqn:Ew; cbn [calls worker awaiting]; rewrite ?Ew; auto.
  - destruct (0 <=? dt)%Z; try discriminate. inversion Hstep; subst s'.
    split; [| reflexivity]. unfold superseded. cbn. auto.
Qed.

Lemma superseded_run : forall evs k s s',
  superseded k s -> run s evs = Some s' -> silent_for k s evs = true.
Proof.
  induction evs as [|ev evs IH]; intros k s s' Hsup Hrun; auto.
  cbn [run silent_for] in *.
  destruct (step s ev) as [s1|] eqn:Hstep; try discriminate.
  destruct (superseded_step k s ev s1 Hsup Hstep) as [Hsup1 Hd].
  rewrite Hd. cbn. now apply (IH k s1 s').
Qed.

(** A call made while the worker exists: its executor has run when the
    call returns. *)
Lemma call_with_worker s1 w1 files2 examCode2 :
  worker s1 = Some w1 ->
  analyzeDocuments files2 examCode2 s1
  = ({| worker := Some {| w_onmessage := Some (List.length (calls s1));
                          w_onerror := Some (List.length (calls s1));
                          w_posted := w_posted w1 ++
                                      [request_of files2 examCode2] |};
        calls := update_nth (List.length (calls s1)) (arm_timer (clock s1))
                   (calls s1 ++
                    [ {| c_files := files2; c_examCode := examCode2;
                         c_timer := None; c_promise := Pending |} ]);
        awaiting := awaiting s1;
        clock := clock s1 |},
     List.length (calls s1)).
Proof.
  intro Ew. unfold analyzeDocuments. rewrite Ew. f_equal.
  assert (Hwe : worker (enter files2 examCode2 s1) = Some w1) by exact Ew.
  rewrite (executor_live _ _ w1 _ Hwe
             (nth_error_snoc (calls s1)
                {| c_files := files2; c_examCode := examCode2;
                   c_timer := None; c_promise := Pending |})).
  reflexivity.
Qed.

(** A [result] message handled while both slots hold call [k], whose
    promise is pending: it resolves [k] with its own records and leaves
    every other call as it is. *)
Lemma result_goes_to_slot_holder s k c w data :
  awaiting s = [] -> worker s = Some w -> w_onmessage w = Some k ->
  nth_error (calls s) k = Some c -> c_promise c = Pending ->
  exists s',
    step s (EvMessage (MsgResult data)) = Some s'
    /\ promise_of s' k = Some (Resolved (updatedFiles (c_files c) data))
    /\ forall j cj, j <> k -> nth_error (calls s) j = Some cj ->
                    nth_error (calls s') j = Some cj.
Proof.
  intros Ha Hw Hm Hk Hp.
  exists (handle_message k (MsgResult data) s). split.
  { cbn [step]. now rewrite Ha, Hw, Hm. }
  split.
  - unfold promise_of, handle_message. cbn [update_call calls].
    erewrite update_nth_same;
      [| erewrite update_nth_same; [reflexivity | exact Hk]].
    cbn. unfold settle. cbn. now rewrite Hp.
  - intros j cj Hne Hj.
    destruct (handle_message_call k (MsgResult data) s j cj Hj)
      as (c' & Hc' & _ & He).
    rewrite Hc'. f_equal. apply He. congruence.
Qed.

(** A call that is out of both slots and not suspended stays pending for
    as long as its own timer does not run. *)
Lemma superseded_stays_pending k s c evs s' :
  superseded k s -> nth_error (calls s) k = Some c ->
  c_promise c = Pending ->
  run s evs = Some s' -> timer_free k evs = true ->
  promise_of s' k = Some Pending.
Proof.
  intros Hsup Hk Hp Hrun Hfree.
  destruct (run_call evs s s' k c Hrun Hk) as (c' & Hc' & _ & _ & He).
  unfold promise_of. rewrite Hc'. cbn.
  rewrite He; [now rewrite Hp | | exact Hfree | apply Hsup].
  now apply (superseded_run evs k s s').
Qed.

(** C3, as the code has it.  A call made while the promise of an earlier
    call is still pending is never rejected: its own promise is pending
    when it returns, and the earlier one is untouched.  With a worker at
    hand the new call puts its closures in both handler slots and posts
    its request at once.  The slots then belong to the call whose
    executor ran last.  If the executor of the earlier call has run, the
    next [result] message resolves the new call, with its own records
    updated from whatever entries the message holds, and not the earlier
    one, which is out of both slots and stays pending until its own timer
    runs.  If the earlier call is still suspended at its [await], no
    message is handled before it resumes; it resumes next, takes both
    slots and posts its request after the new call's, so the next
    [result] message resolves the earlier call with its own records, and
    the new call stays pending until its own timer runs. *)
Theorem second_call_pending_last_executor_holds_handlers :
  forall s1 k1 c1 files2 examCode2 s2 k2,
    nth_error (calls s1) k1 = Some c1 -> c_promise c1 = Pending ->
    analyzeDocuments files2 examCode2 s1 = (s2, k2) ->
    k2 <> k1
    /\ promise_of s2 k2 = Some Pending
    /\ promise_of s2 k1 = Some Pending
    /\ (worker s1 <> None ->
        (exists w posted,
            worker s2 = Some w
            /\ w_onmessage w = Some k2 /\ w_onerror w = Some k2
            /\ w_posted w = posted ++ [request_of files2 examCode2])
        /\ forall data s3,
             step s2 (EvMessage (MsgResult data)) = Some s3 ->
             promise_of s3 k2 = Some (Resolved (updatedFiles files2 data))
             /\ promise_of s3 k1 = Some Pending)
    /\ (~ In k1 (awaiting s1) ->
        forall evs s3,
          run s2 evs = Some s3 -> timer_free k1 evs = true ->
          promise_of s3 k1 = Some Pending)
    /\ (worker s1 <> None -> awaiting s1 = [] ->
        forall data,
          exists s3,
            step s2 (EvMessage (MsgResult data)) = Some s3
            /\ promise_of s3 k2 = Some (Resolved (updatedFiles files2 data))
            /\ promise_of s3 k1 = Some Pending)
    /\ (worker s1 <> None -> awaiting s1 = [k1] ->
        (forall msg, step s2 (EvMessage msg) = None)
        /\ exists s3 w posted,
             step s2 EvResume = Some s3
             /\ worker s3 = Some w
             /\ w_onmessage w = Some k1 /\ w_onerror w = Some k1
             /\ w_posted w
                = posted ++ [ request_of files2 examCode2;
                              request_of (c_files c1) (c_examCode c1) ]
             /\ (forall data,
                   exists s4,
                     step s3 (EvMessage (MsgResult data)) = Some s4
                     /\ promise_of s4 k1
                        = Some (Resolved (updatedFiles (c_files c1) data))
                     /\ promise_of s4 k2 = Some Pending)
             /\ forall evs s4,
                  run s3 evs = Some s4 -> timer_free k2 evs = true ->
                  promise_of s4 k2 = Some Pending).
Proof.
  intros s1 k1 c1 files2 examCode2 s2 k2 Hk1 Hc1 Hcall.
  assert (Hlt : k1 < List.length (calls s1)).
  { apply nth_error_Some. congruence. }
  set (c2 := {| c_files := files2; c_examCode := examCode2;
                c_timer := None; c_promise := Pending |}).
  assert (Hk1e : nth_error (calls s1 ++ [c2]) k1 = Some c1)
    by (now apply nth_error_keep).
  destruct (worker s1) as [w1|] eqn:Ew.
  - rewrite (call_with_worker s1 w1 files2 examCode2 Ew) in Hcall.
    fold c2 in Hcall.
    apply pair_equal_spec in Hcall as [Hs2 Hk2]. subst k2.
    set (k2 := List.length (calls s1)) in *.
    assert (Hk2' : nth_error (calls s2) k2 = Some (arm_timer (clock s1) c2)).
    { rewrite <- Hs2. cbn [calls]. apply update_nth_same.
      apply nth_error_snoc. }
    assert (Hk1' : nth_error (calls s2) k1 = Some c1).
    { rewrite <- Hs2. cbn [calls]. rewrite update_nth_other by (unfold k2; lia).
      exact Hk1e. }
    assert (Haw : awaiting s2 = awaiting s1) by (now rewrite <- Hs2).
    assert (Hcl : clock s2 = clock s1) by (now rewrite <- Hs2).
    set (w2 := {| w_onmessage := Some k2;
                  w_onerror := Some k2;
                  w_posted := w_posted w1 ++
                              [request_of files2 examCode2] |}) in *.
    assert (Hwk : worker s2 = Some w2) by (now rewrite <- Hs2).
    assert (Hne : k2 <> k1) by (unfold k2; lia).
    assert (Hlaunched : ~ In k1 (awaiting s1) -> superseded k1 s2).
    { intro Hn. unfold superseded. rewrite Haw, Hwk. cbn.
      split; [apply nth_error_Some; congruence |]. split; [exact Hn |].
      split; intro H; inversion H; congruence. }
    split; [exact Hne |].
    split; [unfold promise_of; now rewrite Hk2' |].
    split; [unfold promise_of; rewrite Hk1'; cbn; now rewrite Hc1 |].
    split.
    { intros _. split.
      - eexists. exists (w_posted w1). rewrite Hwk. repeat split.
      - intros data s3 Hstep.
        assert (Ha2 : awaiting s2 = []).
        { cbn [step] in Hstep. destruct (awaiting s2); [reflexivity |].
          discriminate. }
        destruct (result_goes_to_slot_holder s2 k2 (arm_timer (clock s1) c2)
                    w2 data Ha2 Hwk eq_refl Hk2' eq_refl)
          as (s3' & Hstep' & Hp2 & Hother).
        rewrite Hstep in Hstep'. inversion Hstep'; subst s3'.
        split; [exact Hp2 |].
        unfold promise_of. rewrite (Hother k1 c1); [| congruence | exact Hk1'].
        cbn. now rewrite Hc1. }
    split.
    { intros Hn evs s3 Hrun Hfree.
      now apply (superseded_stays_pending k1 s2 c1 evs s3); auto. }
    split.
    { intros _ Ha data.
      assert (Ha2 : awaiting s2 = []) by congruence.
      destruct (result_goes_to_slot_holder s2 k2 (arm_timer (clock s1) c2)
                  w2 data Ha2 Hwk eq_refl Hk2' eq_refl)
        as (s3 & Hstep & Hp2 & Hother).
      exists s3. split; [exact Hstep |]. split; [exact Hp2 |].
      unfold promise_of. rewrite (Hother k1 c1); [| congruence | exact Hk1'].
      cbn. now rewrite Hc1. }
    intros _ Ha.
    assert (Ha2 : awaiting s2 = [k1]) by congruence.
    split.
    { intro msg. cbn [step]. now rewrite Ha2. }
    set (s2' := {| worker := worker s2; calls := calls s2;
                   awaiting := []; clock := clock s2 |}).
    assert (Hres : step s2 EvResume = Some (executor k1 s2')).
    { cbn [step]. unfold resume. now rewrite Ha2. }
    assert (Hw2' : worker s2' = Some w2) by exact Hwk.
    assert (Hk1'' : nth_error (calls s2') k1 = Some c1) by exact Hk1'.
    pose proof (executor_live k1 s2' w2 c1 Hw2' Hk1'') as Hex.
    cbn [w_posted w2] in Hex.
    set (s3 := executor k1 s2') in *.
    assert (Hk1s3 : nth_error (calls s3) k1 = Some (arm_timer (clock s2') c1)).
    { rewrite Hex. cbn [calls]. now apply update_nth_same. }
    assert (Hk2s3 : nth_error (calls s3) k2 = Some (arm_timer (clock s1) c2)).
    { rewrite Hex. cbn [calls]. rewrite update_nth_other by congruence.
      exact Hk2'. }
    assert (Ha3 : awaiting s3 = []) by (rewrite Hex; reflexivity).
    set (w3 := {| w_onmessage := Some k1;
                  w_onerror := Some k1;
                  w_posted := (w_posted w1 ++
                               [request_of files2 examCode2]) ++
                    [request_of (c_files c1) (c_examCode c1)] |}).
    assert (Hw3 : worker s3 = Some w3) by (rewrite Hex; reflexivity).
    exists s3, w3, (w_posted w1).
    split; [exact Hres |]. split; [exact Hw3 |].
    split; [reflexivity |]. split; [reflexivity |].
    split; [unfold w3; cbn [w_posted]; now rewrite <- app_assoc |].
    split.
    { intro data.
      destruct (result_goes_to_slot_holder s3 k1 (arm_timer (clock s2') c1)
                  w3 data Ha3 Hw3 eq_refl Hk1s3 Hc1)
        as (s4 & Hstep & Hp1 & Hother).
      exists s4. split; [exact Hstep |]. split; [exact Hp1 |].
      unfold promise_of.
      rewrite (Hother k2 (arm_timer (clock s1) c2) Hne Hk2s3). reflexivity. }
    intros evs s4 Hrun Hfree.
    apply (superseded_stays_pending k2 s3 (arm_timer (clock s1) c2) evs s4);
      auto.
    unfold superseded. rewrite Ha3, Hw3. cbn.
    split; [apply nth_error_Some; congruence |]. split; [tauto |].
    split; intro H; inversion H; congruence.
  - unfold analyzeDocuments in Hcall. rewrite Ew in Hcall.
    unfold initialize in Hcall. cbn [enter worker] in Hcall.
    rewrite Ew in Hcall. cbn [worker calls awaiting clock] in Hcall.
    apply pair_equal_spec in Hcall as [Hs2 Hk2]. subst k2.
    assert (Hk2' : nth_error (calls s2) (List.length (calls s1)) = Some c2)
      by (rewrite <- Hs2; apply nth_error_snoc).
    assert (Hk1' : nth_error (calls s2) k1 = Some c1)
      by (rewrite <- Hs2; exact Hk1e).
    split; [lia |].
    split; [unfold promise_of; now rewrite Hk2' |].
    split; [unfold promise_of; rewrite Hk1'; cbn; now rewrite Hc1 |].
    split; [intro H; congruence |].
    split.
    { intros Hn evs s3 Hrun Hfree.
      apply (superseded_stays_pending k1 s2 c1 evs s3); auto.
      unfold superseded. rewrite <- Hs2. cbn.
      split; [rewrite length_app; cbn; lia |]. split.
      - intro Hin. apply in_app_or in Hin as [Hin | [Heq | []]]; [auto | lia].
      - split; discriminate. }
    split; intro H; congruence.
Qed.

(** C3, refuted as stated: with the first call still pending the second
    call is left pending as well instead of being rejected, and the reply
    computed for the first batch then resolves the second call, whose
    record comes back unclassified. *)
Lemma second_call_is_not_rejected :
  promise_of after_first 0 = Some Pending
  /\ analyzeDocuments [sign_file] exam after_first = (after_second, 1)
  /\ promise_of after_second 1 = Some Pending
  /\ (forall reason, promise_of after_second 1 <> Some (Rejected reason))
  /\ exists s3,
       step after_second (EvMessage (MsgResult photo_reply)) = Some s3
       /\ promise_of s3 1 = Some (Resolved [sign_file])
       /\ promise_of s3 0 = Some Pending.
Proof.
  split; [reflexivity | split; [reflexivity | split; [reflexivity | split]]].
  - intros reason H. vm_compute in H. discriminate.
  - eexists. split; [reflexivity | split; reflexivity].
Qed.

(** On a fresh service the first call waits for the worker while a second
    call, made before it resumes, runs its executor first; the first call
    then takes both slots, and the first reply goes to it. *)
Lemma suspended_first_call_overtaken :
  awaiting overtaken = [0]
  /\ exists s3 s4,
       step overtaken EvResume = Some s3
       /\ delivers_to 0 s3 (EvMessage (MsgResult photo_reply)) = true
       /\ step s3 (EvMessage (MsgResult photo_reply)) = Some s4
       /\ promise_of s4 1 = Some Pending.
Proof.
  split; [reflexivity |].
  do 2 eexists. split; [reflexivity |]. split; [reflexivity |].
  split; reflexivity.
Qed.

Lemma second_call_pending_last_executor_holds_handlers_witness :
  analyzeDocuments [sign_file] exam after_first = (after_second, 1)
  /\ promise_of after_second 1 = Some Pending
  /\ promise_of after_second 0 = Some Pending
  /\ (exists s3,
        step after_second (EvMessage (MsgResult photo_reply)) = Some s3
        /\ promise_of s3 1 = Some (Resolved [sign_file])
        /\ promise_of s3 0 = Some Pending)
  /\ analyzeDocuments [sign_file] exam
       (fst (analyzeDocuments [photo_file] exam fresh)) = (overtaken, 1)
  /\ awaiting (fst (analyzeDocuments [photo_file] exam fresh)) = [0]
  /\ step overtaken (EvMessage (MsgResult photo_reply)) = None
  /\ exists s3 s4,
       step overtaken EvResume = Some s3
       /\ step s3 (EvMessage (MsgResult photo_reply)) = Some s4
       /\ promise_of s4 0
          = Some (Resolved (updatedFiles [photo_file] photo_reply))
       /\ promise_of s4 1 = Some Pending.
Proof.
  destruct (second_call_pending_last_executor_holds_handlers after_first 0 _
              [sign_file] exam after_second 1 eq_refl eq_refl eq_refl)
    as (_ & H1 & H0 & _ & _ & Hlaunched & _).
  destruct (second_call_pending_last_executor_holds_handlers
              (fst (analyzeDocuments [photo_file] exam fresh)) 0 _
              [sign_file] exam overtaken 1 eq_refl eq_refl eq_refl)
    as (_ & _ & _ & _ & _ & _ & Hsuspended).
  split; [reflexivity |]. split; [exact H1 |]. split; [exact H0 |].
  split.
  { destruct (Hlaunched ltac:(discriminate) eq_refl photo_reply)
      as (s3 & Hstep & Hp1 & Hp0).
    exists s3. split; [exact Hstep |]. split; [| exact Hp0].
    rewrite Hp1. reflexivity. }
  split; [reflexivity |]. split; [reflexivity |].
  destruct (Hsuspended ltac:(discriminate) eq_refl)
    as (Hnone & s3 & w & posted & Hres & _ & _ & _ & _ & Hmsg & _).
  split; [apply Hnone |].
  destruct (Hmsg photo_reply) as (s4 & Hstep & Hp0' & Hp1').
  exists s3, s4. auto.
Defined.

(** The sample calls reach their executor from a [launches] state. *)
Lemma idle_launches files :
  analyzeDocuments files exam idle = (executor 0 (enter files exam idle), 0)
  /\ launches (enter files exam idle) 0
       {| c_files := files; c_examCode := exam;
          c_timer := None; c_promise := Pending |}.
Proof.
  apply (analyzeDocuments_launches files exam idle); [discriminate |].
  intros [].
Qed.

Lemma timeout_or_transport_failure_rejects_batch_witness :
  launches (enter [photo_file] exam idle) 0
    {| c_files := [photo_file]; c_examCode := exam;
       c_timer := None; c_promise := Pending |}
  /\ analyzeDocuments [photo_file] exam idle = (after_first, 0)
  /\ timer_of after_first 0 = Some (Some 30000%Z)
  /\ step after_first (EvTimer 0) = None
  /\ (exists s2,
        run after_first [EvWait 30000; EvTimer 0] = Some s2
        /\ promise_of s2 0 = Some (Rejected timeout_error))
  /\ run after_first [EvWait 29999; EvTimer 0] = None
  /\ (exists s2,
        run after_first [EvWait 31000; EvTimer 0] = Some s2
        /\ promise_of s2 0 = Some (Rejected timeout_error))
  /\ exists s2 s3,
       run after_first [EvWait 100] = Some s2
       /\ step s2 (EvError 7) = Some s3
       /\ promise_of s3 0 = Some (Rejected (ErrorEvent 7)).
Proof.
  destruct (idle_launches [photo_file]) as [_ Hl].
  destruct (timeout_or_transport_failure_rejects_batch _ _ _ Hl)
    as (Ht & H & _ & Herr & Hdue).
  split; [exact Hl |].
  split; [reflexivity | split; [exact Ht | split; [reflexivity |]]].
  split.
  { eexists. split; [reflexivity |].
    refine (proj1 (H [EvWait 30000; EvTimer 0] _ eq_refl eq_refl) eq_refl). }
  split.
  { apply (proj1 (Hdue eq_refl 29999%Z ltac:(lia))). lia. }
  split.
  { destruct (proj2 (Hdue eq_refl 31000%Z ltac:(lia)) ltac:(lia))
      as (s2 & Hrun & Hp & _).
    exists s2. split; [exact Hrun | exact Hp]. }
  eexists.
  destruct (Herr eq_refl [EvWait 100] _ eq_refl eq_refl eq_refl 7%N)
    as (_ & s3 & Hstep & Hp & _).
  exists s3. split; [reflexivity |]. split; [exact Hstep | exact Hp].
Defined.

Lemma record_absent_from_response_unmodified_witness :
  launches (enter [photo_file; sign_file] exam idle) 0
    {| c_files := [photo_file; sign_file]; c_examCode := exam;
       c_timer := None; c_promise := Pending |}
  /\ analyzeDocuments [photo_file; sign_file] exam idle = (after_pair, 0)
  /\ delivers_to 0 after_pair (EvMessage (MsgResult photo_reply)) = true
  /\ exists s3 out,
       step after_pair (EvMessage (MsgResult photo_reply)) = Some s3
       /\ promise_of s3 0 = Some (Resolved out)
       /\ nth_error out 1 = Some sign_file.
Proof.
  destruct (idle_launches [photo_file; sign_file]) as [_ Hl].
  split; [exact Hl |].
  split; [reflexivity | split; [reflexivity |]].
  destruct (record_absent_from_response_unmodified _ _ _ [] after_pair
              photo_reply Hl eq_refl eq_refl eq_refl eq_refl)
    as (s3 & out & Hstep & Hp & Hnth).
  exists s3, out. split; [exact Hstep | split; [exact Hp |]].
  apply (Hnth 1 sign_file eq_refl).
  intros r Hin Heq. vm_compute in Hin.
  destruct Hin as [<- | []]. vm_compute in Heq. discriminate.
Defined.

Lemma response_updates_matching_records_in_place_witness :
  launches (enter [photo_file; sign_file] exam idle) 0
    {| c_files := [photo_file; sign_file]; c_examCode := exam;
       c_timer := None; c_promise := Pending |}
  /\ analyzeDocuments [photo_file; sign_file] exam idle = (after_pair, 0)
  /\ delivers_to 0 after_pair (EvMessage (MsgResult photo_reply)) = true
  /\ exists s3 out file',
       step after_pair (EvMessage (MsgResult photo_reply)) = Some s3
       /\ promise_of s3 0 = Some (Resolved out)
       /\ List.length out = 2
       /\ nth_error out 0 = Some file'
       /\ pf_id file' = py "a1"
       /\ pf_detectedType file' = Some (py "photo")
       /\ pf_newName file' = Some (py "EX01_photograph.jpg")
       /\ pf_status file' = completed.
Proof.
  destruct (idle_launches [photo_file; sign_file]) as [_ Hl].
  split; [exact Hl |].
  split; [reflexivity | split; [reflexivity |]].
  destruct (response_updates_matching_records_in_place _ _ _ [] after_pair
              photo_reply Hl eq_refl eq_refl eq_refl eq_refl)
    as (s3 & out & Hstep & Hp & Hlen & Hnth).
  destruct (Hnth 0 photo_file eq_refl) as (file' & H0 & Hid & Hupd).
  exists s3, out, file'.
  split; [exact Hstep | split; [exact Hp | split; [exact Hlen |]]].
  split; [exact H0 | split; [exact Hid |]].
  destruct Hupd as (r & Hin & _ & ->).
  - eexists. split; [left; reflexivity | reflexivity].
  - vm_compute in Hin. destruct Hin as [<- | []].
    repeat split.
Defined.

(* ================================================================== *)
(** * Arithmetic of the progress fraction *)
(* ================================================================== *)

Section NumberFacts.

Local Open Scope Z_scope.

(** ** Powers of two *)

Lemma pow2_add a b : (powerRZ 2 (a + b) = powerRZ 2 a * powerRZ 2 b)%R.
Proof. apply powerRZ_add. lra. Qed.

Lemma pow2_pos e : (0 < powerRZ 2 e)%R.
Proof. apply powerRZ_lt. lra. Qed.

Lemma pow2_IZR n : 0 <= n -> powerRZ 2 n = IZR (2 ^ n).
Proof.
  intro H. destruct n as [|p|p]; try lia.
  - reflexivity.
  - symmetry. apply (Zpower_pos_powerRZ 2 p).
Qed.

Lemma pow2_le a b : a <= b -> (powerRZ 2 a <= powerRZ 2 b)%R.
Proof.
  intro H. replace b with (a + (b - a)) by lia. rewrite pow2_add.
  rewrite (pow2_IZR (b - a)) by lia.
  assert (1 <= 2 ^ (b - a)) by (apply Z.pow_le_mono_r with (b := 0); lia).
  apply IZR_le in H0. pose proof (pow2_pos a). nra.
Qed.

Lemma pow2_lt_inv a b : (powerRZ 2 a < powerRZ 2 b)%R -> a < b.
Proof.
  intro H. destruct (Z_lt_le_dec a b) as [|Hle]; auto.
  apply pow2_le in Hle. lra.
Qed.

Lemma pow2_neg n : 0 <= n -> powerRZ 2 (- n) = (/ IZR (2 ^ n))%R.
Proof. intro H. rewrite powerRZ_neg', pow2_IZR; auto. Qed.


Lemma F2R_shift m e n :
  0 <= m -> 0 <= n -> (scaled (m / 2 ^ n) (e + n) <= scaled m e)%R.
Proof.
  intros Hm Hn. unfold scaled. rewrite pow2_add, (pow2_IZR n Hn).
  assert (H : (m / 2 ^ n) * 2 ^ n <= m).
  { rewrite Z.mul_comm. apply Z.mul_div_le. apply Z.pow_pos_nonneg; lia. }
  apply IZR_le in H. rewrite mult_IZR in H.
  pose proof (pow2_pos e). nra.
Qed.

(** ** Bit lengths *)
Lemma digits2_pos_bounds p :
  2 ^ (Zpos (digits2_pos p) - 1) <= Zpos p < 2 ^ Zpos (digits2_pos p).
Proof.
  induction p as [p IH | p IH |]; cbn [digits2_pos].
  - rewrite Pos2Z.inj_succ.
    replace (Z.succ (Zpos (digits2_pos p)) - 1) with (Z.succ (Zpos (digits2_pos p) - 1)) by lia.
    rewrite !Z.pow_succ_r by lia. lia.
  - rewrite Pos2Z.inj_succ.
    replace (Z.succ (Zpos (digits2_pos p)) - 1) with (Z.succ (Zpos (digits2_pos p) - 1)) by lia.
    rewrite !Z.pow_succ_r by lia. lia.
  - cbn. lia.
Qed.

Lemma Zdigits2_bounds m :
  0 < m -> 2 ^ (Zdigits2 m - 1) <= m < 2 ^ Zdigits2 m.
Proof. destruct m; try lia. intros _. apply digits2_pos_bounds. Qed.

Lemma Zdigits2_nonneg m : 0 <= m -> 0 <= Zdigits2 m.
Proof. destruct m; cbn; lia. Qed.

Lemma Zdigits2_le m k : 0 <= m -> 0 <= k -> m < 2 ^ k -> Zdigits2 m <= k.
Proof.
  intros Hm Hk Hlt. destruct (Z.eq_dec m 0) as [-> | Hne]; [cbn; lia |].
  pose proof (Zdigits2_bounds m ltac:(lia)) as [Hlo _].
  destruct (Z_le_gt_dec (Zdigits2 m) k) as [|Hgt]; auto.
  assert (2 ^ k <= 2 ^ (Zdigits2 m - 1)) by (apply Z.pow_le_mono_r; lia).
  lia.
Qed.

Lemma Zdigits2_ge m k : 0 <= k -> 2 ^ k <= m -> k + 1 <= Zdigits2 m.
Proof.
  intros Hk Hle.
  assert (0 < m) by (pose proof (Z.pow_pos_nonneg 2 k); lia).
  pose proof (Zdigits2_bounds m H) as [_ Hhi].
  destruct (Z_le_gt_dec (k + 1) (Zdigits2 m)) as [|Hgt]; auto.
  assert (2 ^ Zdigits2 m <= 2 ^ k).
  { apply Z.pow_le_mono_r; try lia. }
  lia.
Qed.

(** ** Shifting a mantissa right *)
Lemma shr_1_m mrs : 0 <= shr_m mrs -> shr_m (shr_1 mrs) = shr_m mrs / 2.
Proof.
  destruct mrs as [m r s]. cbn [shr_m]. intro H.
  destruct m as [|p|p]; try lia; cbn [shr_1].
  - reflexivity.
  - destruct p; cbn [shr_m].
    + apply Z.div_unique with (r := 1); lia.
    + apply Z.div_unique with (r := 0); lia.
    + reflexivity.
Qed.

Lemma iter_shr_1_m : forall p mrs,
  0 <= shr_m mrs ->
  shr_m (SpecFloat.iter_pos shr_1 p mrs) = shr_m mrs / 2 ^ Zpos p.
Proof.
  assert (Hnn : forall mrs, 0 <= shr_m mrs -> 0 <= shr_m (shr_1 mrs)).
  { intros mrs H. rewrite shr_1_m by auto. apply Z.div_pos; lia. }
  induction p as [p IH | p IH |]; intros mrs H; cbn [SpecFloat.iter_pos].
  - assert (H1 := Hnn mrs H).
    assert (H2 : 0 <= shr_m (SpecFloat.iter_pos shr_1 p (shr_1 mrs))).
    { rewrite IH by auto. apply Z.div_pos; [auto | apply Z.pow_pos_nonneg; lia]. }
    rewrite IH by auto. rewrite IH by auto. rewrite shr_1_m by auto.
    rewrite !Z.div_div by (try apply Z.pow_pos_nonneg; lia).
    f_equal.
    replace (Zpos p~1) with (1 + Zpos p + Zpos p) by lia.
    rewrite !Z.pow_add_r by lia. lia.
  - assert (H2 : 0 <= shr_m (SpecFloat.iter_pos shr_1 p mrs)).
    { rewrite IH by auto. apply Z.div_pos; [auto | apply Z.pow_pos_nonneg; lia]. }
    rewrite IH by auto. rewrite IH by auto.
    rewrite !Z.div_div by (try apply Z.pow_pos_nonneg; lia).
    f_equal.
    replace (Zpos p~0) with (Zpos p + Zpos p) by lia.
    rewrite !Z.pow_add_r by lia. lia.
  - rewrite shr_1_m by auto. reflexivity.
Qed.

Lemma shr_spec mrs e n :
  0 <= shr_m mrs ->
  shr_m (fst (shr mrs e n)) = shr_m mrs / 2 ^ Z.max 0 n
  /\ snd (shr mrs e n) = e + Z.max 0 n.
Proof.
  intro H. destruct n as [|p|p]; cbn [shr fst snd].
  - rewrite Z.div_1_r. split; [reflexivity | cbn; lia].
  - rewrite iter_shr_1_m by auto. split; [f_equal; f_equal; lia | lia].
  - rewrite Z.max_l by lia. rewrite Z.div_1_r. split; [reflexivity | lia].
Qed.

Lemma shr_record_of_loc_m m l : shr_m (shr_record_of_loc m l) = m.
Proof. destruct l as [|[| |]]; reflexivity. Qed.

Lemma round_nearest_even_bounds m l :
  m <= round_nearest_even m l <= m + 1.
Proof.
  destruct l as [|[| |]]; cbn [round_nearest_even]; try lia.
  destruct (Z.even m); lia.
Qed.

(** ** Rounding to 53 bits *)

Lemma fx_eq e : fexp64 e = Z.max (e - 53) (-1074).
Proof. reflexivity. Qed.

Lemma binary_round_aux_spec s mx ex lx :
  0 <= mx ->
  exists m2,
    mx / 2 ^ Z.max 0 (fexp64 (Zdigits2 mx + ex) - ex) <= m2
      <= mx / 2 ^ Z.max 0 (fexp64 (Zdigits2 mx + ex) - ex) + 1
    /\ (lx = loc_Exact -> fexp64 (Zdigits2 mx + ex) - ex <= 0 -> m2 = mx)
    /\ binary_round_aux prec emax s mx ex lx
       = match m2 / 2 ^ Z.max 0 (fexp64 (Zdigits2 m2
                                      + (ex + Z.max 0 (fexp64 (Zdigits2 mx + ex) - ex)))
                                 - (ex + Z.max 0 (fexp64 (Zdigits2 mx + ex) - ex))) with
         | Z0 => S754_zero s
         | Zpos m =>
             if (ex + Z.max 0 (fexp64 (Zdigits2 mx + ex) - ex)
                 + Z.max 0 (fexp64 (Zdigits2 m2
                                + (ex + Z.max 0 (fexp64 (Zdigits2 mx + ex) - ex)))
                            - (ex + Z.max 0 (fexp64 (Zdigits2 mx + ex) - ex)))
                 <=? emax - prec)
             then S754_finite s m
                    (ex + Z.max 0 (fexp64 (Zdigits2 mx + ex) - ex)
                     + Z.max 0 (fexp64 (Zdigits2 m2
                                    + (ex + Z.max 0 (fexp64 (Zdigits2 mx + ex) - ex)))
                                - (ex + Z.max 0 (fexp64 (Zdigits2 mx + ex) - ex))))
             else S754_infinity s
         | Zneg _ => S754_nan
         end.
Proof.
  intro Hmx. unfold binary_round_aux, shr_fexp. fold (fexp64 (Zdigits2 mx + ex)).
  set (n1 := fexp64 (Zdigits2 mx + ex) - ex).
  pose proof (shr_spec (shr_record_of_loc mx lx) ex n1) as H1.
  rewrite shr_record_of_loc_m in H1. specialize (H1 Hmx).
  destruct (shr (shr_record_of_loc mx lx) ex n1) as [mrs' e'] eqn:E1.
  cbn [fst snd] in H1. destruct H1 as [Hm1 He1].
  set (m2 := round_nearest_even (shr_m mrs') (loc_of_shr_record mrs')).
  exists m2.
  pose proof (round_nearest_even_bounds (shr_m mrs') (loc_of_shr_record mrs'))
    as Hb. fold m2 in Hb. rewrite Hm1 in Hb.
  split; [exact Hb |]. split.
  - intros -> Hn. unfold m2.
    assert (mrs' = shr_record_of_loc mx loc_Exact) as ->.
    { unfold shr in E1. destruct n1; try lia; now inversion E1. }
    reflexivity.
  - assert (Hm2 : 0 <= m2).
    { assert (0 <= mx / 2 ^ Z.max 0 n1)
        by (apply Z.div_pos; [auto | apply Z.pow_pos_nonneg; lia]). lia. }
    fold (fexp64 (Zdigits2 m2 + e')). rewrite He1.
    set (n2 := fexp64 (Zdigits2 m2 + (ex + Z.max 0 n1)) - (ex + Z.max 0 n1)).
    pose proof (shr_spec (shr_record_of_loc m2 loc_Exact) (ex + Z.max 0 n1) n2)
      as H2.
    rewrite shr_record_of_loc_m in H2. specialize (H2 Hm2).
    destruct (shr (shr_record_of_loc m2 loc_Exact) (ex + Z.max 0 n1) n2)
      as [mrs'' e''] eqn:E2.
    cbn [fst snd] in H2. destruct H2 as [Hm3 He3].
    rewrite Hm3, He3. reflexivity.
Qed.

Lemma F2R_mono m m' e : m <= m' -> (scaled m e <= scaled m' e)%R.
Proof.
  intro H. unfold scaled. apply IZR_le in H. pose proof (pow2_pos e). nra.
Qed.

Lemma F2R_succ m e : (scaled (m + 1) e = scaled m e + powerRZ 2 e)%R.
Proof. unfold scaled. rewrite plus_IZR. lra. Qed.

Lemma binary_round_aux_bound s mx ex lx :
  0 <= mx ->
  Z.max ex (fexp64 (Zdigits2 mx + ex)) + 1 <= emax - prec ->
  binary_round_aux prec emax s mx ex lx = S754_zero s
  \/ exists m e,
       binary_round_aux prec emax s mx ex lx = S754_finite s m e
       /\ (scaled (Zpos m) e
           <= scaled mx ex + powerRZ 2 (Z.max ex (fexp64 (Zdigits2 mx + ex))))%R
       /\ e <= Z.max ex (fexp64 (Zdigits2 mx + ex)) + 1.
Proof.
  intros Hmx He.
  destruct (binary_round_aux_spec s mx ex lx Hmx) as (m2 & Hb & _ & ->).
  set (f1 := fexp64 (Zdigits2 mx + ex)) in *.
  set (n1 := Z.max 0 (f1 - ex)) in *.
  set (e1 := Z.max ex f1) in *.
  assert (Hn1 : ex + n1 = e1) by (unfold n1, e1; lia).
  rewrite !Hn1.
  set (n2 := Z.max 0 (fexp64 (Zdigits2 m2 + e1) - e1)) in *.
  assert (Hn1' : 0 <= n1) by (unfold n1; lia).
  assert (Hm1 : 0 <= mx / 2 ^ n1)
    by (apply Z.div_pos; [auto | apply Z.pow_pos_nonneg; lia]).
  assert (Hm1' : mx / 2 ^ n1 < 2 ^ 53).
  { apply Z.div_lt_upper_bound; [apply Z.pow_pos_nonneg; lia |].
    rewrite <- Z.pow_add_r by lia.
    destruct (Z.eq_dec mx 0) as [-> | Hne].
    - apply Z.pow_pos_nonneg; lia.
    - pose proof (Zdigits2_bounds mx ltac:(lia)) as [_ Hhi].
      eapply Z.lt_le_trans; [exact Hhi |].
      apply Z.pow_le_mono_r; [lia |].
      unfold n1, f1. rewrite fx_eq. lia. }
  assert (Hd2 : Zdigits2 m2 <= 54).
  { apply Zdigits2_le; lia. }
  assert (Hn2 : 0 <= n2 <= 1).
  { unfold n2. rewrite fx_eq. unfold e1, f1. rewrite fx_eq. lia. }
  assert (Hm3 : 0 <= m2 / 2 ^ n2)
    by (apply Z.div_pos; [lia | apply Z.pow_pos_nonneg; lia]).
  destruct (m2 / 2 ^ n2) as [|m|m] eqn:Em; [now left | | lia].
  right. exists m, (e1 + n2).
  assert ((e1 + n2 <=? emax - prec) = true) as -> by (apply Z.leb_le; lia).
  split; [reflexivity |]. split; [| lia].
  rewrite <- Em.
  eapply Rle_trans; [apply F2R_shift; lia |].
  eapply Rle_trans; [apply F2R_mono; apply (proj2 Hb) |].
  rewrite F2R_succ. rewrite <- Hn1 at 1.
  pose proof (F2R_shift mx ex n1 Hmx Hn1'). lra.
Qed.

(** ** Integers as numbers *)
Lemma iter_xO_Z p k : Zpos (Pos.iter xO p k) = Zpos p * 2 ^ Zpos k.
Proof.
  induction k as [|k IH] using Pos.peano_ind.
  - cbn. lia.
  - rewrite Pos.iter_succ, Pos2Z.inj_succ, Z.pow_succ_r by lia.
    change (Zpos (Pos.iter xO p k)~0) with (2 * Zpos (Pos.iter xO p k)).
    rewrite IH. lia.
Qed.

Lemma iter_xO_digits p k :
  Zpos (digits2_pos (Pos.iter xO p k)) = Zpos (digits2_pos p) + Zpos k.
Proof.
  induction k as [|k IH] using Pos.peano_ind.
  - cbn. lia.
  - rewrite Pos.iter_succ. cbn [digits2_pos]. rewrite !Pos2Z.inj_succ, IH. lia.
Qed.

(** A float with a full 53-bit mantissa and a small exponent is what
    rounding it again returns. *)
Lemma binary_round_aux_exact m e :
  Zdigits2 (Zpos m) = 53 -> -1074 <= e <= 971 ->
  binary_round_aux prec emax false (Zpos m) e loc_Exact = S754_finite false m e.
Proof.
  intros Hd He.
  destruct (binary_round_aux_spec false (Zpos m) e loc_Exact ltac:(lia))
    as (m2 & _ & Hex & ->).
  assert (Hf : fexp64 (Zdigits2 (Zpos m) + e) - e = 0)
    by (rewrite Hd, fx_eq; lia).
  rewrite Hf in *. rewrite (Hex eq_refl ltac:(lia)).
  change (Z.max 0 0) with 0. rewrite Z.add_0_r, Hf.
  change (Z.max 0 0) with 0. rewrite Z.add_0_r.
  change (2 ^ 0) with 1. rewrite Z.div_1_r.
  assert ((e <=? emax - prec) = true) as -> by (apply Z.leb_le; unfold emax, prec; lia).
  reflexivity.
Qed.

Lemma of_Z_exact n :
  0 < n < 2 ^ 53 ->
  exists m e,
    of_Z n = S754_finite false m e
    /\ Zdigits2 (Zpos m) = 53
    /\ scaled (Zpos m) e = IZR n
    /\ -52 <= e <= 0.
Proof.
  intros [Hlo Hhi]. destruct n as [|p|p]; try lia.
  unfold of_Z, binary_normalize, binary_round.
  fold (fexp64 (Zpos (digits2_pos p) + 0)). rewrite fx_eq.
  pose proof (digits2_pos_bounds p) as [Hd1 Hd2].
  assert (Hd : 1 <= Zpos (digits2_pos p) <= 53).
  { split; [lia |]. apply (Zdigits2_le (Zpos p)); lia. }
  set (d := Zpos (digits2_pos p)) in *.
  unfold shl_align.
  replace (Z.max (d + 0 - 53) (-1074) - 0) with (d - 53) by lia.
  destruct (d - 53) as [|k|k] eqn:Ek; try lia.
  - exists p, 0. rewrite binary_round_aux_exact by (cbn; lia).
    repeat split; try lia.
    + cbn [Zdigits2]. fold d. lia.
    + unfold scaled. cbn. lra.
  - exists (Pos.iter xO p k), (d - 53).
    replace (Z.max (d + 0 - 53) (-1074)) with (d - 53) by lia.
    assert (Hdig : Zdigits2 (Zpos (Pos.iter xO p k)) = 53).
    { cbn [Zdigits2]. rewrite iter_xO_digits. fold d. lia. }
    rewrite binary_round_aux_exact by (auto; lia).
    repeat split; try lia; auto.
    unfold scaled. rewrite iter_xO_Z, mult_IZR.
    rewrite <- (pow2_IZR (Zpos k)) by lia.
    rewrite Rmult_assoc, <- pow2_add.
    replace (Zpos k + (d - 53)) with 0 by lia. cbn. lra.
Qed.

Lemma of_Z_0 : of_Z 0 = S754_zero false.
Proof. reflexivity. Qed.

Lemma of_Z_100 : of_Z 100 = S754_finite false 7036874417766400 (-46).
Proof. reflexivity. Qed.

Lemma F2R_pos_exp m e : (scaled (Zpos m) e < 1)%R -> e < 0.
Proof.
  intro H. apply pow2_lt_inv. change (powerRZ 2 0) with 1%R.
  unfold scaled in H. pose proof (pow2_pos e).
  assert (1 <= IZR (Zpos m))%R by (apply IZR_le; lia). nra.
Qed.

(** ** The quotient [i / total] *)
Lemma div_bound i t :
  0 < i < t -> t < 2 ^ 32 ->
  div (of_Z i) (of_Z t) = S754_zero false
  \/ exists m e,
       div (of_Z i) (of_Z t) = S754_finite false m e
       /\ (scaled (Zpos m) e <= 1 - / 4294967296 + / 4503599627370496)%R.
Proof.
  intros Hi Ht.
  destruct (of_Z_exact i ltac:(lia)) as (m1 & e1 & -> & Hd1 & Hv1 & He1).
  destruct (of_Z_exact t ltac:(lia)) as (m2 & e2 & -> & Hd2 & Hv2 & He2).
  pose proof (Zdigits2_bounds (Zpos m1) ltac:(lia)) as [Hm1lo Hm1hi].
  pose proof (Zdigits2_bounds (Zpos m2) ltac:(lia)) as [Hm2lo Hm2hi].
  rewrite Hd1 in *. rewrite Hd2 in *.
  change (2 ^ (53 - 1)) with 4503599627370496 in *.
  change (2 ^ 53) with 9007199254740992 in *.
  assert (He12 : e1 <= e2).
  { assert (H : (powerRZ 2 (52 + e1) < powerRZ 2 (53 + e2))%R).
    { rewrite !pow2_add. rewrite (pow2_IZR 52), (pow2_IZR 53) by lia.
      change (2 ^ 52) with 4503599627370496.
      change (2 ^ 53) with 9007199254740992.
      unfold scaled in Hv1, Hv2.
      pose proof (pow2_pos e1). pose proof (pow2_pos e2).
      apply IZR_le in Hm1lo. apply IZR_lt in Hm2hi.
      assert (IZR i < IZR t)%R by (apply IZR_lt; lia).
      nra. }
    apply pow2_lt_inv in H. lia. }
  unfold div, SFdiv, SFdiv_core_binary. rewrite Hd1, Hd2.
  fold (fexp64 (53 + e1 - (53 + e2))). rewrite fx_eq.
  replace (Z.min (Z.max (53 + e1 - (53 + e2) - 53) (-1074)) (e1 - e2))
    with (e1 - e2 - 53) by lia.
  replace (e1 - e2 - (e1 - e2 - 53)) with 53 by lia.
  rewrite Z.shiftl_mul_pow2 by lia.
  change (2 ^ 53) with 9007199254740992.
  set (a := Zpos m1 * 9007199254740992).
  assert (Hq : fst (Z.div_eucl a (Zpos m2)) = a / Zpos m2) by reflexivity.
  destruct (Z.div_eucl a (Zpos m2)) as [q r] eqn:Ed. cbn [fst] in Hq. subst q.
  cbn [xorb].
  set (q := a / Zpos m2). set (e' := e1 - e2 - 53).
  assert (Hq0 : 0 <= q) by (apply Z.div_pos; unfold a; lia).
  assert (Hq54 : q < 2 ^ 54).
  { apply Z.div_lt_upper_bound; [lia |]. unfold a.
    change (2 ^ 54) with 18014398509481984. nia. }
  assert (Hdq : Zdigits2 q <= 54) by (apply Zdigits2_le; lia).
  assert (Hdq0 : 0 <= Zdigits2 q) by (apply Zdigits2_nonneg; lia).
  assert (Hmax : Z.max e' (fexp64 (Zdigits2 q + e')) <= -52).
  { rewrite fx_eq. unfold e'. lia. }
  destruct (binary_round_aux_bound false q e' (new_location (Zpos m2) r) Hq0)
    as [-> | (m & e & -> & Hb & He)].
  { unfold emax, prec. lia. }
  - now left.
  - right. exists m, e. split; [reflexivity |].
    eapply Rle_trans; [exact Hb |].
    assert (Hpow : (powerRZ 2 (Z.max e' (fexp64 (Zdigits2 q + e')))
                    <= / 4503599627370496)%R).
    { eapply Rle_trans; [apply pow2_le; exact Hmax |].
      replace (powerRZ 2 (-52)) with (/ 4503599627370496)%R; [lra |].
      symmetry. apply (pow2_neg 52). lia. }
    assert (Hquo : (scaled q e' * IZR t <= IZR i)%R).
    { rewrite <- Hv1, <- Hv2. unfold scaled, e'.
      replace (e1 - e2 - 53) with (e1 + (- e2) + (- 53)) by lia.
      rewrite !pow2_add. rewrite (powerRZ_neg' 2 e2).
      replace (powerRZ 2 (-53)) with (/ 9007199254740992)%R
        by (symmetry; apply (pow2_neg 53); lia).
      assert (Hqa : q * Zpos m2 <= a).
      { unfold q. rewrite Z.mul_comm. apply Z.mul_div_le. lia. }
      apply IZR_le in Hqa. unfold a in Hqa. rewrite !mult_IZR in Hqa.
      pose proof (pow2_pos e1) as P1. pose proof (pow2_pos e2) as P2.
      replace (IZR q * (powerRZ 2 e1 * / powerRZ 2 e2 * / 9007199254740992)
               * (IZR (Zpos m2) * powerRZ 2 e2))%R
        with ((IZR q * IZR (Zpos m2)) * (powerRZ 2 e1 * / 9007199254740992))%R
        by (field; lra).
      replace (IZR (Zpos m1) * powerRZ 2 e1)%R
        with ((IZR (Zpos m1) * 9007199254740992)
              * (powerRZ 2 e1 * / 9007199254740992))%R by (field; lra).
      apply Rmult_le_compat_r; [| exact Hqa].
      apply Rmult_le_pos; lra. }
    assert (Hit : (IZR i <= IZR t - 1)%R).
    { rewrite <- minus_IZR. apply IZR_le. lia. }
    assert (Ht1 : (1 <= IZR t)%R) by (apply IZR_le; lia).
    assert (Ht2 : (IZR t <= 4294967296)%R).
    { apply IZR_le. change (2 ^ 32) with 4294967296 in Ht. lia. }
    assert (Hx : (scaled q e' <= 1 - / 4294967296)%R).
    { assert (Hinv : (/ 4294967296 <= / IZR t)%R).
      { apply Rinv_le_contravar; lra. }
      assert (scaled q e' <= (IZR t - 1) * / IZR t)%R.
      { apply Rmult_le_reg_r with (r := IZR t); [lra |].
        rewrite Rmult_assoc, Rinv_l by lra. lra. }
      replace ((IZR t - 1) * / IZR t)%R with (1 - / IZR t)%R in H
        by (field; lra).
      lra. }
    lra.
Qed.

(** ** Times 100 *)
Lemma mul_100_bound m e :
  (scaled (Zpos m) e <= 1 - / 4294967296 + / 4503599627370496)%R ->
  mul (S754_finite false m e) (of_Z 100) = S754_zero false
  \/ exists m' e',
       mul (S754_finite false m e) (of_Z 100) = S754_finite false m' e'
       /\ (scaled (Zpos m') e' < 100)%R.
Proof.
  intro Hx. rewrite of_Z_100. unfold mul, SFmul. cbn [xorb].
  assert (He : e < 0) by (apply (F2R_pos_exp m); lra).
  set (mx := Zpos (m * 7036874417766400)).
  set (ex := e + -46).
  assert (Hval : (scaled mx ex = 100 * scaled (Zpos m) e)%R).
  { unfold scaled, mx, ex. rewrite Pos2Z.inj_mul, mult_IZR, pow2_add.
    replace (powerRZ 2 (-46)) with (/ 70368744177664)%R
      by (symmetry; apply (pow2_neg 46); lia).
    field. }
  pose proof (Zdigits2_bounds mx ltac:(unfold mx; lia)) as [Hlo _].
  assert (Hd1 : 1 <= Zdigits2 mx) by (unfold mx; cbn; lia).
  assert (Hd : Zdigits2 mx + ex <= 7).
  { assert (H : (powerRZ 2 (Zdigits2 mx - 1 + ex) < powerRZ 2 7)%R).
    { rewrite pow2_add, (pow2_IZR (Zdigits2 mx - 1)) by lia.
      apply IZR_le in Hlo. unfold scaled in Hval at 1.
      pose proof (pow2_pos ex) as Hpos.
      rewrite (pow2_IZR 7) by lia. change (2 ^ 7) with 128.
      assert (IZR (2 ^ (Zdigits2 mx - 1)) * powerRZ 2 ex
              <= IZR mx * powerRZ 2 ex)%R
        by (apply Rmult_le_compat_r; lra).
      lra. }
    apply pow2_lt_inv in H. lia. }
  assert (Hmax : Z.max ex (fexp64 (Zdigits2 mx + ex)) <= -46).
  { rewrite fx_eq. unfold ex. lia. }
  destruct (binary_round_aux_bound false mx ex loc_Exact ltac:(unfold mx; lia))
    as [-> | (m' & e' & -> & Hb & _)].
  { unfold emax, prec. lia. }
  - now left.
  - right. exists m', e'. split; [reflexivity |].
    eapply Rle_lt_trans; [exact Hb |]. rewrite Hval.
    assert (Hpow : (powerRZ 2 (Z.max ex (fexp64 (Zdigits2 mx + ex)))
                    <= / 70368744177664)%R).
    { eapply Rle_trans; [apply pow2_le; exact Hmax |].
      replace (powerRZ 2 (-46)) with (/ 70368744177664)%R; [lra |].
      symmetry. apply (pow2_neg 46). lia. }
    lra.
Qed.

Lemma value_F2R m e : value (S754_finite false m e) = scaled (Zpos m) e.
Proof. reflexivity. Qed.

Lemma F2R_pos m e : (0 < scaled (Zpos m) e)%R.
Proof.
  unfold scaled. apply Rmult_lt_0_compat; [| apply pow2_pos].
  apply IZR_lt. lia.
Qed.

(** [(i / total) * 100] for [i < total]: a finite number in [0, 100),
    and exactly [0] for [i = 0]. *)
Lemma progress_value_range i total :
  (i < total)%nat -> Z.of_nat total < 2 ^ 32 ->
  is_finite (progress_value i total) = true
  /\ (0 <= value (progress_value i total) < 100)%R
  /\ (i = 0%nat -> progress_value i total = S754_zero false).
Proof.
  intros Hi Ht. unfold progress_value, of_nat.
  destruct i as [|i].
  - cbn [Z.of_nat]. rewrite of_Z_0.
    destruct (of_Z_exact (Z.of_nat total) ltac:(lia)) as (m & e & -> & _).
    cbn. repeat split; auto; lra.
  - destruct (div_bound (Z.of_nat (S i)) (Z.of_nat total) ltac:(lia) Ht)
      as [-> | (m & e & -> & Hb)].
    + cbn. repeat split; auto; try lra; discriminate.
    + destruct (mul_100_bound m e Hb) as [-> | (m' & e' & -> & Hb')].
      * cbn. repeat split; auto; try lra; discriminate.
      * rewrite value_F2R. pose proof (F2R_pos m' e').
        repeat split; auto; try lra; discriminate.
Qed.

End NumberFacts.

(* ================================================================== *)
(** * The formatting orchestrator *)
(* ================================================================== *)

Lemma str_eqb_sym : forall a b, str_eqb a b = str_eqb b a.
Proof.
  induction a as [|x a IH]; destruct b as [|y b]; simpl; auto.
  now rewrite N.eqb_sym, IH.
Qed.

Lemma getOutputMimeType_table documentType examConfig :
  getOutputMimeType documentType examConfig
  = spec_mime (format (spec_category documentType examConfig)).
Proof.
  unfold getOutputMimeType, spec_category, spec_mime, spec_mime_table.
  cbn [dict_get].
  set (f := format
              (if str_is documentType (py "photo")
               then fmt_photo (formats examConfig)
               else if str_is documentType (py "signature")
                    then fmt_signature (formats examConfig)
                    else fmt_documents (formats examConfig))).
  assert (E : (if str_is documentType (py "photo")
               then format (fmt_photo (formats examConfig))
               else if str_is documentType (py "signature")
                    then format (fmt_signature (formats examConfig))
                    else format (fmt_documents (formats examConfig))) = f).
  { unfold f. destruct (str_is documentType (py "photo")); auto.
    destruct (str_is documentType (py "signature")); auto. }
  rewrite E.
  rewrite (str_eqb_sym (py "JPEG") f), (str_eqb_sym (py "PNG") f),
    (str_eqb_sym (py "PDF") f).
  reflexivity.
Qed.

Section FormatterFacts.

Variable engine : Engine.
Variable examConfig : ExamConfig.
Variable total : nat.

Lemma iteration_shape cb i file :
  exists tail,
    fst (iteration engine examConfig (Some cb) total i file)
    = Progress (progress_value i total) :: tail
    /\ processing_steps i tail.
Proof.
  unfold iteration, try_block, processing_steps.
  destruct (cb i (progress_value i total));
    [eexists; split; [reflexivity | tauto] |].
  destruct (arrayBuffer engine i (pf_file file));
    [| eexists; split; [reflexivity | tauto]].
  destruct (format_document engine i b (pf_detectedType file)
              (pf_originalName file));
    eexists; (split; [reflexivity | tauto]).
Qed.

Lemma iteration_silent i file :
  reported (fst (iteration engine examConfig None total i file)) = [].
Proof.
  unfold iteration, try_block.
  destruct (arrayBuffer engine i (pf_file file)); [| reflexivity].
  destruct (format_document engine i b (pf_detectedType file)
              (pf_originalName file)); reflexivity.
Qed.

Lemma reported_app a b : reported (a ++ b) = reported a ++ reported b.
Proof.
  induction a as [|x a IH]; simpl; auto.
  destruct x; simpl; now rewrite ?IH.
Qed.

Lemma processing_steps_silent i tail :
  processing_steps i tail -> reported tail = [].
Proof. intros [-> | [-> | ->]]; reflexivity. Qed.

Lemma format_loop_fst_snd onProgress i file rest :
  format_loop engine examConfig onProgress total i (file :: rest)
  = (fst (iteration engine examConfig onProgress total i file)
     ++ fst (format_loop engine examConfig onProgress total (S i) rest),
     snd (iteration engine examConfig onProgress total i file)
     :: snd (format_loop engine examConfig onProgress total (S i) rest)).
Proof.
  cbn [format_loop].
  destruct (iteration engine examConfig onProgress total i file).
  destruct (format_loop engine examConfig onProgress total (S i) rest).
  reflexivity.
Qed.

(** The loop performs one block of actions per record, in order, each
    opening with the progress report of its index. *)
Lemma format_loop_blocks cb : forall files i,
  exists blocks,
    fst (format_loop engine examConfig (Some cb) total i files)
    = List.concat blocks
    /\ List.length blocks = List.length files
    /\ forall j, j < List.length files ->
         exists tail,
           nth_error blocks j
           = Some (Progress (progress_value (i + j) total) :: tail)
           /\ processing_steps (i + j) tail.
Proof.
  induction files as [|file rest IH]; intro i.
  - exists []. repeat split; auto. cbn. intros j Hj. lia.
  - rewrite format_loop_fst_snd. cbn [fst].
    destruct (IH (S i)) as (blocks & E & Hlen & Hnth).
    exists (fst (iteration engine examConfig (Some cb) total i file) :: blocks).
    split; [cbn [List.concat]; now rewrite E |].
    split; [cbn; now rewrite Hlen |].
    intros [|j] Hj.
    + rewrite Nat.add_0_r. cbn [nth_error].
      destruct (iteration_shape cb i file) as (tail & -> & Ht). eauto.
    + cbn in Hj. destruct (Hnth j ltac:(lia)) as (tail & Hb & Ht).
      cbn [nth_error]. replace (i + S j) with (S i + j) by lia. eauto.
Qed.

Lemma format_loop_reported cb : forall files i,
  reported (fst (format_loop engine examConfig (Some cb) total i files))
  = map (fun j => progress_value j total) (seq i (List.length files)).
Proof.
  induction files as [|file rest IH]; intro i; auto.
  rewrite format_loop_fst_snd. cbn [fst]. rewrite reported_app, IH.
  destruct (iteration_shape cb i file) as (tail & -> & Ht).
  cbn [reported]. now rewrite (processing_steps_silent i tail Ht).
Qed.

Lemma format_loop_silent : forall files i,
  reported (fst (format_loop engine examConfig None total i files)) = [].
Proof.
  induction files as [|file rest IH]; intro i; auto.
  rewrite format_loop_fst_snd. cbn [fst].
  now rewrite reported_app, IH, iteration_silent.
Qed.

Lemma format_loop_records onProgress : forall files i,
  List.length (snd (format_loop engine examConfig onProgress total i files))
  = List.length files
  /\ forall j file,
       nth_error files j = Some file ->
       nth_error (snd (format_loop engine examConfig onProgress total i files)) j
       = Some (snd (iteration engine examConfig onProgress total (i + j) file)).
Proof.
  induction files as [|file rest IH]; intro i.
  - split; auto. intros [|j] f; discriminate.
  - rewrite format_loop_fst_snd. cbn [snd].
    destruct (IH (S i)) as [Hlen Hnth]. split; [cbn; now rewrite Hlen |].
    intros [|j] f Hj; cbn in Hj |- *.
    + inversion Hj; subst. now rewrite Nat.add_0_r.
    + rewrite (Hnth j f Hj). now replace (i + S j) with (S i + j) by lia.
Qed.

End FormatterFacts.

(** With the engine ready, a run is the loop followed by the closing
    report. *)
Lemma formatDocuments_ready (engine : Engine) (ready : bool) files examConfig cb :
  (if ready then None else load engine) = None ->
  set_config engine examConfig = None ->
  formatDocuments engine ready files examConfig (Some cb)
  = {| actions :=
         fst (format_loop engine examConfig (Some cb) (List.length files) 0
                files) ++ [Progress (of_Z 100)];
       settled :=
         match cb (List.length files) (of_Z 100) with
         | Some e => inr e
         | None =>
             inl (snd (format_loop engine examConfig (Some cb)
                         (List.length files) 0 files))
         end |}.
Proof.
  intros Hl Hc. unfold formatDocuments. rewrite Hl, Hc.
  destruct (format_loop engine examConfig (Some cb) (List.length files) 0 files).
  cbn [fst snd]. destruct (cb (List.length files) (of_Z 100)); reflexivity.
Qed.

Lemma value_100 : value (of_Z 100) = 100%R.
Proof.
  rewrite of_Z_100. unfold value.
  replace (powerRZ 2 (-46)) with (/ 70368744177664)%R
    by (symmetry; apply (pow2_neg 46); lia).
  field.
Qed.

(** C4, as the code has it.  For a non-empty batch (at most an array's
    length), with the engine ready and a callback supplied, the run is one
    block of actions per record followed by the closing report; the block
    of record [i] opens with [onProgress((i / total) * 100)], the product
    taken in double precision and not floored, and only then reads and
    converts the record.  Each such value is finite and lies in [0, 100);
    the first one is 0. *)
Theorem progress_reported_unrounded_before_each_record :
  forall (engine : Engine) (ready : bool) files examConfig cb,
    (if ready then None else load engine) = None ->
    set_config engine examConfig = None ->
    files <> [] ->
    (Z.of_nat (List.length files) < max_length)%Z ->
    exists blocks,
      actions (formatDocuments engine ready files examConfig (Some cb))
      = List.concat blocks ++ [Progress (of_Z 100)]
      /\ List.length blocks = List.length files
      /\ (forall i, i < List.length files ->
            exists tail,
              nth_error blocks i
              = Some (Progress (progress_value i (List.length files)) :: tail)
              /\ processing_steps i tail
              /\ is_finite (progress_value i (List.length files)) = true
              /\ (0 <= value (progress_value i (List.length files)) < 100)%R)
      /\ progress_value 0 (List.length files) = S754_zero false.
Proof.
  intros engine ready files examConfig cb Hl Hc Hne Hlen.
  rewrite (formatDocuments_ready engine ready files examConfig cb Hl Hc).
  cbn [actions].
  destruct (format_loop_blocks engine examConfig (List.length files) cb files 0)
    as (blocks & E & Hb & Hnth).
  exists blocks. rewrite E. split; [reflexivity |]. split; [exact Hb |].
  assert (Hpos : 0 < List.length files).
  { destruct files; [congruence | cbn; lia]. }
  split.
  - intros i Hi. destruct (Hnth i Hi) as (tail & Ht & Hs).
    exists tail. cbn [Nat.add] in Ht, Hs.
    destruct (progress_value_range i (List.length files) Hi Hlen)
      as (Hf & Hv & _).
    auto.
  - now apply (progress_value_range 0 (List.length files) Hpos Hlen).
Qed.

(** C4, refuted as stated: for three records the value reported before
    the second one is 33.33333333333333, which is neither
    [floor(1 / 3 * 100) = 33] nor an integer. *)
Lemma progress_value_is_not_floored :
  nth_error
    (reported
       (actions (formatDocuments (engine_failing_at 9 (OtherValue 0) [7; 7]%N) true
                   three_files config (Some listener)))) 1
  = Some (progress_value 1 3)
  /\ progress_value 1 3 = S754_finite false 4691249611844266 (-47)
  /\ spec_progress 1 3 = of_Z 33
  /\ progress_value 1 3 <> spec_progress 1 3
  /\ is_integer (progress_value 1 3) = false.
Proof.
  split; [vm_compute; reflexivity |].
  split; [vm_compute; reflexivity |].
  split; [vm_compute; reflexivity |].
  split; [vm_compute; discriminate | vm_compute; reflexivity].
Qed.

Lemma progress_reported_unrounded_before_each_record_witness :
  three_files <> []
  /\ (Z.of_nat (List.length three_files) < max_length)%Z
  /\ exists blocks tail,
       actions (formatDocuments (engine_failing_at 1 (OtherValue 0) [7; 7]%N) true
                  three_files config (Some listener))
       = List.concat blocks ++ [Progress (of_Z 100)]
       /\ nth_error blocks 1 = Some (Progress (progress_value 1 3) :: tail)
       /\ (0 <= value (progress_value 1 3) < 100)%R.
Proof.
  assert (Hne : three_files <> []) by discriminate.
  assert (Hlen : (Z.of_nat (List.length three_files) < max_length)%Z)
    by reflexivity.
  split; [exact Hne | split; [exact Hlen |]].
  destruct (progress_reported_unrounded_before_each_record
              (engine_failing_at 1 (OtherValue 0) [7; 7]%N) true three_files config
              listener eq_refl eq_refl Hne Hlen)
    as (blocks & E & _ & Hnth & _).
  destruct (Hnth 1 ltac:(cbn; lia)) as (tail & Hb & _ & _ & Hv).
  exists blocks, tail. auto.
Defined.

(** C8.  For a non-empty batch (at most an array's length), with the
    engine ready and a callback supplied, the last action of the run is
    [onProgress(100)], and it is the only call with argument 100: every
    value reported in the loop is below 100.  Nothing is assumed about
    which reads or conversions fail. *)
Theorem final_progress_100_exactly_once :
  forall (engine : Engine) (ready : bool) files examConfig cb,
    (if ready then None else load engine) = None ->
    set_config engine examConfig = None ->
    files <> [] ->
    (Z.of_nat (List.length files) < max_length)%Z ->
    (exists acts,
        actions (formatDocuments engine ready files examConfig (Some cb))
        = acts ++ [Progress (of_Z 100)])
    /\ (exists front,
          reported
            (actions (formatDocuments engine ready files examConfig (Some cb)))
          = front ++ [of_Z 100]
          /\ Forall (fun v => (value v < 100)%R) front)
    /\ count_occ JsNumber.eq_dec
         (reported
            (actions (formatDocuments engine ready files examConfig (Some cb))))
         (of_Z 100) = 1.
Proof.
  intros engine ready files examConfig cb Hl Hc Hne Hlen.
  rewrite (formatDocuments_ready engine ready files examConfig cb Hl Hc).
  cbn [actions]. split; [eauto |].
  rewrite reported_app, format_loop_reported. cbn [reported].
  set (front := map (fun j => progress_value j (List.length files))
                  (seq 0 (List.length files))).
  assert (Hfront : Forall (fun v => (value v < 100)%R) front).
  { apply Forall_forall. intros v Hin. unfold front in Hin.
    apply in_map_iff in Hin as (j & <- & Hj). apply in_seq in Hj.
    apply (progress_value_range j (List.length files)); [lia | exact Hlen]. }
  split; [exists front; auto |].
  rewrite count_occ_app. cbn [count_occ].
  destruct (JsNumber.eq_dec (of_Z 100) (of_Z 100)) as [_ | Hn]; [| congruence].
  assert (H0 : count_occ JsNumber.eq_dec front (of_Z 100) = 0).
  { apply count_occ_not_In. intro Hin.
    pose proof (proj1 (Forall_forall _ _) Hfront _ Hin) as Hv.
    cbn beta in Hv. rewrite value_100 in Hv. lra. }
  rewrite H0. reflexivity.
Qed.

Lemma final_progress_100_exactly_once_witness :
  three_files <> []
  /\ (Z.of_nat (List.length three_files) < max_length)%Z
  /\ count_occ JsNumber.eq_dec
       (reported
          (actions (formatDocuments (engine_failing_at 1 (OtherValue 0) [7; 7]%N) true
                      three_files config (Some listener))))
       (of_Z 100) = 1.
Proof.
  assert (Hne : three_files <> []) by discriminate.
  assert (Hlen : (Z.of_nat (List.length three_files) < max_length)%Z)
    by reflexivity.
  split; [exact Hne | split; [exact Hlen |]].
  exact (proj2 (proj2 (final_progress_100_exactly_once
                         (engine_failing_at 1 (OtherValue 0) [7; 7]%N) true three_files
                         config listener eq_refl eq_refl Hne Hlen))).
Defined.

Lemma formatDocuments_settled (engine : Engine) (ready : bool) files examConfig
  (onProgress : option Callback) :
  (if ready then None else load engine) = None ->
  set_config engine examConfig = None ->
  (forall (cb : Callback) n v, onProgress = Some cb -> cb n v = None) ->
  settled (formatDocuments engine ready files examConfig onProgress)
  = inl (snd (format_loop engine examConfig onProgress (List.length files) 0
                files)).
Proof.
  intros Hl Hc Hcb. destruct onProgress as [cb|].
  - rewrite (formatDocuments_ready engine ready files examConfig cb Hl Hc).
    cbn [settled]. now rewrite (Hcb cb _ _ eq_refl).
  - unfold formatDocuments. rewrite Hl, Hc.
    destruct (format_loop engine examConfig None (List.length files) 0 files).
    reflexivity.
Qed.

Lemma iteration_record engine examConfig (onProgress : option Callback) total
  i file r :
  (forall (cb : Callback) n v, onProgress = Some cb -> cb n v = None) ->
  conversion_of engine i file = Some r ->
  snd (iteration engine examConfig onProgress total i file)
  = match r with
    | inl data =>
        completed_record file
          {| blob_data := data;
             blob_type := getOutputMimeType (pf_detectedType file) examConfig |}
    | inr e => error_record file e
    end.
Proof.
  intros Hcb Hr. unfold conversion_of in Hr. unfold iteration, try_block.
  assert (Hq : match onProgress with
               | Some cb => ([Progress (progress_value i total)],
                             cb i (progress_value i total))
               | None => ([], None)
               end
               = (match onProgress with
                  | Some _ => [Progress (progress_value i total)]
                  | None => []
                  end, None)).
  { destruct onProgress as [cb|]; auto. now rewrite (Hcb cb _ _ eq_refl). }
  rewrite Hq.
  destruct (arrayBuffer engine i (pf_file file)) as [buf|]; try discriminate.
  inversion Hr; subst r.
  destruct (format_document engine i buf (pf_detectedType file)
              (pf_originalName file)); reflexivity.
Qed.

(** C2, as the code has it.  When the engine is ready, nothing but the
    conversion of the record at index [k] fails, the promise resolves with
    an array as long as the input and in its order.  Every other record
    has status [completed], progress 100 and a payload made of the bytes
    the engine returned, typed by the mime table from the format
    configured for its category.  The record at [k] has status [error] and
    carries the message of the thrown [Error], or [Unknown error] when the
    thrown value is no [Error]; the message is empty only for an [Error]
    with an empty message. *)
Theorem one_failed_conversion_is_isolated :
  forall engine ready files examConfig (onProgress : option Callback) k,
    fails_only_at engine ready files examConfig onProgress k ->
    exists out,
      settled (formatDocuments engine ready files examConfig onProgress)
      = inl out
      /\ List.length out = List.length files
      /\ forall i file,
           nth_error files i = Some file ->
           exists rec,
             nth_error out i = Some rec
             /\ pf_id rec = pf_id file
             /\ (i <> k ->
                 exists data,
                   conversion_of engine i file = Some (inl data)
                   /\ pf_status rec = completed
                   /\ pf_progress rec = of_Z 100
                   /\ pf_formattedFile rec
                      = Some {| blob_data := data;
                                blob_type :=
                                  spec_mime
                                    (format
                                       (spec_category (pf_detectedType file)
                                          examConfig)) |})
             /\ (i = k ->
                 exists e,
                   conversion_of engine i file = Some (inr e)
                   /\ pf_status rec = error
                   /\ pf_error rec = Some (error_message e)
                   /\ (error_message e = [] <-> e = ErrorObject [])).
Proof.
  intros engine ready files examConfig onProgress k
    (Hl & Hc & Hcb & Hk & Hconv).
  rewrite (formatDocuments_settled engine ready files examConfig onProgress
             Hl Hc Hcb).
  destruct (format_loop_records engine examConfig (List.length files)
              onProgress files 0) as [Hlen Hnth].
  eexists. split; [reflexivity |]. split; [exact Hlen |].
  intros i file Hi. rewrite (Hnth i file Hi). cbn [Nat.add].
  specialize (Hconv i file Hi).
  eexists. split; [reflexivity |].
  destruct (Nat.eqb_spec i k) as [-> | Hne].
  - destruct Hconv as (e & He).
    rewrite (iteration_record engine examConfig onProgress _ k file _ Hcb He).
    split; [reflexivity |]. split; [congruence |].
    intros _. exists e. repeat split; auto.
    + destruct e; cbn; [congruence | discriminate].
    + intros ->. reflexivity.
  - destruct Hconv as (data & Hd).
    rewrite (iteration_record engine examConfig onProgress _ i file _ Hcb Hd).
    split; [reflexivity |]. split; [| congruence].
    intros _. exists data. repeat split; auto.
    cbn. now rewrite getOutputMimeType_table.
Qed.

Lemma sample_engine_fails_only_at_1 e content :
  fails_only_at (engine_failing_at 1 e content) true three_files config
    (Some listener) 1.
Proof.
  unfold fails_only_at. split; [reflexivity |]. split; [reflexivity |].
  split.
  { intros cb n v H. inversion H. reflexivity. }
  split; [cbn; lia |].
  intros [|[|[|i]]] file Hi; cbn in Hi; try discriminate;
    inversion Hi; cbn; eauto.
Qed.

(** C2, refuted as stated: for the second of three records the engine
    throws an [Error] whose message is empty, and for the others it
    returns no bytes; the batch resolves, the failing record has status
    [error] with an empty message and the completed ones an empty
    payload. *)
Lemma failed_record_message_can_be_empty :
  fails_only_at (engine_failing_at 1 (ErrorObject []) []) true three_files
    config (Some listener) 1
  /\ exists r0 r1 r2,
       settled (formatDocuments (engine_failing_at 1 (ErrorObject []) []) true
                  three_files config (Some listener))
       = inl [r0; r1; r2]
       /\ pf_status r0 = completed /\ pf_status r2 = completed
       /\ pf_formattedFile r0
          = Some {| blob_data := []; blob_type := py "image/jpeg" |}
       /\ pf_status r1 = error
       /\ pf_error r1 = Some [].
Proof.
  split; [apply sample_engine_fails_only_at_1 |].
  do 3 eexists. split; [vm_compute; reflexivity |].
  repeat split; vm_compute; reflexivity.
Qed.

Lemma one_failed_conversion_is_isolated_witness :
  fails_only_at
    (engine_failing_at 1 (ErrorObject (py "corrupt image")) [7; 7]%N) true
    three_files config (Some listener) 1
  /\ exists out rec,
       settled (formatDocuments
                  (engine_failing_at 1 (ErrorObject (py "corrupt image"))
                     [7; 7]%N) true
                  three_files config (Some listener))
       = inl out
       /\ List.length out = 3
       /\ nth_error out 1 = Some rec
       /\ pf_status rec = error
       /\ pf_error rec = Some (py "corrupt image").
Proof.
  assert (H : fails_only_at
                (engine_failing_at 1 (ErrorObject (py "corrupt image"))
                   [7; 7]%N) true
                three_files config (Some listener) 1).
  { apply sample_engine_fails_only_at_1. }
  split; [exact H |].
  destruct (one_failed_conversion_is_isolated _ _ _ _ _ _ H)
    as (out & Hs & Hlen & Hrec).
  destruct (Hrec 1 _ eq_refl) as (rec & Hn & _ & _ & Hk).
  destruct (Hk eq_refl) as (e & He & Hst & Herr & _).
  exists out, rec. repeat split; auto.
  rewrite Herr. cbn in He. inversion He; subst e. reflexivity.
Defined.

(* ================================================================== *)
(** * More on the classifier *)
(* ================================================================== *)

Section ClassifierOrder.

Variable lower : str -> str.
Variable ci : char -> char -> bool.

Lemma found_alt_l r1 r2 s : found ci r1 s -> found ci (Alt r1 r2) s.
Proof.
  intros (pre & mid & post & E & H). exists pre, mid, post.
  split; [exact E | now apply L_alt_l].
Qed.

Lemma found_alt_r r1 r2 s : found ci r2 s -> found ci (Alt r1 r2) s.
Proof.
  intros (pre & mid & post & E & H). exists pre, mid, post.
  split; [exact E | now apply L_alt_r].
Qed.

Lemma first_rule_decides ty pats rest filename :
  document_patterns = (ty, pats) :: rest ->
  rule_fires ci (ty, pats) (lower filename) ->
  analyze_document_type lower ci filename = ty.
Proof.
  intros E Hf. rewrite analyze_unfold.
  rewrite (scan_rules_first ci document_patterns (lower filename) 0 (ty, pats));
    auto.
  - now rewrite E.
  - intros j rule' Hj. lia.
Qed.

(** X1.  The aadhaar rule is the first of the table: a name whose
    lower-casing contains [aadhaar], its Devanagari spelling,
    [government of india] or [unique identification authority] is
    classified [aadhaar], whatever else the name contains. *)
Theorem aadhaar_words_decide_first :
  forall filename w,
    In w [ py "aadhaar"; [2310; 2343; 2366; 2352]%N;
           py "government of india";
           py "unique identification authority" ] ->
    contains w (lower filename) = true ->
    analyze_document_type lower ci filename = t_aadhaar.
Proof.
  intros filename w Hin Hc.
  apply (contains_found_lit ci) in Hc.
  eapply first_rule_decides; [reflexivity |].
  unfold rule_fires. cbn [snd].
  destruct Hin as [<- | [<- | [<- | [<- | []]]]].
  - eexists. split; [left; reflexivity |]. now apply found_alt_l.
  - eexists. split; [left; reflexivity |]. now apply found_alt_r.
  - eexists. split; [right; right; left; reflexivity | exact Hc].
  - eexists. split; [right; right; right; left; reflexivity | exact Hc].
Qed.

Lemma lang_rep_chr p : forall n, lang ci (rep n (Chr p)) (repeat p n).
Proof.
  induction n as [|n IH]; cbn [rep repeat]; [constructor |].
  change (p :: repeat p n) with ([p] ++ repeat p n).
  constructor; [| exact IH]. constructor.
  unfold chr_match. now rewrite N.eqb_refl.
Qed.

Lemma lang_star_chr p : forall n, lang ci (Star (Chr p)) (repeat p n).
Proof.
  induction n as [|n IH]; cbn [repeat]; [constructor |].
  change (p :: repeat p n) with ([p] ++ repeat p n).
  constructor; [| exact IH]. constructor.
  unfold chr_match. now rewrite N.eqb_refl.
Qed.

(** The text the number pattern of the aadhaar rule accepts: four [d],
    any number of [s], four [d], any number of [s], four [d]. *)
Lemma number_pattern_text a b :
  lang ci
    (Cat (rep 4 (Chr 100%N))
       (Cat (Star (Chr 115%N))
          (Cat (rep 4 (Chr 100%N))
             (Cat (Star (Chr 115%N)) (rep 4 (Chr 100%N))))))
    (repeat 100%N 4 ++ repeat 115%N a ++ repeat 100%N 4 ++ repeat 115%N b
     ++ repeat 100%N 4).
Proof.
  repeat (apply L_cat;
          [first [apply lang_rep_chr | apply lang_star_chr] |]).
  apply lang_rep_chr.
Qed.

(** X2.  In the worker's template literal the escapes of the second
    aadhaar pattern are lost, so it matches the letters [d] and [s], not
    digits and blanks: it is not found in a name without a character
    matching [d], and a name containing four [d], any [s], four [d], any
    [s], four [d] is classified [aadhaar]. *)
Theorem aadhaar_number_pattern_matches_letters :
  forall pats p,
    nth_error document_patterns 0 = Some (t_aadhaar, pats) ->
    nth_error pats 1 = Some p ->
    (forall s, (forall c, In c s -> chr_match ci 100%N c = false) ->
               ~ found ci p s)
    /\ (forall filename a b,
          contains (repeat 100%N 4 ++ repeat 115%N a ++ repeat 100%N 4
                    ++ repeat 115%N b ++ repeat 100%N 4)
            (lower filename) = true ->
          found ci p (lower filename)
          /\ analyze_document_type lower ci filename = t_aadhaar).
Proof.
  intros pats p Hr Hp. cbn in Hr. inversion Hr; subst pats. clear Hr.
  cbn in Hp. inversion Hp; subst p. clear Hp. split.
  - intros s Hs (pre & mid & post & E & H).
    apply lang_cat_inv in H as (u & v & -> & Hu & _).
    cbn [rep] in Hu. apply lang_cat_inv in Hu as (c1 & u' & -> & Hc & _).
    inversion Hc as [| q c Hm | | | | | |]; subst.
    rewrite (Hs c) in Hm; [discriminate |].
    apply in_or_app. right. apply in_or_app. left. cbn. auto.
  - intros filename a b Hc.
    assert (Hf : found ci
                   (Cat (rep 4 (Chr 100%N))
                      (Cat (Star (Chr 115%N))
                         (Cat (rep 4 (Chr 100%N))
                            (Cat (Star (Chr 115%N)) (rep 4 (Chr 100%N))))))
                   (lower filename)).
    { apply contains_slice in Hc as (pre & post & E).
      exists pre, (repeat 100%N 4 ++ repeat 115%N a ++ repeat 100%N 4
                   ++ repeat 115%N b ++ repeat 100%N 4), post.
      split; [exact E | apply number_pattern_text]. }
    split; [exact Hf |].
    eapply first_rule_decides; [reflexivity |].
    eexists. split; [right; left; reflexivity | exact Hf].
Qed.

Lemma any_word_false words s :
  any_word words s = false <-> forall w, In w words -> contains w s = false.
Proof.
  unfold any_word. induction words as [|w ws IH]; cbn [existsb].
  - split; [intros _ w [] | reflexivity].
  - rewrite orb_false_iff, IH. split.
    + intros [H1 H2] w' [<- | Hin]; auto.
    + intro H. split; [apply H; now left | intros w' Hin; apply H; now right].
Qed.

Lemma silent_table_word s w rule p :
  In rule document_patterns -> In p (snd rule) ->
  (found ci (lit w) s -> found ci p s) ->
  (forall rule, In rule document_patterns -> ~ rule_fires ci rule s) ->
  contains w s = false.
Proof.
  intros Hr Hp Himp Hnone.
  destruct (contains w s) eqn:E; [| reflexivity].
  exfalso. apply (Hnone rule Hr). exists p. split; [exact Hp |].
  apply Himp. now apply contains_found_lit.
Qed.

(** When no rule fires, five of the fallback keywords cannot occur. *)
Lemma caught_keywords_absent s :
  (forall rule, In rule document_patterns -> ~ rule_fires ci rule s) ->
  contains (py "photo") s = false
  /\ contains (py "sign") s = false
  /\ contains (py "signature") s = false
  /\ contains (py "certificate") s = false
  /\ contains (py "aadhaar") s = false.
Proof.
  intro Hnone.
  split; [| split; [| split; [| split]]].
  - eapply (silent_table_word s (py "photo")
              (t_photo, _) (Alt (lit (py "photograph")) (lit (py "photo"))));
      [cbn [document_patterns In]; right; left; reflexivity
      | cbn [snd In]; left; reflexivity
      | apply found_alt_r | exact Hnone].
  - eapply (silent_table_word s (py "sign")
              (t_signature, _) (Alt (lit (py "signature")) (lit (py "sign"))));
      [cbn [document_patterns In]; right; right; left; reflexivity
      | cbn [snd In]; left; reflexivity
      | apply found_alt_r | exact Hnone].
  - eapply (silent_table_word s (py "signature")
              (t_signature, _) (Alt (lit (py "signature")) (lit (py "sign"))));
      [cbn [document_patterns In]; right; right; left; reflexivity
      | cbn [snd In]; left; reflexivity
      | apply found_alt_l | exact Hnone].
  - eapply (silent_table_word s (py "certificate")
              (t_certificate, _) (lit (py "certificate")));
      [cbn [document_patterns In]; do 4 right; left; reflexivity
      | cbn [snd In]; left; reflexivity
      | auto | exact Hnone].
  - eapply (silent_table_word s (py "aadhaar")
              (t_aadhaar, _)
              (Alt (lit (py "aadhaar")) (lit [2310; 2343; 2366; 2352]%N)));
      [cbn [document_patterns In]; left; reflexivity
      | cbn [snd In]; left; reflexivity
      | apply found_alt_l | exact Hnone].
Qed.

(** X3.  Five keywords of the fallback chain are dead: [photo], [sign],
    [signature], [certificate] and [aadhaar] are found by a pattern of the
    table whenever they occur.  So when no rule fires the result is that
    of the chain without them, and [signature] is returned only when the
    signature rule itself fires. *)
Theorem fallback_signature_branch_unreachable :
  forall filename,
    ((forall rule, In rule document_patterns ->
                   ~ rule_fires ci rule (lower filename)) ->
     analyze_document_type lower ci filename
     = uncaught_keyword_fallback (lower filename))
    /\ (analyze_document_type lower ci filename = t_signature ->
        exists pats,
          nth_error document_patterns 2 = Some (t_signature, pats)
          /\ rule_fires ci (t_signature, pats) (lower filename)).
Proof.
  intro filename.
  assert (Hfall :
            (forall rule, In rule document_patterns ->
                          ~ rule_fires ci rule (lower filename)) ->
            analyze_document_type lower ci filename
            = uncaught_keyword_fallback (lower filename)).
  { intro Hnone.
    destruct (caught_keywords_absent _ Hnone) as (H1 & H2 & H3 & H4 & H5).
    unfold analyze_document_type. cbv zeta.
    rewrite (scan_rules_none ci _ _ Hnone).
    unfold uncaught_keyword_fallback, any_word. cbn [existsb].
    rewrite H1, H2, H3, H4, H5. cbn [orb].
    rewrite !orb_false_r. reflexivity. }
  split; [exact Hfall |].
  intro Hsig0. pose proof Hsig0 as Hsig. rewrite analyze_unfold in Hsig.
  destruct (scan_rules ci document_patterns (lower filename)) as [ty|] eqn:E.
  - subst ty. apply scan_rules_some in E as (i & pats & Hn & Hp & _).
    assert (i = 2).
    { do 2 (destruct i as [|i]; [inversion Hn; discriminate |]).
      destruct i as [|i]; auto.
      do 4 (destruct i as [|i]; [inversion Hn; discriminate |]).
      destruct i; discriminate. }
    subst i. exists pats. split; [exact Hn |].
    now apply scan_patterns_fires.
  - exfalso. clear Hsig.
    assert (Hnone : forall rule, In rule document_patterns ->
                                 ~ rule_fires ci rule (lower filename)).
    { intros rule Hin Hf. apply scan_patterns_fires in Hf.
      rewrite (scan_rules_none_inv ci _ _ E rule Hin) in Hf. discriminate. }
    rewrite (Hfall Hnone) in Hsig0. revert Hsig0.
    unfold uncaught_keyword_fallback.
    repeat match goal with
           | |- context [if any_word ?l ?s then _ else _] =>
               destruct (any_word l s)
           end; discriminate.
Qed.

End ClassifierOrder.

Lemma aadhaar_words_decide_first_witness :
  contains (py "aadhaar") (ascii_lower (py "Photo_of_AADHAAR_card.png")) = true
  /\ analyze_document_type ascii_lower ascii_ci (py "Photo_of_AADHAAR_card.png")
     = t_aadhaar.
Proof.
  assert (H : contains (py "aadhaar")
                (ascii_lower (py "Photo_of_AADHAAR_card.png")) = true)
    by (vm_compute; reflexivity).
  split; [exact H |].
  apply (aadhaar_words_decide_first ascii_lower ascii_ci
           (py "Photo_of_AADHAAR_card.png") (py "aadhaar")); [| exact H].
  left. reflexivity.
Defined.

Lemma aadhaar_number_pattern_matches_letters_witness :
  exists p,
    nth_error
      (snd (nth 0 document_patterns (t_document, []))) 1 = Some p
    /\ ~ found ascii_ci p (ascii_lower (py "1234 5678 9012.jpg"))
    /\ analyze_document_type ascii_lower ascii_ci (py "DDDDssddddDDDD.jpg")
       = t_aadhaar.
Proof.
  eexists. split; [reflexivity |].
  destruct (aadhaar_number_pattern_matches_letters ascii_lower ascii_ci
              _ _ eq_refl eq_refl) as [Hno Hyes].
  split.
  - apply Hno. intros c Hin. vm_compute in Hin.
    repeat (destruct Hin as [<- | Hin]; [vm_compute; reflexivity |]).
    destruct Hin.
  - apply (Hyes (py "DDDDssddddDDDD.jpg") 2 0). vm_compute. reflexivity.
Defined.

Lemma fallback_signature_branch_unreachable_witness :
  (forall rule, In rule document_patterns ->
                ~ rule_fires ascii_ci rule (ascii_lower (py "UID_scan.bmp")))
  /\ analyze_document_type ascii_lower ascii_ci (py "UID_scan.bmp")
     = uncaught_keyword_fallback (ascii_lower (py "UID_scan.bmp")).
Proof.
  assert (Hnone : forall rule, In rule document_patterns ->
                    ~ rule_fires ascii_ci rule
                        (ascii_lower (py "UID_scan.bmp"))).
  { intros rule Hin Hf. apply scan_patterns_fires in Hf.
    cbn [document_patterns In] in Hin.
    repeat (destruct Hin as [<- | Hin];
            [vm_compute in Hf; discriminate |]).
    destruct Hin. }
  split; [exact Hnone |].
  exact (proj1 (fallback_signature_branch_unreachable ascii_lower ascii_ci
                  (py "UID_scan.bmp")) Hnone).
Defined.

(* ================================================================== *)
(** * More on file names *)
(* ================================================================== *)

Lemma uint_to_str_inj : forall u v, uint_to_str u = uint_to_str v -> u = v.
Proof.
  induction u as [|u IH|u IH|u IH|u IH|u IH|u IH|u IH|u IH|u IH|u IH];
    destruct v; cbn [uint_to_str]; intro H;
    try discriminate; try reflexivity;
    inversion H; f_equal; now apply IH.
Qed.

Lemma uint_to_str_digits : forall u, forallb is_digit (uint_to_str u) = true.
Proof.
  induction u; cbn [uint_to_str forallb]; auto.
Qed.

Lemma position_number_shape (n : nat) :
  exists p, int_to_str (Z.of_nat n + 1) = uint_to_str (Pos.to_uint p)
            /\ Zpos p = (Z.of_nat n + 1)%Z.
Proof.
  destruct (Z.of_nat n + 1)%Z as [|p|p] eqn:E; try lia.
  exists p. split; reflexivity.
Qed.

Lemma position_number_digits (n : nat) :
  forallb is_digit (int_to_str (Z.of_nat n + 1)) = true
  /\ int_to_str (Z.of_nat n + 1) <> [].
Proof.
  destruct (position_number_shape n) as (p & -> & _).
  split; [apply uint_to_str_digits |].
  intro H. apply (Unsigned.to_uint_nonnil p).
  apply uint_to_str_inj. exact H.
Qed.

Lemma position_number_inj (i j : nat) :
  int_to_str (Z.of_nat i + 1) = int_to_str (Z.of_nat j + 1) -> i = j.
Proof.
  destruct (position_number_shape i) as (p & -> & Hp).
  destruct (position_number_shape j) as (q & -> & Hq).
  intro H. apply uint_to_str_inj, Unsigned.to_uint_inj in H. subst q. lia.
Qed.

(** Text is cut in one way at the last occurrence of a separator. *)
Lemma last_separator_unique (sep : char) : forall a b x y : str,
  ~ In sep x -> ~ In sep y ->
  a ++ sep :: x = b ++ sep :: y -> a = b /\ x = y.
Proof.
  induction a as [|c a IH]; intros [|d b] x y Hx Hy E; cbn in E.
  - inversion E. auto.
  - inversion E; subst. exfalso. apply Hx. apply in_or_app. right. now left.
  - inversion E; subst. exfalso. apply Hy. apply in_or_app. right. now left.
  - inversion E; subst. destruct (IH b x y Hx Hy) as [-> ->]; auto.
Qed.

Lemma digits_without (sep : char) (s : str) :
  is_digit sep = false -> forallb is_digit s = true -> ~ In sep s.
Proof.
  intros Hs Hd Hin.
  rewrite forallb_forall in Hd. rewrite (Hd sep Hin) in Hs. discriminate.
Qed.

Lemma type_noun_has_no_digit detected_type :
  forallb (fun c => negb (is_digit c)) (spec_type_noun detected_type) = true.
Proof.
  unfold spec_type_noun, spec_type_nouns. cbn [dict_get].
  repeat match goal with
         | |- context [if str_eqb ?a ?b then _ else _] =>
             destruct (str_eqb a b)
         end; reflexivity.
Qed.

Lemma spec_suffix_cases (i : nat) :
  (i = 0 /\ spec_suffix (Z.of_nat i) = [])
  \/ (0 < i /\ spec_suffix (Z.of_nat i)
               = 95%N :: int_to_str (Z.of_nat i + 1)).
Proof.
  unfold spec_suffix. destruct i as [|i]; [left; auto | right].
  split; [lia |].
  destruct (Z.gtb_spec (Z.of_nat (S i)) 0); [reflexivity | lia].
Qed.

Lemma noun_alone_is_no_numbered_noun t1 t2 (j : nat) :
  spec_type_noun t1
  <> spec_type_noun t2 ++ 95%N :: int_to_str (Z.of_nat j + 1).
Proof.
  intro E.
  destruct (position_number_digits j) as [Hd Hne].
  destruct (int_to_str (Z.of_nat j + 1)) as [|c ds]; [congruence |].
  cbn [forallb] in Hd. apply andb_prop in Hd as [Hc _].
  pose proof (type_noun_has_no_digit t1) as Hn. rewrite E in Hn.
  rewrite forallb_forall in Hn.
  assert (Hin : In c (spec_type_noun t2 ++ 95%N :: c :: ds)).
  { apply in_or_app. right. right. now left. }
  apply Hn in Hin. rewrite Hc in Hin. discriminate.
Qed.

Lemma stems_differ t1 t2 exam_code (i j : nat) :
  i <> j ->
  generate_new_filename t1 exam_code (Z.of_nat i)
  <> generate_new_filename t2 exam_code (Z.of_nat j).
Proof.
  intros Hij E. rewrite !generate_new_filename_stem in E.
  apply app_inv_head in E. cbn [py app] in E.
  change (map N_of_ascii (list_ascii_of_string "_")) with [95%N] in E.
  cbn [app] in E. inversion E as [E']. clear E.
  destruct (spec_suffix_cases i) as [[Hi0 Hi] | [Hi0 Hi]];
    destruct (spec_suffix_cases j) as [[Hj0 Hj] | [Hj0 Hj]];
    rewrite Hi, Hj in E'.
  - congruence.
  - rewrite app_nil_r in E'. now apply noun_alone_is_no_numbered_noun in E'.
  - rewrite app_nil_r in E'. symmetry in E'.
    now apply noun_alone_is_no_numbered_noun in E'.
  - apply last_separator_unique in E' as [_ E'].
    + now apply position_number_inj in E'.
    + apply digits_without; [reflexivity |].
      apply (position_number_digits i).
    + apply digits_without; [reflexivity |].
      apply (position_number_digits j).
Qed.

(** X4.  For one exam code, two generated stems are equal exactly when
    they are for the same position of the batch and for types with the
    same noun: stems for different positions never collide, whatever the
    two document types are. *)
Theorem stems_agree_only_for_same_position_and_noun :
  forall detected_type1 detected_type2 exam_code (i j : nat),
    generate_new_filename detected_type1 exam_code (Z.of_nat i)
    = generate_new_filename detected_type2 exam_code (Z.of_nat j)
    <-> i = j /\ spec_type_noun detected_type1 = spec_type_noun detected_type2.
Proof.
  intros t1 t2 exam_code i j. split.
  - intro E. destruct (Nat.eq_dec i j) as [-> | Hne].
    + split; [reflexivity |].
      rewrite !generate_new_filename_stem in E.
      apply app_inv_head in E. rewrite !app_assoc in E.
      apply app_inv_tail in E. now apply app_inv_head in E.
    + now apply stems_differ in E.
  - intros [-> E]. rewrite !generate_new_filename_stem. now rewrite E.
Qed.

Lemma split_segments (sep : char) : forall s,
  Forall (fun seg => ~ In sep seg) (split sep s) /\ split sep s <> [].
Proof.
  induction s as [|c t [IH Hne]]; cbn [split].
  - split; [constructor; [intros [] | constructor] | discriminate].
  - destruct (N.eqb_spec c sep) as [-> | Hc].
    + split; [constructor; [intros [] | exact IH] | discriminate].
    + destruct (split sep t) as [|h r]; [congruence |].
      inversion IH; subst. split; [| discriminate].
      constructor; auto. intros [-> | Hin]; auto.
Qed.

Lemma split_plain (sep : char) : forall s, ~ In sep s -> split sep s = [s].
Proof.
  induction s as [|c t IH]; intro H; cbn [split]; auto.
  destruct (N.eqb_spec c sep) as [-> | Hc].
  - exfalso. apply H. now left.
  - rewrite IH; auto. intro Hin. apply H. now right.
Qed.

Lemma split_last_segment (sep : char) (ext : str) :
  ~ In sep ext ->
  forall pre, exists first rest,
    split sep (pre ++ sep :: ext) = (first :: rest) ++ [ext].
Proof.
  intro Hext. induction pre as [|c pre (first & rest & IH)].
  - change ([] ++ sep :: ext) with (sep :: ext). cbn [split].
    rewrite N.eqb_refl, (split_plain sep ext Hext). now exists [], [].
  - change ((c :: pre) ++ sep :: ext) with (c :: (pre ++ sep :: ext)).
    cbn [split]. rewrite IH. destruct (N.eqb c sep).
    + now exists [], (first :: rest).
    + now exists (c :: first), rest.
Qed.

(** [name.split('.').pop()]: the text after the last dot, the whole name
    when it has no dot; in any case a text without a dot. *)
Lemma extension_of (sep : char) (s : str) :
  ~ In sep (pop (split sep s))
  /\ (~ In sep s -> pop (split sep s) = s)
  /\ (forall pre ext, s = pre ++ sep :: ext -> ~ In sep ext ->
                      pop (split sep s) = ext).
Proof.
  unfold pop. split; [| split].
  - destruct (split_segments sep s) as [Hall Hne].
    destruct (exists_last Hne) as (front & seg & E). rewrite E in *.
    rewrite last_last. rewrite Forall_app in Hall.
    destruct Hall as [_ Hs]. now inversion Hs.
  - intro H. now rewrite split_plain.
  - intros pre ext -> Hext.
    destruct (split_last_segment sep ext Hext pre) as (first & rest & ->).
    apply last_last.
Qed.

(* ================================================================== *)
(** * More on the worker's handler *)
(* ================================================================== *)

Section HandlerShape.

Variable lower : str -> str.
Variable ci : char -> char -> bool.
Variable py_literal : str -> str + str.

Lemma analyze_loop_app examCode : forall pre rest i results,
  analyze_loop lower ci py_literal (pre ++ rest) examCode i results
  = match analyze_loop lower ci py_literal pre examCode i results with
    | inl r =>
        analyze_loop lower ci py_literal rest examCode
          (i + List.length pre) r
    | inr msg => inr msg
    end.
Proof.
  induction pre as [|f pre IH]; intros rest i results.
  - cbn. now rewrite Nat.add_0_r.
  - change ((f :: pre) ++ rest) with (f :: (pre ++ rest)).
    cbn [analyze_loop List.length].
    destruct (run_analyze_document_type lower ci py_literal (ref_name f));
      [| reflexivity].
    destruct (run_generate_new_filename py_literal s examCode i);
      [| reflexivity].
    rewrite IH. now replace (S i + List.length pre) with (i + S (List.length pre))
      by lia.
Qed.

(** Whatever the interpreter makes of the spliced text, a loop that runs
    to its end has pushed one entry per file, in order, with the file's
    id and name, and a new name made of a stem for the file's position, a
    dot and the last dot-separated segment of the name. *)
Lemma analyze_loop_shape examCode : forall files i results out,
  analyze_loop lower ci py_literal files examCode i results = inl out ->
  exists added,
    out = results ++ added
    /\ map e_id added = map ref_id files
    /\ map e_originalName added = map ref_name files
    /\ forall k e, nth_error added k = Some e ->
         exists f detected_type exam_code,
           nth_error files k = Some f
           /\ py_literal examCode = inl exam_code
           /\ e_newName e
              = generate_new_filename detected_type exam_code
                  (Z.of_nat (i + k))
                ++ 46%N :: pop (split 46%N (ref_name f)).
Proof.
  induction files as [|f files IH]; intros i results out H; cbn [analyze_loop] in H.
  - inversion H; subst out. exists []. rewrite app_nil_r.
    repeat split; auto. intros [|k] e; discriminate.
  - unfold run_analyze_document_type, run_generate_new_filename in H.
    destruct (py_literal (ref_name f)) as [filename|]; [| discriminate].
    destruct (py_literal (analyze_document_type lower ci filename))
      as [detected_type|]; [| discriminate].
    destruct (py_literal examCode) as [exam_code|] eqn:Ex; [| discriminate].
    apply IH in H as (added & -> & Hid & Hname & Hnth).
    rewrite <- app_assoc. eexists. split; [reflexivity |].
    change (py ".") with [46%N]. simpl.
    rewrite Hid, Hname.
    split; [reflexivity |]. split; [reflexivity |].
    intros [|k] e Hk; simpl nth_error in Hk.
    + inversion Hk; subst e. exists f, detected_type, exam_code.
      rewrite Nat.add_0_r. simpl. auto.
    + destruct (Hnth k e Hk) as (f' & ty & code & Hf & Hc & Hn).
      exists f', ty, code. simpl nth_error.
      replace (i + S k) with (S i + k) by lia. auto.
Qed.

Lemma onmessage_result boot files examCode data :
  onmessage lower ci py_literal boot (Analyze files examCode)
  = Some (MsgResult data) ->
  boot = None
  /\ analyze_loop lower ci py_literal files examCode 0 [] = inl data.
Proof.
  unfold onmessage. destruct boot; [discriminate |].
  destruct (analyze_loop lower ci py_literal files examCode 0 []);
    intro H; inversion H; auto.
Qed.

(** X5.  A result reply is complete: it has exactly one entry per file
    of the request, in the order of the request, each with the id and the
    name of its file.  The handler never answers with part of a batch. *)
Theorem result_reply_has_one_entry_per_file :
  forall boot files examCode data,
    onmessage lower ci py_literal boot (Analyze files examCode)
    = Some (MsgResult data) ->
    List.length data = List.length files
    /\ map e_id data = map ref_id files
    /\ map e_originalName data = map ref_name files.
Proof.
  intros boot files examCode data H.
  apply onmessage_result in H as [_ H].
  apply analyze_loop_shape in H as (added & -> & Hid & Hname & _).
  simpl. split; [| split; assumption].
  rewrite <- (length_map e_id added), Hid. apply length_map.
Qed.

Hypothesis py_literal_plain :
  forall s, literal_safe s = true -> py_literal s = inl s.

(** X6.  In the result reply to a batch whose names and exam code are
    plain text, the new names of two different entries are different,
    even when the two files have the same name and the same detected
    type: the stem carries the position, and the extension has no dot. *)
Theorem reply_new_names_are_pairwise_distinct :
  forall files examCode data i j ei ej,
    literal_safe examCode = true ->
    Forall (fun f => literal_safe (ref_name f) = true) files ->
    onmessage lower ci py_literal None (Analyze files examCode)
    = Some (MsgResult data) ->
    i <> j ->
    nth_error data i = Some ei -> nth_error data j = Some ej ->
    e_newName ei <> e_newName ej.
Proof.
  intros files examCode data i j ei ej Hex Hsafe H Hij Hi Hj E.
  destruct (analyze_loop_entries lower ci py_literal py_literal_plain
              examCode Hex files 0 [] Hsafe) as (out & Hloop & Hlen & Hnth).
  apply onmessage_result in H as [_ H]. rewrite Hloop in H.
  inversion H; subst data. clear H. simpl in Hi, Hj.
  assert (Hfile : forall n en, nth_error out n = Some en ->
                    exists f, nth_error files n = Some f
                              /\ en = entry_at lower ci examCode n f).
  { intros n en Hn.
    destruct (nth_error files n) as [f|] eqn:Hf.
    - exists f. split; [reflexivity |]. rewrite (Hnth n f Hf) in Hn.
      now inversion Hn.
    - exfalso. apply nth_error_None in Hf.
      assert (n < List.length out) by (apply nth_error_Some; congruence).
      lia. }
  destruct (Hfile i ei Hi) as (fi & _ & ->).
  destruct (Hfile j ej Hj) as (fj & _ & ->).
  unfold entry_at in E. cbn [e_newName] in E.
  change (py ".") with [46%N] in E. simpl in E.
  apply last_separator_unique in E as [E _];
    try apply (extension_of 46%N).
  now apply stems_differ in E.
Qed.

(** X7.  The new name of an entry ends with a dot and the text after the
    last dot of the file's name; a name without a dot is appended in
    full.  This holds for every name, whatever the interpreter makes of
    it.  For a batch whose names and exam code are plain text, what
    stands before that dot is the stem generated for the type detected
    from the name and for the position of the file. *)
Theorem reply_new_name_keeps_last_segment :
  forall files examCode data k e,
    onmessage lower ci py_literal None (Analyze files examCode)
    = Some (MsgResult data) ->
    nth_error data k = Some e ->
    exists f stem,
      nth_error files k = Some f
      /\ (forall pre ext,
            ref_name f = pre ++ 46%N :: ext -> ~ In 46%N ext ->
            e_newName e = stem ++ 46%N :: ext)
      /\ (~ In 46%N (ref_name f) ->
          e_newName e = stem ++ 46%N :: ref_name f)
      /\ (literal_safe examCode = true ->
          Forall (fun f => literal_safe (ref_name f) = true) files ->
          stem
          = generate_new_filename
              (analyze_document_type lower ci (ref_name f)) examCode
              (Z.of_nat k)).
Proof.
  intros files examCode data k e H Hk.
  apply onmessage_result in H as [_ H].
  pose proof H as Hloop.
  apply analyze_loop_shape in H as (added & -> & _ & _ & Hnth).
  simpl in Hk.
  destruct (Hnth k e Hk) as (f & ty & code & Hf & Hc & Hn).
  cbn [Nat.add] in Hn.
  exists f, (generate_new_filename ty code (Z.of_nat k)).
  destruct (extension_of 46%N (ref_name f)) as (_ & Hplain & Hext).
  split; [exact Hf |]. split; [| split].
  - intros pre ext E Hno. now rewrite Hn, (Hext pre ext E Hno).
  - intro Hno. now rewrite Hn, (Hplain Hno).
  - intros Hex Hsafe.
    destruct (analyze_loop_entries lower ci py_literal py_literal_plain
                examCode Hex files 0 [] Hsafe) as (out & Hloop' & _ & Hout).
    rewrite Hloop in Hloop'. inversion Hloop' as [Hadded].
    simpl in Hadded. subst out.
    rewrite (Hout k f Hf) in Hk. inversion Hk as [He]. rewrite <- He in Hn.
    unfold entry_at in Hn. cbn [e_newName] in Hn.
    change (py ".") with [46%N] in Hn. simpl in Hn.
    apply app_inv_tail in Hn. symmetry. exact Hn.
Qed.

(** X8.  One file whose name the interpreter cannot read as a string
    literal fails the whole batch: the reply is the error message alone,
    and the entries already computed for the files before it are
    dropped. *)
Theorem one_unreadable_name_fails_the_batch :
  forall before file after examCode msg,
    literal_safe examCode = true ->
    Forall (fun f => literal_safe (ref_name f) = true) before ->
    py_literal (ref_name file) = inr msg ->
    onmessage lower ci py_literal None
      (Analyze (before ++ file :: after) examCode)
    = Some (MsgError msg).
Proof.
  intros before file after examCode msg Hex Hsafe Hbad.
  unfold onmessage. rewrite analyze_loop_app.
  destruct (analyze_loop_entries lower ci py_literal py_literal_plain
              examCode Hex before 0 [] Hsafe) as (out & -> & _).
  cbn [analyze_loop]. unfold run_analyze_document_type. now rewrite Hbad.
Qed.

End HandlerShape.

Lemma result_reply_has_one_entry_per_file_witness :
  exists data,
    reply_to (request_of [photo_file; sign_file] exam) = Some (MsgResult data)
    /\ List.length data = 2
    /\ map e_id data = [py "a1"; py "b2"].
Proof.
  eexists. split; [vm_compute; reflexivity |].
  destruct (result_reply_has_one_entry_per_file ascii_lower ascii_ci
              plain_literal None
              [ {| ref_id := py "a1"; ref_name := py "photo.jpg" |};
                {| ref_id := py "b2"; ref_name := py "sign.png" |} ]
              exam _ eq_refl) as (Hlen & Hid & _).
  split; [exact Hlen | exact Hid].
Defined.

Lemma reply_new_names_are_pairwise_distinct_witness :
  let twins := [ {| ref_id := py "a1"; ref_name := py "photo.jpg" |};
                 {| ref_id := py "a1"; ref_name := py "photo.jpg" |} ] in
  literal_safe exam = true
  /\ Forall (fun f => literal_safe (ref_name f) = true) twins
  /\ exists data e0 e1,
       reply_to (Analyze twins exam) = Some (MsgResult data)
       /\ 0 <> 1
       /\ nth_error data 0 = Some e0 /\ nth_error data 1 = Some e1
       /\ e_newName e0 <> e_newName e1.
Proof.
  intro twins.
  assert (Hplain : forall s, literal_safe s = true -> plain_literal s = inl s).
  { intros s H. unfold plain_literal. now rewrite H. }
  assert (Hsafe : Forall (fun f => literal_safe (ref_name f) = true) twins)
    by (repeat constructor).
  split; [reflexivity |]. split; [exact Hsafe |].
  do 3 eexists. split; [vm_compute; reflexivity |].
  split; [discriminate |]. split; [reflexivity |]. split; [reflexivity |].
  refine (reply_new_names_are_pairwise_distinct ascii_lower ascii_ci
            plain_literal Hplain twins exam _ 0 1 _ _ eq_refl Hsafe eq_refl _
            eq_refl eq_refl).
  discriminate.
Defined.

Lemma reply_new_name_keeps_last_segment_witness :
  exists data e,
    reply_to (Analyze [ {| ref_id := py "n1"; ref_name := py "README" |} ] exam)
    = Some (MsgResult data)
    /\ nth_error data 0 = Some e
    /\ ~ In 46%N (py "README")
    /\ e_newName e = py "EX01_document.README".
Proof.
  assert (Hplain : forall s, literal_safe s = true -> plain_literal s = inl s).
  { intros s H. unfold plain_literal. now rewrite H. }
  do 2 eexists. split; [vm_compute; reflexivity |].
  split; [reflexivity |].
  assert (Hno : ~ In 46%N (py "README")).
  { vm_compute. intuition discriminate. }
  split; [exact Hno |].
  destruct (reply_new_name_keeps_last_segment ascii_lower ascii_ci
              plain_literal Hplain
              [ {| ref_id := py "n1"; ref_name := py "README" |} ]
              exam _ 0 _ eq_refl eq_refl)
    as (f & stem & Hf & _ & Hwhole & Hstem).
  inversion Hf; subst f.
  transitivity (stem ++ 46%N :: py "README"); [exact (Hwhole Hno) |].
  rewrite (Hstem eq_refl ltac:(repeat constructor)).
  vm_compute. reflexivity.
Defined.

Lemma one_unreadable_name_fails_the_batch_witness :
  let quoted := {| ref_id := py "q2"; ref_name := [97; 34; 46; 106]%N |} in
  literal_safe exam = true
  /\ plain_literal (ref_name quoted) = inr (py "SyntaxError")
  /\ reply_to
       (Analyze ([ {| ref_id := py "a1"; ref_name := py "photo.jpg" |} ]
                 ++ quoted
                 :: [ {| ref_id := py "b2"; ref_name := py "sign.png" |} ])
          exam)
     = Some (MsgError (py "SyntaxError")).
Proof.
  intro quoted.
  assert (Hplain : forall s, literal_safe s = true -> plain_literal s = inl s).
  { intros s H. unfold plain_literal. now rewrite H. }
  split; [reflexivity |]. split; [reflexivity |].
  apply (one_unreadable_name_fails_the_batch ascii_lower ascii_ci
           plain_literal Hplain); [reflexivity | | reflexivity].
  repeat constructor.
Defined.

(* ================================================================== *)
(** * The worker's reply applied to the batch *)
(* ================================================================== *)

(** [data.find] returns the first entry with the wanted id. *)
Lemma find_result_first : forall data file j e,
  nth_error data j = Some e -> e_id e = pf_id file ->
  (forall j' e', j' < j -> nth_error data j' = Some e' ->
                 e_id e' <> pf_id file) ->
  find_result data file = Some e.
Proof.
  unfold find_result.
  induction data as [|r data IH]; intros file j e Hj He Hfirst.
  - destruct j; discriminate.
  - cbn [find]. destruct j as [|j]; cbn [nth_error] in Hj.
    + inversion Hj; subst r.
      now rewrite (proj2 (str_eqb_eq (e_id e) (pf_id file)) He).
    + destruct (str_eqb (e_id r) (pf_id file)) eqn:E.
      * apply str_eqb_eq in E. exfalso.
        apply (Hfirst 0 r); [lia | reflexivity | exact E].
      * apply (IH file j e Hj He). intros j' e' Hlt Hn.
        apply (Hfirst (S j') e'); [lia | exact Hn].
Qed.

Section ReplyApplied.

Variable lower : str -> str.
Variable ci : char -> char -> bool.
Variable py_literal : str -> str + str.
Hypothesis py_literal_plain :
  forall s, literal_safe s = true -> py_literal s = inl s.

Lemma request_reply files examCode :
  literal_safe examCode = true ->
  Forall (fun f => literal_safe (pf_originalName f) = true) files ->
  exists data,
    onmessage lower ci py_literal None (request_of files examCode)
    = Some (MsgResult data)
    /\ List.length data = List.length files
    /\ forall j fj,
         nth_error files j = Some fj ->
         nth_error data j
         = Some (entry_at lower ci examCode j
                   {| ref_id := pf_id fj; ref_name := pf_originalName fj |}).
Proof.
  intros Hex Hsafe.
  set (refs := map (fun f => {| ref_id := pf_id f;
                                ref_name := pf_originalName f |}) files).
  assert (Hrefs : Forall (fun f => literal_safe (ref_name f) = true) refs).
  { unfold refs. apply Forall_map. exact Hsafe. }
  destruct (analyze_loop_entries lower ci py_literal py_literal_plain
              examCode Hex refs 0 [] Hrefs) as (out & E & Hlen & Hnth).
  exists out. unfold request_of, onmessage. fold refs. rewrite E.
  split; [reflexivity |].
  split; [rewrite Hlen; unfold refs; apply length_map |].
  intros j fj Hj. apply (Hnth j). unfold refs.
  rewrite nth_error_map, Hj. reflexivity.
Qed.

(** The record of [file] once the entry computed for [origin], the file
    at position [j] of the batch, is applied to it. *)
Lemma reply_applied files examCode data :
  (forall j fj,
      nth_error files j = Some fj ->
      nth_error data j
      = Some (entry_at lower ci examCode j
                {| ref_id := pf_id fj; ref_name := pf_originalName fj |})) ->
  forall i j file origin,
    nth_error files i = Some file -> nth_error files j = Some origin ->
    pf_id origin = pf_id file ->
    (forall j' f', j' < j -> nth_error files j' = Some f' ->
                   pf_id f' <> pf_id file) ->
    nth_error (updatedFiles files data) i
    = Some {| pf_id := pf_id file;
              pf_file := pf_file file;
              pf_originalName := pf_originalName file;
              pf_detectedType :=
                Some (analyze_document_type lower ci (pf_originalName origin));
              pf_newName :=
                Some (generate_new_filename
                        (analyze_document_type lower ci
                           (pf_originalName origin))
                        examCode (Z.of_nat j)
                      ++ py "." ++ pop (split 46%N (pf_originalName origin)));
              pf_status := completed;
              pf_progress := pf_progress file;
              pf_error := pf_error file;
              pf_formattedFile := pf_formattedFile file |}.
Proof.
  intros Hdata i j file origin Hi Hj Hid Hfirst.
  rewrite updatedFiles_nth, Hi. cbn [option_map]. unfold update_file.
  rewrite (find_result_first data file j _ (Hdata j origin Hj)).
  - reflexivity.
  - exact Hid.
  - intros j' e' Hlt Hn.
    assert (Hlen : j' < List.length files).
    { apply Nat.lt_trans with j; [exact Hlt |].
      apply nth_error_Some. congruence. }
    destruct (nth_error files j') as [f'|] eqn:Hf';
      [| apply nth_error_None in Hf'; lia].
    rewrite (Hdata j' f' Hf') in Hn. inversion Hn; subst e'.
    cbn [entry_at e_id ref_id]. now apply (Hfirst j' f').
Qed.

(** X9.  A record whose id occurs earlier in the batch is not given the
    entry computed for itself: [data.find] stops at the first entry with
    that id, so the record takes the detected type and the new name
    (position number and extension included) of the first record with
    its id. *)
Theorem duplicate_id_takes_the_first_entry :
  forall files examCode,
    literal_safe examCode = true ->
    Forall (fun f => literal_safe (pf_originalName f) = true) files ->
    exists data,
      onmessage lower ci py_literal None (request_of files examCode)
      = Some (MsgResult data)
      /\ forall i j file origin,
           nth_error files i = Some file ->
           nth_error files j = Some origin ->
           pf_id origin = pf_id file ->
           (forall j' f', j' < j -> nth_error files j' = Some f' ->
                          pf_id f' <> pf_id file) ->
           nth_error (updatedFiles files data) i
           = Some {| pf_id := pf_id file;
                     pf_file := pf_file file;
                     pf_originalName := pf_originalName file;
                     pf_detectedType :=
                       Some (analyze_document_type lower ci
                               (pf_originalName origin));
                     pf_newName :=
                       Some (generate_new_filename
                               (analyze_document_type lower ci
                                  (pf_originalName origin))
                               examCode (Z.of_nat j)
                             ++ py "."
                             ++ pop (split 46%N (pf_originalName origin)));
                     pf_status := completed;
                     pf_progress := pf_progress file;
                     pf_error := pf_error file;
                     pf_formattedFile := pf_formattedFile file |}.
Proof.
  intros files examCode Hex Hsafe.
  destruct (request_reply files examCode Hex Hsafe) as (data & E & _ & Hnth).
  exists data. split; [exact E |].
  now apply reply_applied.
Qed.

Lemma first_with_own_id (files : list ProcessedFile) :
  NoDup (map pf_id files) ->
  forall i j fi fj,
    nth_error files i = Some fi -> nth_error files j = Some fj ->
    pf_id fj = pf_id fi -> i = j.
Proof.
  intros Hnd i j fi fj Hi Hj Hid.
  apply (proj1 (NoDup_nth_error (map pf_id files)) Hnd).
  - rewrite length_map. apply nth_error_Some. congruence.
  - rewrite !nth_error_map, Hi, Hj. cbn. congruence.
Qed.

(** X10.  Service and worker together, for a batch with pairwise distinct
    ids and names that are plain text: the executor posts the request of
    the batch, the worker answers it with a result, and that message
    resolves the promise with the input records in their order, each
    with the type detected from its own name, the name generated for its
    own position, and status [completed]. *)
Theorem batch_round_trip_through_worker :
  forall s0 k c,
    launches s0 k c -> awaiting s0 = [] ->
    literal_safe (c_examCode c) = true ->
    Forall (fun f => literal_safe (pf_originalName f) = true) (c_files c) ->
    NoDup (map pf_id (c_files c)) ->
    exists w request data s2 out,
      worker (executor k s0) = Some w
      /\ last (w_posted w) OtherRequest = request
      /\ request = request_of (c_files c) (c_examCode c)
      /\ onmessage lower ci py_literal None request = Some (MsgResult data)
      /\ step (executor k s0) (EvMessage (MsgResult data)) = Some s2
      /\ promise_of s2 k = Some (Resolved out)
      /\ List.length out = List.length (c_files c)
      /\ forall i file,
           nth_error (c_files c) i = Some file ->
           nth_error out i
           = Some {| pf_id := pf_id file;
                     pf_file := pf_file file;
                     pf_originalName := pf_originalName file;
                     pf_detectedType :=
                       Some (analyze_document_type lower ci
                               (pf_originalName file));
                     pf_newName :=
                       Some (generate_new_filename
                               (analyze_document_type lower ci
                                  (pf_originalName file))
                               (c_examCode c) (Z.of_nat i)
                             ++ py "."
                             ++ pop (split 46%N (pf_originalName file)));
                     pf_status := completed;
                     pf_progress := pf_progress file;
                     pf_error := pf_error file;
                     pf_formattedFile := pf_formattedFile file |}.
Proof.
  intros s0 k c Hl Ha Hex Hsafe Hnd.
  destruct (request_reply (c_files c) (c_examCode c) Hex Hsafe)
    as (data & E & _ & Hnth).
  pose proof Hl as (Hw & Hk & Hp & Hn).
  destruct (worker s0) as [w0|] eqn:Ew; [| congruence].
  assert (Hd : delivers_to k (executor k s0) (EvMessage (MsgResult data))
               = true).
  { rewrite (executor_live k s0 w0 c Ew Hk).
    cbn [delivers_to awaiting worker w_onmessage]. rewrite Ha.
    apply Nat.eqb_refl. }
  destruct (response_resolves s0 k c [] (executor k s0) data Hl eq_refl
              eq_refl eq_refl Hd) as (s2 & Hstep & Hres).
  assert (Hwk : worker (executor k s0)
                = Some {| w_onmessage := Some k;
                          w_onerror := Some k;
                          w_posted := w_posted w0 ++
                            [request_of (c_files c) (c_examCode c)] |})
    by (now rewrite (executor_live k s0 w0 c Ew Hk)).
  eexists _, (request_of (c_files c) (c_examCode c)), data, s2, _.
  split; [exact Hwk |].
  split; [cbn [w_posted]; apply last_last |].
  split; [reflexivity |]. split; [exact E |]. split; [exact Hstep |].
  split; [exact Hres |].
  split; [unfold updatedFiles; apply length_map |].
  intros i file Hi.
  apply (reply_applied (c_files c) (c_examCode c) data Hnth i i file file
           Hi Hi eq_refl).
  intros j' f' Hlt Hf' Hid.
  pose proof (first_with_own_id (c_files c) Hnd i j' file f' Hi Hf' Hid).
  lia.
Qed.

End ReplyApplied.

Lemma plain_literal_plain :
  forall s, literal_safe s = true -> plain_literal s = inl s.
Proof. intros s H. unfold plain_literal. now rewrite H. Qed.

Lemma duplicate_id_takes_the_first_entry_witness :
  let twin := new_file (py "a1") (py "sign.png") 2%N in
  literal_safe exam = true
  /\ Forall (fun f => literal_safe (pf_originalName f) = true)
       [photo_file; twin]
  /\ exists data,
       reply_to (request_of [photo_file; twin] exam) = Some (MsgResult data)
       /\ option_map pf_newName
            (nth_error (updatedFiles [photo_file; twin] data) 1)
          = Some (Some (py "EX01_photograph.jpg")).
Proof.
  intro twin.
  assert (Hex : literal_safe exam = true) by reflexivity.
  assert (Hsafe : Forall (fun f => literal_safe (pf_originalName f) = true)
                    [photo_file; twin]) by (repeat constructor).
  split; [exact Hex |]. split; [exact Hsafe |].
  destruct (duplicate_id_takes_the_first_entry ascii_lower ascii_ci
              plain_literal plain_literal_plain [photo_file; twin] exam
              Hex Hsafe) as (data & E & H).
  exists data. split; [exact E |].
  rewrite (H 1 0 twin photo_file eq_refl eq_refl eq_refl).
  - vm_compute. reflexivity.
  - intros j' f' Hlt. lia.
Defined.

Lemma batch_round_trip_through_worker_witness :
  launches (enter [photo_file; sign_file] exam idle) 0
    {| c_files := [photo_file; sign_file]; c_examCode := exam;
       c_timer := None; c_promise := Pending |}
  /\ NoDup (map pf_id [photo_file; sign_file])
  /\ exists data s2 out,
       reply_to (request_of [photo_file; sign_file] exam)
       = Some (MsgResult data)
       /\ step after_pair (EvMessage (MsgResult data)) = Some s2
       /\ promise_of s2 0 = Some (Resolved out)
       /\ option_map pf_newName (nth_error out 1)
          = Some (Some (py "EX01_signature_2.png")).
Proof.
  destruct (idle_launches [photo_file; sign_file]) as [_ Hl].
  assert (Hnd : NoDup (map pf_id [photo_file; sign_file])).
  { repeat constructor; cbn; intuition discriminate. }
  split; [exact Hl |]. split; [exact Hnd |].
  destruct (batch_round_trip_through_worker ascii_lower ascii_ci
              plain_literal plain_literal_plain _ _ _ Hl eq_refl eq_refl
              ltac:(repeat constructor) Hnd)
    as (w & request & data & s2 & out & _ & _ & -> & E & Hstep & Hres & _ & H).
  exists data, s2, out.
  split; [exact E |]. split; [exact Hstep |]. split; [exact Hres |].
  rewrite (H 1 sign_file eq_refl). vm_compute. reflexivity.
Defined.

(* ================================================================== *)
(** * More on the classification channel *)
(* ================================================================== *)

(** A call whose timer is cleared and to which nothing is delivered keeps
    its record: its timer callback cannot run any more. *)
Lemma step_disarmed s ev s' k c :
  step s ev = Some s' ->
  nth_error (calls s) k = Some c -> c_timer c = None ->
  ~ In k (awaiting s) -> delivers_to k s ev = false ->
  nth_error (calls s') k = Some c /\ ~ In k (awaiting s').
Proof.
  intros Hstep Hk Ht Hn Hd.
  destruct (step_call s ev s' k c Hstep Hk) as (c' & Hc' & _ & Ha & He).
  split; [| now apply Ha]. rewrite Hc'. f_equal. apply He; auto.
  destruct ev as [| | | | j | |]; try reflexivity.
  cbn. rewrite andb_true_r. apply negb_true_iff, Nat.eqb_neq. intros ->.
  cbn [step] in Hstep. destruct (awaiting s); [| discriminate].
  rewrite Hk, Ht in Hstep. discriminate.
Qed.

Lemma run_disarmed : forall evs s s' k c,
  run s evs = Some s' ->
  nth_error (calls s) k = Some c -> c_timer c = None ->
  ~ In k (awaiting s) -> silent_for k s evs = true ->
  nth_error (calls s') k = Some c /\ ~ In k (awaiting s').
Proof.
  induction evs as [|ev evs IH]; intros s s' k c Hrun Hk Ht Hn Hsil;
    cbn [run] in Hrun.
  - inversion Hrun; subst s'. auto.
  - destruct (step s ev) as [s1|] eqn:Hstep; [| discriminate].
    cbn [silent_for] in Hsil. rewrite Hstep in Hsil.
    apply andb_prop in Hsil as [Hd Hsil]. apply negb_true_iff in Hd.
    destruct (step_disarmed s ev s1 k c Hstep Hk Ht Hn Hd) as [Hk1 Hn1].
    now apply (IH s1 s' k c).
Qed.

Lemma timer_disarmed_step s k c :
  nth_error (calls s) k = Some c -> c_timer c = None ->
  step s (EvTimer k) = None.
Proof.
  intros Hk Ht. cbn [step]. destruct (awaiting s); [| reflexivity].
  now rewrite Hk, Ht.
Qed.

(** X11.  A message whose [type] is neither [result] nor [error] still
    clears the timer of the call it reaches and settles nothing: from
    then on the promise stays pending and its 30-second timeout can no
    longer fire, for as long as no further message or error event is
    handed to the call. *)
Theorem unknown_message_disarms_the_timeout :
  forall s0 k c evs s2,
    launches s0 k c ->
    run (executor k s0) evs = Some s2 ->
    silent_for k (executor k s0) evs = true -> timer_free k evs = true ->
    delivers_to k s2 (EvMessage MsgOther) = true ->
    exists s3,
      step s2 (EvMessage MsgOther) = Some s3
      /\ forall evs' s4,
           run s3 evs' = Some s4 -> silent_for k s3 evs' = true ->
           promise_of s4 k = Some Pending
           /\ timer_of s4 k = Some None
           /\ step s4 (EvTimer k) = None.
Proof.
  intros s0 k c evs s2 Hl Hrun Hsil Hfree Hd.
  pose proof (run_untouched evs s0 k c s2 Hl Hrun Hsil Hfree) as Hk.
  pose proof Hl as (_ & _ & Hp & _).
  cbn [delivers_to step] in *.
  destruct (awaiting s2) as [|? ?] eqn:Ea; try discriminate.
  destruct (worker s2) as [w|] eqn:Ew; try discriminate.
  destruct (w_onmessage w) as [j|]; try discriminate.
  apply Nat.eqb_eq in Hd. subst j.
  eexists. split; [reflexivity |].
  intros evs' s4 Hrun' Hsil'.
  assert (H3 : nth_error (calls (handle_message k MsgOther s2)) k
               = Some (clear_timer (arm_timer (clock s0) c))).
  { unfold handle_message. cbn [update_call calls].
    now apply update_nth_same. }
  assert (Hn3 : ~ In k (awaiting (handle_message k MsgOther s2))).
  { unfold handle_message. cbn [update_call awaiting]. rewrite Ea.
    intros []. }
  destruct (run_disarmed evs' _ s4 k _ Hrun' H3 eq_refl Hn3 Hsil')
    as [H4 _].
  split; [| split].
  - unfold promise_of. rewrite H4. cbn. now rewrite Hp.
  - unfold timer_of. now rewrite H4.
  - now apply (timer_disarmed_step s4 k _ H4).
Qed.

(** X12.  [terminate()] called after [analyzeDocuments] on a service
    without a worker, before the call resumes from its [await], makes the
    call find no worker: its promise is rejected with
    [Worker not initialized], nothing is posted and no timer is armed. *)
Theorem terminate_before_resumption_rejects :
  forall s files examCode,
    worker s = None -> awaiting s = [] ->
    exists s3,
      run s [EvCall files examCode; EvTerminate; EvResume] = Some s3
      /\ promise_of s3 (List.length (calls s))
         = Some (Rejected (JsError (py "Worker not initialized")))
      /\ timer_of s3 (List.length (calls s)) = Some None
      /\ worker s3 = None.
Proof.
  intros s files examCode Hw Ha.
  unfold run, step, analyzeDocuments. rewrite Hw.
  unfold initialize, enter. simpl. rewrite Hw, Ha. simpl.
  unfold executor, update_call. simpl.
  eexists. split; [reflexivity |].
  unfold promise_of, timer_of. simpl.
  rewrite (update_nth_same _ _ _ _ (nth_error_snoc (calls s) _)).
  simpl. auto.
Qed.

Lemma no_worker_step s ev s' k :
  worker s = None -> call_free [ev] = true -> step s ev = Some s' ->
  worker s' = None /\ delivers_to k s ev = false.
Proof.
  intros Hw Hc Hstep.
  destruct ev as [files ex | | msg | e | j | | dt]; cbn [step] in Hstep.
  - discriminate.
  - unfold resume in Hstep. destruct (awaiting s); [discriminate |].
    inversion Hstep; subst s'. unfold executor. cbn [worker].
    rewrite Hw. auto.
  - destruct (awaiting s); [| discriminate]. rewrite Hw in Hstep. discriminate.
  - destruct (awaiting s); [| discriminate]. rewrite Hw in Hstep. discriminate.
  - destruct (awaiting s); [| discriminate].
    destruct (nth_error (calls s) j) as [cj|]; [| discriminate].
    destruct (c_timer cj) as [due|]; [| discriminate].
    destruct (due <=? clock s)%Z; [| discriminate].
    inversion Hstep; subst s'. auto.
  - inversion Hstep; subst s'. unfold terminate. rewrite Hw. auto.
  - destruct (0 <=? dt)%Z; [| discriminate].
    inversion Hstep; subst s'. auto.
Qed.

Lemma no_worker_run : forall evs s s' k,
  worker s = None -> call_free evs = true -> run s evs = Some s' ->
  worker s' = None /\ silent_for k s evs = true.
Proof.
  induction evs as [|ev evs IH]; intros s s' k Hw Hc Hrun; cbn [run] in Hrun.
  - inversion Hrun; subst s'. auto.
  - destruct (step s ev) as [s1|] eqn:Hstep; [| discriminate].
    cbn [call_free forallb] in Hc. apply andb_prop in Hc as [Hc1 Hc2].
    destruct (no_worker_step s ev s1 k Hw) as [Hw1 Hd]; auto.
    { cbn. now rewrite Hc1. }
    destruct (IH s1 s' k Hw1 Hc2 Hrun) as [Hw' Hs].
    split; [exact Hw' |]. cbn [silent_for]. now rewrite Hd, Hstep, Hs.
Qed.

(** X13.  [terminate()] settles nothing.  The promise of a call whose
    executor has run stays pending after it, with its timer still armed
    for 30000 ms after the launch; as long as [analyzeDocuments] is not
    called again the service has no worker, no message or error event can
    occur, and the promise is rejected by its timer and by nothing else. *)
Theorem terminate_leaves_call_to_its_timer :
  forall s0 k c evs s2,
    launches s0 k c ->
    run (terminate (executor k s0)) evs = Some s2 ->
    call_free evs = true ->
    worker s2 = None
    /\ (forall msg, step s2 (EvMessage msg) = None)
    /\ (timer_free k evs = true ->
        promise_of s2 k = Some Pending
        /\ timer_of s2 k = Some (Some (clock s0 + 30000)%Z))
    /\ (timer_free k evs = false ->
        promise_of s2 k = Some (Rejected timeout_error)).
Proof.
  intros s0 k c evs s2 Hl Hrun Hc.
  destruct (launched_record s0 k c Hl) as (H1 & Hn & w & Hw & _).
  pose proof Hl as (_ & _ & Hp & _).
  set (s1 := terminate (executor k s0)) in *.
  assert (Hw1 : worker s1 = None)
    by (unfold s1, terminate; rewrite Hw; reflexivity).
  assert (Hk1 : nth_error (calls s1) k = Some (arm_timer (clock s0) c))
    by (unfold s1, terminate; rewrite Hw; exact H1).
  assert (Hn1 : ~ In k (awaiting s1))
    by (unfold s1, terminate; rewrite Hw; exact Hn).
  destruct (no_worker_run evs s1 s2 k Hw1 Hc Hrun) as [Hw2 Hsil].
  split; [exact Hw2 |]. split.
  { intro msg. cbn [step]. rewrite Hw2. now destruct (awaiting s2). }
  split.
  - intro Hfree.
    destruct (run_call evs s1 s2 k _ Hrun Hk1) as (c' & Hc' & _ & _ & He).
    rewrite (He Hsil Hfree Hn1) in Hc'.
    unfold promise_of, timer_of. rewrite Hc'. cbn. now rewrite Hp.
  - intro Hfree.
    now apply (run_silent_timer evs s1 s2 k (arm_timer (clock s0) c)).
Qed.

(** X14.  An [error] message of the worker, handed to a call that
    nothing has touched, rejects the promise of the whole batch with an
    [Error] carrying the worker's text and clears the timer; the promise
    then stays rejected under every later event, a late [result]
    included, and the captured records are the input records. *)
Theorem worker_error_message_rejects_batch :
  forall s0 k c evs s2 err,
    launches s0 k c ->
    run (executor k s0) evs = Some s2 ->
    silent_for k (executor k s0) evs = true -> timer_free k evs = true ->
    delivers_to k s2 (EvMessage (MsgError err)) = true ->
    exists s3,
      step s2 (EvMessage (MsgError err)) = Some s3
      /\ timer_of s3 k = Some None
      /\ forall evs' s4,
           run s3 evs' = Some s4 ->
           promise_of s4 k = Some (Rejected (JsError err))
           /\ captured_files s4 k = Some (c_files c).
Proof.
  intros s0 k c evs s2 err Hl Hrun Hsil Hfree Hd.
  pose proof (run_untouched evs s0 k c s2 Hl Hrun Hsil Hfree) as Hk.
  pose proof Hl as (_ & _ & Hp & _).
  cbn [delivers_to step] in *.
  destruct (awaiting s2) as [|? ?] eqn:Ea; try discriminate.
  destruct (worker s2) as [w|] eqn:Ew; try discriminate.
  destruct (w_onmessage w) as [j|]; try discriminate.
  apply Nat.eqb_eq in Hd. subst j.
  eexists. split; [reflexivity |].
  assert (H3 : nth_error (calls (handle_message k (MsgError err) s2)) k
               = Some (settle (Rejected (JsError err))
                         (clear_timer (arm_timer (clock s0) c)))).
  { unfold handle_message. cbn [update_call calls].
    erewrite update_nth_same; [reflexivity |].
    now apply update_nth_same. }
  split.
  { unfold timer_of. rewrite H3. cbn.
    now rewrite (proj2 (proj2 (proj2 (settle_keeps _ _)))). }
  intros evs' s4 Hrun'. split.
  - apply (run_settled evs' _ s4 k _ Hrun'); [| discriminate].
    unfold promise_of. rewrite H3. cbn. unfold settle. cbn. now rewrite Hp.
  - apply (run_captured evs' _ s4 k _ Hrun').
    unfold captured_files. rewrite H3. cbn.
    now rewrite (proj1 (settle_keeps _ _)).
Qed.

(** X22.  Calling [initialize()] beforehand is optional: on a service
    without a worker, [analyzeDocuments] followed by the resumption of
    the call leaves the service exactly as [initialize()] followed by
    [analyzeDocuments] does, with the worker created, both handlers
    installed, the request posted and the timer armed. *)
Theorem call_on_fresh_service_initializes_first :
  forall s files examCode,
    worker s = None -> awaiting s = [] ->
    run s [EvCall files examCode; EvResume]
    = Some (fst (analyzeDocuments files examCode (initialize s)))
    /\ exists w,
         worker (fst (analyzeDocuments files examCode (initialize s)))
         = Some w
         /\ w_onmessage w = Some (List.length (calls s))
         /\ w_onerror w = Some (List.length (calls s))
         /\ w_posted w = [request_of files examCode]
         /\ timer_of (fst (analyzeDocuments files examCode (initialize s)))
              (List.length (calls s))
            = Some (Some (clock s + 30000)%Z).
Proof.
  intros s files examCode Hw Ha.
  unfold run, step, analyzeDocuments. rewrite Hw.
  unfold initialize, enter. simpl. rewrite Hw, Ha. simpl.
  unfold executor. simpl. rewrite nth_error_snoc. simpl.
  split; [reflexivity |].
  eexists. split; [reflexivity |]. repeat split.
  unfold timer_of. simpl.
  now rewrite (update_nth_same _ _ _ _ (nth_error_snoc (calls s) _)).
Qed.

Lemma unknown_message_disarms_the_timeout_witness :
  launches (enter [photo_file] exam idle) 0
    {| c_files := [photo_file]; c_examCode := exam;
       c_timer := None; c_promise := Pending |}
  /\ delivers_to 0 after_first (EvMessage MsgOther) = true
  /\ exists s3 s4,
       step after_first (EvMessage MsgOther) = Some s3
       /\ run s3 [EvWait 40000] = Some s4
       /\ promise_of s4 0 = Some Pending
       /\ step s4 (EvTimer 0) = None.
Proof.
  destruct (idle_launches [photo_file]) as [_ Hl].
  split; [exact Hl |]. split; [reflexivity |].
  destruct (unknown_message_disarms_the_timeout _ _ _ [] after_first
              Hl eq_refl eq_refl eq_refl eq_refl) as (s3 & Hstep & H).
  assert (E : Some s3 = Some (handle_message 0 MsgOther after_first))
    by (rewrite <- Hstep; reflexivity).
  inversion E; subst s3. clear E.
  do 2 eexists. split; [exact Hstep |]. split; [reflexivity |].
  destruct (H [EvWait 40000] _ eq_refl eq_refl) as (Hp & _ & Ht).
  split; [exact Hp | exact Ht].
Defined.

Lemma terminate_before_resumption_rejects_witness :
  worker fresh = None /\ awaiting fresh = []
  /\ exists s3,
       run fresh [EvCall [photo_file] exam; EvTerminate; EvResume] = Some s3
       /\ promise_of s3 0
          = Some (Rejected (JsError (py "Worker not initialized"))).
Proof.
  split; [reflexivity |]. split; [reflexivity |].
  destruct (terminate_before_resumption_rejects fresh [photo_file] exam
              eq_refl eq_refl) as (s3 & Hrun & Hp & _).
  exists s3. split; [exact Hrun | exact Hp].
Defined.

Lemma terminate_leaves_call_to_its_timer_witness :
  launches (enter [photo_file] exam idle) 0
    {| c_files := [photo_file]; c_examCode := exam;
       c_timer := None; c_promise := Pending |}
  /\ promise_of (terminate after_first) 0 = Some Pending
  /\ exists s2,
       run (terminate after_first) [EvWait 30000; EvTimer 0] = Some s2
       /\ call_free [EvWait 30000; EvTimer 0] = true
       /\ promise_of s2 0 = Some (Rejected timeout_error).
Proof.
  destruct (idle_launches [photo_file]) as [_ Hl].
  split; [exact Hl |]. split; [reflexivity |].
  eexists. split; [reflexivity |]. split; [reflexivity |].
  refine (proj2 (proj2 (proj2
            (terminate_leaves_call_to_its_timer _ _ _
               [EvWait 30000; EvTimer 0] _ Hl eq_refl eq_refl))) eq_refl).
Defined.

Lemma worker_error_message_rejects_batch_witness :
  launches (enter [photo_file] exam idle) 0
    {| c_files := [photo_file]; c_examCode := exam;
       c_timer := None; c_promise := Pending |}
  /\ delivers_to 0 after_first (EvMessage (MsgError (py "SyntaxError"))) = true
  /\ exists s3 s4,
       step after_first (EvMessage (MsgError (py "SyntaxError"))) = Some s3
       /\ run s3 [EvMessage (MsgResult photo_reply)] = Some s4
       /\ promise_of s4 0 = Some (Rejected (JsError (py "SyntaxError"))).
Proof.
  destruct (idle_launches [photo_file]) as [_ Hl].
  split; [exact Hl |]. split; [reflexivity |].
  destruct (worker_error_message_rejects_batch _ _ _ [] after_first
              (py "SyntaxError") Hl eq_refl eq_refl eq_refl eq_refl)
    as (s3 & Hstep & _ & H).
  assert (E : Some s3
              = Some (handle_message 0 (MsgError (py "SyntaxError"))
                        after_first))
    by (rewrite <- Hstep; reflexivity).
  inversion E; subst s3. clear E.
  do 2 eexists. split; [exact Hstep |]. split; [reflexivity |].
  exact (proj1 (H [EvMessage (MsgResult photo_reply)] _ eq_refl)).
Defined.

(* ================================================================== *)
(** * More on the formatting orchestrator *)
(* ================================================================== *)

Section FormatterMore.

Variable engine : Engine.
Variable examConfig : ExamConfig.

Lemma formatDocuments_cases (ready : bool) files (onProgress : option Callback) :
  (exists e, (if ready then None else load engine) = Some e
             /\ formatDocuments engine ready files examConfig onProgress
                = {| actions := []; settled := inr e |})
  \/ (exists e, (if ready then None else load engine) = None
                /\ set_config engine examConfig = Some e
                /\ formatDocuments engine ready files examConfig onProgress
                   = {| actions := []; settled := inr e |})
  \/ ((if ready then None else load engine) = None
      /\ set_config engine examConfig = None
      /\ formatDocuments engine ready files examConfig onProgress
         = {| actions :=
                fst (format_loop engine examConfig onProgress
                       (List.length files) 0 files)
                ++ match onProgress with
                   | Some _ => [Progress (of_Z 100)]
                   | None => []
                   end;
              settled :=
                match onProgress with
                | Some cb =>
                    match cb (List.length files) (of_Z 100) with
                    | Some e => inr e
                    | None =>
                        inl (snd (format_loop engine examConfig onProgress
                                    (List.length files) 0 files))
                    end
                | None =>
                    inl (snd (format_loop engine examConfig onProgress
                                (List.length files) 0 files))
                end |}).
Proof.
  unfold formatDocuments.
  destruct (if ready then None else load engine) as [e|];
    [left; eauto |].
  destruct (set_config engine examConfig) as [e|];
    [right; left; eauto |].
  right. right. split; [reflexivity |]. split; [reflexivity |].
  destruct (format_loop engine examConfig onProgress (List.length files) 0
              files) as [acts recs].
  cbn [fst snd]. destruct onProgress as [cb|].
  - destruct (cb (List.length files) (of_Z 100)); reflexivity.
  - now rewrite app_nil_r.
Qed.

(** X16.  With the engine loaded and configured, [onProgress] is called
    once per record and once more at the end, whatever the reads, the
    conversions or the callback itself throw: the values it receives are
    [(i / total) * 100] for [i = 0 .. total - 1], then 100.  For an empty
    batch the only call is [onProgress(100)]; the quotient 0 / 0 is never
    formed. *)
Theorem progress_is_reported_once_per_record_and_at_the_end :
  forall (ready : bool) files cb,
    (if ready then None else load engine) = None ->
    set_config engine examConfig = None ->
    reported (actions (formatDocuments engine ready files examConfig (Some cb)))
    = map (fun i => progress_value i (List.length files))
        (seq 0 (List.length files))
      ++ [of_Z 100]
    /\ reported (actions (formatDocuments engine ready [] examConfig (Some cb)))
       = [of_Z 100].
Proof.
  intros ready files cb Hl Hc.
  rewrite !(formatDocuments_ready engine ready _ examConfig cb Hl Hc).
  cbn [actions]. rewrite !reported_app, !format_loop_reported.
  split; reflexivity.
Qed.

Lemma iteration_outcome (onProgress : option Callback) total i file :
  (exists data,
      snd (iteration engine examConfig onProgress total i file)
      = completed_record file
          {| blob_data := data;
             blob_type := getOutputMimeType (pf_detectedType file) examConfig |})
  \/ (exists e,
        snd (iteration engine examConfig onProgress total i file)
        = error_record file e).
Proof.
  unfold iteration, try_block.
  destruct (match onProgress with
            | Some cb => ([Progress (progress_value i total)],
                          cb i (progress_value i total))
            | None => ([], None)
            end) as [a1 [e|]]; [right; eexists; reflexivity |].
  destruct (arrayBuffer engine i (pf_file file)) as [buf|e];
    [| right; eexists; reflexivity].
  destruct (format_document engine i buf (pf_detectedType file)
              (pf_originalName file)) as [data|e];
    [left | right]; eexists; reflexivity.
Qed.

(** X18.  Whatever the engine and the callback do, a resolved
    [formatDocuments] returns one record per input record, in order; each
    keeps the id, file, original name, detected type and new name of its
    input, and is either [completed] with progress 100 and a payload
    typed by [getOutputMimeType], or [error] with a message and the
    input's own progress and payload.  No record is left [pending] or
    [processing]. *)
Theorem formatted_records_keep_identity :
  forall (ready : bool) files (onProgress : option Callback) out,
    settled (formatDocuments engine ready files examConfig onProgress)
    = inl out ->
    List.length out = List.length files
    /\ forall i file,
         nth_error files i = Some file ->
         exists rec,
           nth_error out i = Some rec
           /\ pf_id rec = pf_id file
           /\ pf_file rec = pf_file file
           /\ pf_originalName rec = pf_originalName file
           /\ pf_detectedType rec = pf_detectedType file
           /\ pf_newName rec = pf_newName file
           /\ ((pf_status rec = completed
                /\ pf_progress rec = of_Z 100
                /\ pf_error rec = pf_error file
                /\ exists data,
                     pf_formattedFile rec
                     = Some {| blob_data := data;
                               blob_type :=
                                 getOutputMimeType (pf_detectedType file)
                                   examConfig |})
               \/ (pf_status rec = error
                   /\ pf_progress rec = pf_progress file
                   /\ pf_formattedFile rec = pf_formattedFile file
                   /\ exists e, pf_error rec = Some (error_message e))).
Proof.
  intros ready files onProgress out H.
  assert (E : out = snd (format_loop engine examConfig onProgress
                           (List.length files) 0 files)).
  { destruct (formatDocuments_cases ready files onProgress)
      as [(e0 & _ & E) | [(e0 & _ & _ & E) | (_ & _ & E)]];
      rewrite E in H; cbn [settled] in H; try discriminate.
    destruct onProgress as [cb|]; [| congruence].
    destruct (cb (List.length files) (of_Z 100)); [discriminate | congruence]. }
  subst out.
  destruct (format_loop_records engine examConfig (List.length files)
              onProgress files 0) as [Hlen Hnth].
  split; [exact Hlen |].
  intros i file Hi. rewrite (Hnth i file Hi). cbn [Nat.add].
  eexists. split; [reflexivity |].
  destruct (iteration_outcome onProgress (List.length files) i file)
    as [(data & ->) | (e & ->)]; cbn.
  - repeat split; auto. left. repeat split; eauto.
  - repeat split; auto. right. repeat split; eauto.
Qed.

Lemma iteration_actions (onProgress : option Callback) total i file a :
  In a (fst (iteration engine examConfig onProgress total i file)) ->
  (exists cb, onProgress = Some cb /\ a = Progress (progress_value i total))
  \/ (a = Read i
      /\ forall cb, onProgress = Some cb ->
                    cb i (progress_value i total) = None)
  \/ (a = Convert i
      /\ (forall cb, onProgress = Some cb ->
                     cb i (progress_value i total) = None)
      /\ exists buf, arrayBuffer engine i (pf_file file) = inl buf).
Proof.
  unfold iteration, try_block.
  destruct onProgress as [cb|].
  - destruct (cb i (progress_value i total)) as [e|] eqn:Ecb.
    + cbn. intros [<- | []]. left. eauto.
    + assert (Hcb : forall cb', Some cb = Some cb' ->
                                cb' i (progress_value i total) = None)
        by (intros cb' Heq; inversion Heq; subst; exact Ecb).
      destruct (arrayBuffer engine i (pf_file file)) as [buf|e].
      * destruct (format_document engine i buf (pf_detectedType file)
                    (pf_originalName file)); cbn;
          (intros [<- | [<- | [<- | []]]];
           [left; eauto | right; left; auto | right; right; eauto]).
      * cbn. intros [<- | [<- | []]]; [left; eauto | right; left; auto].
  - assert (Hcb : forall cb', @None Callback = Some cb' ->
                              cb' i (progress_value i total) = None)
      by discriminate.
    destruct (arrayBuffer engine i (pf_file file)) as [buf|e].
    + destruct (format_document engine i buf (pf_detectedType file)
                  (pf_originalName file)); cbn;
        (intros [<- | [<- | []]];
         [right; left; auto | right; right; eauto]).
    + cbn. intros [<- | []]. right. left. auto.
Qed.

Lemma format_loop_actions (onProgress : option Callback) total a :
  forall files i,
    In a (fst (format_loop engine examConfig onProgress total i files)) ->
    exists j file,
      nth_error files j = Some file
      /\ In a (fst (iteration engine examConfig onProgress total (i + j) file)).
Proof.
  induction files as [|file rest IH]; intros i H.
  - destruct H.
  - rewrite format_loop_fst_snd in H. cbn [fst] in H.
    apply in_app_or in H as [H | H].
    + exists 0, file. rewrite Nat.add_0_r. auto.
    + destruct (IH (S i) H) as (j & f & Hj & Hin).
      exists (S j), f. replace (i + S j) with (S i + j) by lia. auto.
Qed.

Lemma formatDocuments_loop_action (ready : bool) files
  (onProgress : option Callback) a :
  In a (actions (formatDocuments engine ready files examConfig onProgress)) ->
  a <> Progress (of_Z 100) ->
  In a (fst (format_loop engine examConfig onProgress (List.length files) 0
               files)).
Proof.
  intros H Hne.
  destruct (formatDocuments_cases ready files onProgress)
    as [(e0 & _ & E) | [(e0 & _ & _ & E) | (_ & _ & E)]];
    rewrite E in H; cbn [actions] in H; try (now destruct H).
  apply in_app_or in H as [H | H]; [exact H |].
  destruct onProgress; [| destruct H].
  destruct H as [<- | []]. congruence.
Qed.

Lemma read_action_origin (ready : bool) files (onProgress : option Callback)
  i :
  In (Read i)
    (actions (formatDocuments engine ready files examConfig onProgress)) ->
  exists file,
    nth_error files i = Some file
    /\ forall cb, onProgress = Some cb ->
                  cb i (progress_value i (List.length files)) = None.
Proof.
  intro H.
  apply formatDocuments_loop_action in H; [| discriminate].
  apply format_loop_actions in H as (j & file & Hj & Hin).
  cbn [Nat.add] in Hin.
  apply iteration_actions in Hin
    as [(cb & _ & Ha) | [(Ha & Hcb) | (Ha & _)]];
    try discriminate.
  inversion Ha; subst j. eauto.
Qed.

(** X19.  [format_document] is called for a record only after
    [onProgress] returned for it and its bytes were read: a record whose
    progress call or whose [arrayBuffer()] throws is never handed to the
    engine, and one whose progress call throws is not even read. *)
Theorem no_conversion_without_progress_and_read :
  forall (ready : bool) files (onProgress : option Callback) i,
    (In (Convert i)
        (actions (formatDocuments engine ready files examConfig onProgress)) ->
     exists file buf,
       nth_error files i = Some file
       /\ arrayBuffer engine i (pf_file file) = inl buf
       /\ forall cb, onProgress = Some cb ->
                     cb i (progress_value i (List.length files)) = None)
    /\ (In (Read i)
          (actions (formatDocuments engine ready files examConfig onProgress)) ->
        exists file,
          nth_error files i = Some file
          /\ forall cb, onProgress = Some cb ->
                        cb i (progress_value i (List.length files)) = None).
Proof.
  intros ready files onProgress i. split; intro H.
  - apply formatDocuments_loop_action in H; [| discriminate].
    apply format_loop_actions in H as (j & file & Hj & Hin).
    cbn [Nat.add] in Hin.
    apply iteration_actions in Hin
      as [(cb & _ & Ha) | [(Ha & _) | (Ha & Hcb & buf & Hbuf)]];
      try discriminate.
    inversion Ha; subst j. eauto.
  - now apply read_action_origin in H.
Qed.

(** X20.  The progress call is inside the [try] block: when
    [onProgress] throws for record [i], that record comes back with
    status [error] and the callback's message, although nothing is wrong
    with the file, and the loop goes on. *)
Theorem throwing_callback_marks_the_record_failed :
  forall (ready : bool) files (cb : Callback) i file e,
    (if ready then None else load engine) = None ->
    set_config engine examConfig = None ->
    nth_error files i = Some file ->
    cb i (progress_value i (List.length files)) = Some e ->
    cb (List.length files) (of_Z 100) = None ->
    exists out,
      settled (formatDocuments engine ready files examConfig (Some cb))
      = inl out
      /\ List.length out = List.length files
      /\ nth_error out i = Some (error_record file e)
      /\ ~ In (Read i)
           (actions (formatDocuments engine ready files examConfig (Some cb))).
Proof.
  intros ready files cb i file e Hl Hc Hi Hthrow Hlast.
  pose proof (formatDocuments_ready engine ready files examConfig cb Hl Hc)
    as E.
  destruct (format_loop_records engine examConfig (List.length files)
              (Some cb) files 0) as [Hlen Hnth].
  eexists. split; [rewrite E; cbn [settled]; rewrite Hlast; reflexivity |].
  split; [exact Hlen |]. split.
  - rewrite (Hnth i file Hi). cbn [Nat.add].
    unfold iteration, try_block. now rewrite Hthrow.
  - intro Hin.
    destruct (read_action_origin ready files (Some cb) i Hin)
      as (f & _ & Hcb).
    rewrite (Hcb cb eq_refl) in Hthrow. discriminate.
Qed.

Lemma iteration_record_quiet (cb : Callback) total i file :
  cb i (progress_value i total) = None ->
  snd (iteration engine examConfig (Some cb) total i file)
  = snd (iteration engine examConfig None total i file).
Proof.
  intro H. unfold iteration, try_block. rewrite H.
  destruct (arrayBuffer engine i (pf_file file)) as [buf|]; [| reflexivity].
  destruct (format_document engine i buf (pf_detectedType file)
              (pf_originalName file)); reflexivity.
Qed.

(** X21.  Reporting progress does not change the result: with a callback
    that never throws, [formatDocuments] settles exactly as it does
    without a callback. *)
Theorem quiet_callback_does_not_change_the_result :
  forall (ready : bool) files (cb : Callback),
    (forall n v, cb n v = None) ->
    settled (formatDocuments engine ready files examConfig (Some cb))
    = settled (formatDocuments engine ready files examConfig None).
Proof.
  intros ready files cb Hcb.
  destruct (formatDocuments_cases ready files (Some cb))
    as [(e0 & Hl & ->) | [(e0 & Hl & Hc & ->) | (Hl & Hc & ->)]];
    destruct (formatDocuments_cases ready files None)
      as [(e1 & Hl' & ->) | [(e1 & Hl' & Hc' & ->) | (Hl' & Hc' & ->)]];
    cbn [settled]; try congruence.
  rewrite Hcb. f_equal.
  generalize (List.length files). generalize 0.
  induction files as [|file rest IH]; intros i total; [reflexivity |].
  rewrite !format_loop_fst_snd. cbn [snd].
  now rewrite iteration_record_quiet, IH.
Qed.

End FormatterMore.

Lemma progress_is_reported_once_per_record_and_at_the_end_witness :
  set_config (engine_failing_at 1 (OtherValue 0) [7; 7]%N) config = None
  /\ List.length
       (reported
          (actions (formatDocuments (engine_failing_at 1 (OtherValue 0) [7; 7]%N)
                      true three_files config (Some listener)))) = 4
  /\ reported
       (actions (formatDocuments (engine_failing_at 1 (OtherValue 0) [7; 7]%N)
                   true [] config (Some listener)))
     = [of_Z 100].
Proof.
  split; [reflexivity |].
  destruct (progress_is_reported_once_per_record_and_at_the_end
              (engine_failing_at 1 (OtherValue 0) [7; 7]%N) config true
              three_files listener eq_refl eq_refl) as [H1 H2].
  split; [| exact H2].
  rewrite H1, length_app, length_map, length_seq. reflexivity.
Defined.

Lemma formatted_records_keep_identity_witness :
  exists out rec,
    settled (formatDocuments (engine_failing_at 1 (OtherValue 0) [7; 7]%N) true
               three_files config (Some listener)) = inl out
    /\ List.length out = 3
    /\ nth_error out 2 = Some rec
    /\ pf_id rec = py "c3"
    /\ pf_newName rec = Some (py "EX01_marksheet_3.pdf").
Proof.
  eexists.
  assert (E : settled (formatDocuments
                         (engine_failing_at 1 (OtherValue 0) [7; 7]%N) true
                         three_files config (Some listener))
              = inl (snd (format_loop
                            (engine_failing_at 1 (OtherValue 0) [7; 7]%N)
                            config (Some listener) 3 0 three_files)))
    by reflexivity.
  destruct (formatted_records_keep_identity
              (engine_failing_at 1 (OtherValue 0) [7; 7]%N) config true
              three_files (Some listener) _ E) as [Hlen H].
  destruct (H 2 _ eq_refl) as (rec & Hn & Hid & _ & _ & _ & Hname & _).
  exists rec. split; [exact E |]. split; [exact Hlen |].
  split; [exact Hn |]. split; [exact Hid | exact Hname].
Defined.

Lemma no_conversion_without_progress_and_read_witness :
  let unreadable :=
    {| load := None;
       set_config := fun _ => None;
       arrayBuffer :=
         fun i _ => if Nat.eqb i 0 then inr (OtherValue 0) else inl [7]%N;
       format_document := fun _ data _ _ => inl data |} in
  ~ In (Convert 0)
      (actions (formatDocuments unreadable true three_files config None))
  /\ In (Convert 1)
       (actions (formatDocuments unreadable true three_files config None)).
Proof.
  intro unreadable. split.
  - intro H.
    destruct (proj1 (no_conversion_without_progress_and_read unreadable config
                       true three_files None 0) H)
      as (file & buf & Hf & Hbuf & _).
    cbn in Hbuf. discriminate.
  - vm_compute. tauto.
Defined.

Lemma throwing_callback_marks_the_record_failed_witness :
  let picky : Callback :=
    fun n _ => if Nat.eqb n 1
               then Some (ErrorObject (py "progress bar is gone"))
               else None in
  exists out rec,
    settled (formatDocuments (engine_failing_at 9 (OtherValue 0) [7; 7]%N) true
               three_files config (Some picky)) = inl out
    /\ nth_error out 1 = Some rec
    /\ pf_status rec = error
    /\ pf_error rec = Some (py "progress bar is gone").
Proof.
  intro picky.
  destruct (throwing_callback_marks_the_record_failed
              (engine_failing_at 9 (OtherValue 0) [7; 7]%N) config true
              three_files picky 1 _ (ErrorObject (py "progress bar is gone"))
              eq_refl eq_refl eq_refl eq_refl eq_refl)
    as (out & E & _ & Hn & _).
  exists out. eexists. split; [exact E |]. split; [exact Hn |].
  split; reflexivity.
Defined.

Lemma quiet_callback_does_not_change_the_result_witness :
  (forall n v, listener n v = None)
  /\ settled (formatDocuments (engine_failing_at 1 (OtherValue 0) [7; 7]%N) true
                three_files config (Some listener))
     = settled (formatDocuments (engine_failing_at 1 (OtherValue 0) [7; 7]%N)
                  true three_files config None).
Proof.
  assert (H : forall n v, listener n v = None) by reflexivity.
  split; [exact H |].
  exact (quiet_callback_does_not_change_the_result
           (engine_failing_at 1 (OtherValue 0) [7; 7]%N) config true
           three_files listener H).
Defined.

Lemma call_on_fresh_service_initializes_first_witness :
  worker fresh = None /\ awaiting fresh = []
  /\ run fresh [EvCall [photo_file] exam; EvResume] = Some after_first.
Proof.
  split; [reflexivity |]. split; [reflexivity |].
  exact (proj1 (call_on_fresh_service_initializes_first fresh [photo_file]
                  exam eq_refl eq_refl)).
Defined.
